(** * FoodLogger: the detection-to-nutrition estimation pipeline

    A shallow embedding of [backend/app/ml_model.py] and
    [backend/app/pipeline.py], and the properties of the estimation
    pipeline proved over it.

    Conventions of the embedding.
    - Python floats are modelled as exact rationals ([Q]); [round(x, n)]
      is rounding to [n] decimals, ties to even.
    - Python strings are modelled as [string] (8-bit characters); [lower]
      and [title] act on the ASCII letters.
    - The process-global random source is a tape of raw draws carried in
      the state; [random.uniform], [random.randint] and [random.shuffle]
      consume it the way the [random] module does.
    - A function that can raise returns a [res]; [try ... except Exception]
      is [try_except].
    - The detection capability (the transformers pipeline and PIL) is an
      opaque collaborator, given by a [World]. *)

From Stdlib Require Import QArith Qround ZArith Lia Lqa Ascii String.
From stdpp Require Import gmap strings list fin_maps.

Local Open Scope string_scope.

(** ** Python numbers *)

Module PyNum.

Local Open Scope Q_scope.

(** Nearest integer, ties to even. *)
Definition round_half_even (y : Q) : Z :=
  let f := Qfloor y in
  match Qcompare (y - inject_Z f)%Q (1 # 2)%Q with
  | Lt => f
  | Gt => (f + 1)%Z
  | Eq => if Z.even f then f else (f + 1)%Z
  end.

(** [round(x, ndigits)] *)
Definition py_round (x : Q) (ndigits : nat) : Q :=
  Qmake (round_half_even (x * inject_Z (Zpos (10 ^ Pos.of_nat ndigits))))
        (10 ^ Pos.of_nat ndigits).

(** The accumulation [t = 0.0; for v in vs: t += v]. *)
Definition py_sum (vs : list Q) : Q := fold_left Qplus vs 0.0.

End PyNum.

(** ** Python strings *)

Module PyStr.

Definition is_upper (c : Ascii.ascii) : bool :=
  ((65 <=? Ascii.N_of_ascii c) && (Ascii.N_of_ascii c <=? 90))%N.

Definition is_lower (c : Ascii.ascii) : bool :=
  ((97 <=? Ascii.N_of_ascii c) && (Ascii.N_of_ascii c <=? 122))%N.

Definition lower_char (c : Ascii.ascii) : Ascii.ascii :=
  if is_upper c then Ascii.ascii_of_N (Ascii.N_of_ascii c + 32) else c.

Definition upper_char (c : Ascii.ascii) : Ascii.ascii :=
  if is_lower c then Ascii.ascii_of_N (Ascii.N_of_ascii c - 32) else c.

Fixpoint map_chars (f : Ascii.ascii -> Ascii.ascii) (s : string) : string :=
  match s with
  | EmptyString => EmptyString
  | String c s' => String (f c) (map_chars f s')
  end.

(** [s.lower()] *)
Definition lower (s : string) : string := map_chars lower_char s.

(** [s.replace(a, b)] for one-character [a] and [b]. *)
Definition replace_char (a b : Ascii.ascii) (s : string) : string :=
  map_chars (fun c => if Ascii.eqb c a then b else c) s.

(** [s.title()]: a letter that follows a letter is lower-cased, any
    other letter is upper-cased. *)
Fixpoint title_from (previous_is_cased : bool) (s : string) : string :=
  match s with
  | EmptyString => EmptyString
  | String c s' =>
      let cased := is_upper c || is_lower c in
      String (if cased
              then (if previous_is_cased then lower_char c else upper_char c)
              else c)
             (title_from cased s')
  end.

Definition title (s : string) : string := title_from false s.

Fixpoint startswith (p s : string) : bool :=
  match p, s with
  | EmptyString, _ => true
  | String a p', String b s' => Ascii.eqb a b && startswith p' s'
  | String _ _, EmptyString => false
  end.

(** [sub in s] *)
Fixpoint contains (sub s : string) : bool :=
  startswith sub s ||
  match s with
  | EmptyString => false
  | String _ s' => contains sub s'
  end.

End PyStr.

(** ** Exceptions, the process state and the random source *)

Inductive exn : Type :=
| KeyError (key : string)
| AttributeError (what : string)
| TypeError (what : string)
| OtherError (what : string).

Inductive res (A : Type) : Type :=
| Ok (a : A)
| Raise (e : exn).
Arguments Ok {A} a.
Arguments Raise {A} e.

(** Values a prediction of the opaque classifier can hold. *)
Inductive pyval : Type :=
| PyStr (s : string)
| PyFloat (q : Q)
| PyNone.

Record Image : Type := { mode : string; raster : list Byte.byte }.

(** [self.model]: called as [self.model(image, top_k=top_k)]. *)
Definition Classifier : Type :=
  Image -> Z -> res (list (gmap string pyval)).

Record FoodDetectionModel : Type :=
  { model : option Classifier; model_name : string }.

(** The collaborators outside the repository. *)
Record World : Type :=
  { TRANSFORMERS_AVAILABLE : bool;
    (** [pipeline("image-classification", model=..., device=-1)] *)
    transformers_pipeline : string -> string -> Z -> res Classifier;
    (** [Image.open(io.BytesIO(image_bytes))] *)
    Image_open : list Byte.byte -> res Image;
    (** [image.convert('RGB')] *)
    Image_convert : Image -> string -> res Image }.

Record State : Type :=
  { rng : list N;                                   (* the random source *)
    model_instance : option FoodDetectionModel }.   (* [_model_instance] *)

Definition M (A : Type) : Type := State -> res A * State.

Definition ret {A} (a : A) : M A := fun s => (Ok a, s).

Definition raise {A} (e : exn) : M A := fun s => (Raise e, s).

Definition bind {A B} (m : M A) (k : A -> M B) : M B :=
  fun s =>
    match m s with
    | (Ok a, s') => k a s'
    | (Raise e, s') => (Raise e, s')
    end.

Definition lift {A} (r : res A) : M A := fun s => (r, s).

(** [try: body  except Exception as e: handler] *)
Definition try_except {A} (body : M A) (handler : exn -> M A) : M A :=
  fun s =>
    match body s with
    | (Ok a, s') => (Ok a, s')
    | (Raise e, s') => handler e s'
    end.

Declare Scope py_scope.
Delimit Scope py_scope with py.
Notation "'let*' x := m 'in' k" := (bind m (fun x => k))
  (at level 10, x name, m at level 100, k at level 200) : py_scope.
Local Open Scope py_scope.

(** [d[key]] *)
Definition dict_get {V} (d : gmap string V) (key : string) : res V :=
  match d !! key with
  | Some v => Ok v
  | None => Raise (KeyError key)
  end.

Module PyRandom.

Local Open Scope Q_scope.

Definition next_draw : M N :=
  fun s =>
    match rng s with
    | [] => (Ok 0%N, s)
    | d :: t => (Ok d, {| rng := t; model_instance := model_instance s |})
    end.

(** A number in [0, n). *)
Definition randbelow (n : N) : M N :=
  let* d := next_draw in ret (d mod n)%N.

(** [random.random()]: a multiple of [2^-53] in [0, 1). *)
Definition random : M Q :=
  let* d := next_draw in ret (Qmake (Z.of_N (d mod 2 ^ 53)%N) (2 ^ 53)).

(** [random.uniform(a, b)] is [a + (b - a) * random()]. *)
Definition uniform (a b : Q) : M Q :=
  let* r := random in ret (a + (b - a) * r).

(** [random.randint(a, b)] *)
Definition randint (a b : Z) : M Z :=
  let* k := randbelow (Z.to_N (b - a + 1)) in ret (a + Z.of_N k)%Z.

(** [x[i], x[j] = x[j], x[i]] *)
Definition swap {A} (x : list A) (i j : nat) : list A :=
  match x !! i, x !! j with
  | Some a, Some b => <[i := b]> (<[j := a]> x)
  | _, _ => x
  end.

(** [for i in reversed(range(1, len(x))): j = randbelow(i + 1); swap] *)
Fixpoint shuffle_from {A} (i : nat) (x : list A) : M (list A) :=
  match i with
  | O => ret x
  | S i' =>
      let* j := randbelow (N.of_nat (S i)) in
      shuffle_from i' (swap x i (N.to_nat j))
  end.

(** [random.shuffle(x)] *)
Definition shuffle {A} (x : list A) : M (list A) :=
  shuffle_from (length x - 1) x.

End PyRandom.

(** ** [backend/app/ml_model.py] *)

Module ml_model.

Import PyNum PyStr PyRandom.

(** An entry of [detected_items]. *)
Record Detection : Type :=
  { label : string; display_name : string; confidence : pyval }.

Record FoodReference : Type :=
  { calories_per_100g : Q;
    protein_per_100g : Q;
    carbs_per_100g : Q;
    fat_per_100g : Q;
    density_g_per_ml : Q;
    typical_serving_g : Q }.

Record EstimatedItem : Type :=
  { name : string;
    code : string;
    estimated_volume_ml : Q;
    estimated_weight_g : Q;
    estimated_calories_kcal : Q;
    estimated_protein_g : Q;
    estimated_carbs_g : Q;
    estimated_fat_g : Q;
    item_confidence : Q }.

(** What [estimate_nutrition] returns. *)
Record MealEstimate : Type :=
  { items : list EstimatedItem;
    total_calories_kcal : Q;
    total_protein_g : Q;
    total_carbs_g : Q;
    total_fat_g : Q }.

Definition food (kcal protein carbs fat density serving : Q) : FoodReference :=
  {| calories_per_100g := kcal; protein_per_100g := protein;
     carbs_per_100g := carbs; fat_per_100g := fat;
     density_g_per_ml := density; typical_serving_g := serving |}.

Definition NUTRITION_ENTRIES : list (string * FoodReference) :=
  [ ("grilled_chicken", food 165 31.0 0.0 3.6 1.05 150);
    ("chicken_breast",  food 165 31.0 0.0 3.6 1.05 150);
    ("salmon",          food 208 20.0 0.0 13.0 1.05 120);
    ("steak",           food 271 25.0 0.0 19.0 1.05 200);
    ("rice",            food 130 2.7 28.0 0.3 0.85 150);
    ("pasta",           food 131 5.0 25.0 1.1 0.9 180);
    ("bread",           food 265 9.0 49.0 3.2 0.4 60);
    ("potato",          food 77 2.0 17.0 0.1 1.1 150);
    ("broccoli",        food 55 3.7 7.0 0.4 0.6 100);
    ("salad",           food 35 1.5 3.0 0.2 0.3 100);
    ("carrots",         food 41 0.9 10.0 0.2 0.6 80);
    ("default",         food 150 10.0 15.0 5.0 1.0 100) ]%Q.

Definition NUTRITION_DATABASE : gmap string FoodReference :=
  list_to_map NUTRITION_ENTRIES.

(** [key in d] *)
Definition dict_mem {V} (key : string) (d : gmap string V) : bool :=
  match d !! key with Some _ => true | None => false end.

Definition normalize_food_label (label : string) : string :=
  let label_lower := replace_char "_" " " (lower label) in
  if dict_mem label_lower NUTRITION_DATABASE then label_lower
  else if contains "chicken" label_lower then "grilled_chicken"
  else if contains "salmon" label_lower || contains "fish" label_lower then "salmon"
  else if contains "beef" label_lower || contains "steak" label_lower then "steak"
  else if contains "rice" label_lower then "rice"
  else if contains "pasta" label_lower || contains "spaghetti" label_lower then "pasta"
  else if contains "bread" label_lower || contains "toast" label_lower then "bread"
  else if contains "potato" label_lower || contains "fries" label_lower then "potato"
  else if contains "broccoli" label_lower then "broccoli"
  else if contains "salad" label_lower || contains "lettuce" label_lower then "salad"
  else if contains "carrot" label_lower then "carrots"
  else "default".

(** [round(confidence, 2)] on a value of unknown type. *)
Definition round_value (v : pyval) (ndigits : nat) : res Q :=
  match v with
  | PyFloat q => Ok (py_round q ndigits)
  | PyStr _ => Raise (TypeError "type str doesn't define __round__ method")
  | PyNone => Raise (TypeError "type NoneType doesn't define __round__ method")
  end.

(** The body of the loop of [estimate_nutrition], for one detection. *)
Definition estimate_item (detection : Detection) : M EstimatedItem :=
  let normalized_label := normalize_food_label (label detection) in
  let* fallback := lift (dict_get NUTRITION_DATABASE "default") in
  let nutrition := default fallback (NUTRITION_DATABASE !! normalized_label) in
  let base_serving := typical_serving_g nutrition in
  let* jitter := uniform 0.8 1.2 in
  let serving_g := py_round (base_serving * jitter) 1 in
  let factor := (serving_g / 100.0)%Q in
  let calories := py_round (calories_per_100g nutrition * factor) 1 in
  let protein := py_round (protein_per_100g nutrition * factor) 1 in
  let carbs := py_round (carbs_per_100g nutrition * factor) 1 in
  let fat := py_round (fat_per_100g nutrition * factor) 1 in
  let volume_ml := py_round (serving_g / density_g_per_ml nutrition) 1 in
  let* conf := lift (round_value (confidence detection) 2) in
  ret {| name := display_name detection;
         code := normalized_label;
         estimated_volume_ml := volume_ml;
         estimated_weight_g := serving_g;
         estimated_calories_kcal := calories;
         estimated_protein_g := protein;
         estimated_carbs_g := carbs;
         estimated_fat_g := fat;
         item_confidence := conf |}.

(** The loop of [estimate_nutrition]: the state of the loop is the list
    [items] and the four running totals. *)
Fixpoint estimate_loop (detected_items : list Detection) (acc : MealEstimate)
  : M MealEstimate :=
  match detected_items with
  | [] => ret acc
  | detection :: rest =>
      let* it := estimate_item detection in
      estimate_loop rest
        {| items := items acc ++ [it];
           total_calories_kcal := total_calories_kcal acc + estimated_calories_kcal it;
           total_protein_g := total_protein_g acc + estimated_protein_g it;
           total_carbs_g := total_carbs_g acc + estimated_carbs_g it;
           total_fat_g := total_fat_g acc + estimated_fat_g it |}
  end.

Definition estimate_nutrition (detected_items : list Detection) : M MealEstimate :=
  let* r := estimate_loop detected_items
              {| items := []; total_calories_kcal := 0.0; total_protein_g := 0.0;
                 total_carbs_g := 0.0; total_fat_g := 0.0 |} in
  ret {| items := items r;
         total_calories_kcal := py_round (total_calories_kcal r) 1;
         total_protein_g := py_round (total_protein_g r) 1;
         total_carbs_g := py_round (total_carbs_g r) 1;
         total_fat_g := py_round (total_fat_g r) 1 |}.

Definition mock (l d : string) (c : Q) : Detection :=
  {| label := l; display_name := d; confidence := PyFloat c |}.

Definition fallback_candidates : list Detection :=
  [ mock "grilled_chicken" "Grilled Chicken" 0.87;
    mock "rice" "Rice" 0.82;
    mock "broccoli" "Broccoli" 0.78;
    mock "salad" "Salad" 0.75;
    mock "pasta" "Pasta" 0.73;
    mock "salmon" "Salmon" 0.71 ]%Q.

(** [FoodDetectionModel._fallback_detection] *)
Definition _fallback_detection : M (list Detection) :=
  let* candidates := shuffle fallback_candidates in
  let* n := randint 2 3 in
  ret (take (Z.to_nat n) candidates).

(** [label.replace('_', ' ').title()] on a value of unknown type. *)
Definition clean_label_of (v : pyval) : res string :=
  match v with
  | PyStr s => Ok (title (replace_char "_" " " s))
  | PyFloat _ => Raise (AttributeError "'float' object has no attribute 'replace'")
  | PyNone => Raise (AttributeError "'NoneType' object has no attribute 'replace'")
  end.

Definition str_of (v : pyval) : string :=
  match v with PyStr s => s | _ => "" end.

(** The loop [for pred in predictions] of [detect_food_items]. *)
Fixpoint convert_predictions (predictions : list (gmap string pyval))
    (detected_items : list Detection) : res (list Detection) :=
  match predictions with
  | [] => Ok detected_items
  | pred :: rest =>
      match dict_get pred "label" with
      | Raise e => Raise e
      | Ok lbl =>
          match dict_get pred "score" with
          | Raise e => Raise e
          | Ok conf =>
              match clean_label_of lbl with
              | Raise e => Raise e
              | Ok clean_label =>
                  convert_predictions rest
                    (detected_items ++
                     [ {| label := str_of lbl; display_name := clean_label;
                          confidence := conf |} ])
              end
          end
      end
  end.

Section WithWorld.

Variable W : World.

(** [FoodDetectionModel._initialize_model] *)
Definition _initialize_model (self : FoodDetectionModel) : FoodDetectionModel :=
  if negb (TRANSFORMERS_AVAILABLE W) then self
  else
    match transformers_pipeline W "image-classification" (model_name self) (-1) with
    | Ok m => {| model := Some m; model_name := model_name self |}
    | Raise _ => {| model := None; model_name := model_name self |}
    end.

(** [FoodDetectionModel.__init__] *)
Definition new_FoodDetectionModel : FoodDetectionModel :=
  _initialize_model {| model := None; model_name := "nateraw/food" |}.

(** The body of the [try] of [detect_food_items]. *)
Definition run_model (classify : Classifier)
    (image_bytes : list Byte.byte) (top_k : Z) : M (list Detection) :=
  let* image := lift (Image_open W image_bytes) in
  let* image := (if negb (String.eqb (mode image) "RGB")
                 then lift (Image_convert W image "RGB")
                 else ret image) in
  let* predictions := lift (classify image top_k) in
  lift (convert_predictions predictions []).

Definition detect_food_items (self : FoodDetectionModel)
    (image_bytes : list Byte.byte) (top_k : Z) : M (list Detection) :=
  match model self with
  | None => _fallback_detection
  | Some classify =>
      try_except (run_model classify image_bytes top_k)
                 (fun _ => _fallback_detection)
  end.

(** [get_model] *)
Definition get_model : M FoodDetectionModel :=
  fun s =>
    match model_instance s with
    | Some m => (Ok m, s)
    | None =>
        let m := new_FoodDetectionModel in
        (Ok m, {| rng := rng s; model_instance := Some m |})
    end.

End WithWorld.

End ml_model.

(** ** [backend/app/pipeline.py] *)

Module pipeline.

Import PyNum PyStr PyRandom.
Import ml_model (EstimatedItem, MealEstimate).

Record FoodItemDetection : Type := { label : string; confidence : Q }.

Definition DENSITY_TABLE_G_PER_ML : gmap string Q :=
  list_to_map
    [ ("grilled_chicken_breast", 1.05); ("steamed_rice", 0.85);
      ("broccoli", 0.6); ("mixed_salad", 0.3) ]%Q.

Definition CALORIE_TABLE_KCAL_PER_100G : gmap string Q :=
  list_to_map
    [ ("grilled_chicken_breast", 165.0); ("steamed_rice", 130.0);
      ("broccoli", 55.0); ("mixed_salad", 35.0) ]%Q.

Definition DISPLAY_NAMES : gmap string string :=
  list_to_map
    [ ("grilled_chicken_breast", "Grilled chicken breast");
      ("steamed_rice", "Steamed rice");
      ("broccoli", "Broccoli");
      ("mixed_salad", "Mixed salad") ].

Record MacroReference : Type := { protein : Q; carbs : Q; fat : Q }.

Definition MACROS_TABLE_PER_100G : gmap string MacroReference :=
  list_to_map
    [ ("grilled_chicken_breast", {| protein := 31.0; carbs := 0.0; fat := 3.6 |});
      ("steamed_rice", {| protein := 2.7; carbs := 28.0; fat := 0.3 |});
      ("broccoli", {| protein := 3.7; carbs := 7.0; fat := 0.4 |});
      ("mixed_salad", {| protein := 1.5; carbs := 3.0; fat := 0.2 |}) ]%Q.

Record Macros : Type := { protein_g : Q; carbs_g : Q; fat_g : Q }.

Definition mock_candidates : list FoodItemDetection :=
  [ {| label := "grilled_chicken_breast"; confidence := 0.78 |};
    {| label := "steamed_rice"; confidence := 0.72 |};
    {| label := "broccoli"; confidence := 0.68 |};
    {| label := "mixed_salad"; confidence := 0.65 |} ]%Q.

Definition mock_detect_food_items : M (list FoodItemDetection) :=
  let* candidates := shuffle mock_candidates in
  let* n := randint 2 3 in
  ret (take (Z.to_nat n) candidates).

Definition base_volumes : gmap string Q :=
  list_to_map
    [ ("grilled_chicken_breast", 120.0); ("steamed_rice", 180.0);
      ("broccoli", 90.0); ("mixed_salad", 150.0) ]%Q.

(** The loop of [estimate_volumes_ml]. *)
Fixpoint estimate_volumes_loop (detections : list FoodItemDetection)
    (volumes : gmap string Q) : M (gmap string Q) :=
  match detections with
  | [] => ret volumes
  | d :: rest =>
      let v := default 100.0%Q (base_volumes !! label d) in
      let* jitter := uniform 0.9 1.1 in
      estimate_volumes_loop rest (<[label d := py_round (v * jitter) 1]> volumes)
  end.

Definition estimate_volumes_ml (detections : list FoodItemDetection)
  : M (gmap string Q) :=
  estimate_volumes_loop detections ∅.

Definition convert_volume_to_weight_g (volumes_ml : gmap string Q) : gmap string Q :=
  map_imap (fun label vol_ml =>
              let density := default 1.0%Q (DENSITY_TABLE_G_PER_ML !! label) in
              Some (py_round (vol_ml * density) 1))
           volumes_ml.

Definition compute_calories_kcal (weights_g : gmap string Q) : gmap string Q :=
  map_imap (fun label weight_g =>
              let per_100 := default 100.0%Q (CALORIE_TABLE_KCAL_PER_100G !! label) in
              Some (py_round (weight_g * per_100 / 100.0) 1))
           weights_g.

Definition compute_macros_grams (weights_g : gmap string Q) : gmap string Macros :=
  map_imap (fun label weight_g =>
              let per100 :=
                default {| protein := 5.0; carbs := 10.0; fat := 2.0 |}%Q
                        (MACROS_TABLE_PER_100G !! label) in
              let factor := (weight_g / 100.0)%Q in
              Some {| protein_g := py_round (protein per100 * factor) 1;
                      carbs_g := py_round (carbs per100 * factor) 1;
                      fat_g := py_round (fat per100 * factor) 1 |})
           weights_g.

(** The ["pipeline"] record of a result. *)
Record PipelineInfo : Type :=
  { version : string;
    model_used : option string;
    notes : string;
    capabilities : list (string * string);
    assumptions : list (string * string) }.

Record Source : Type := { filename : option string }.

(** What the two entry points return: the fields of a [MealEstimate]
    together with ["pipeline"] and ["source"]. *)
Record PipelineResult : Type :=
  { estimate : MealEstimate;
    pipeline : PipelineInfo;
    source : Source }.

(** The loop [for det in detections] of [run_fallback_pipeline]. *)
Fixpoint fallback_loop (volumes weights calories : gmap string Q)
    (macros : gmap string Macros) (detections : list FoodItemDetection)
    (acc : MealEstimate) : res MealEstimate :=
  match detections with
  | [] => Ok acc
  | det :: rest =>
      match dict_get volumes (label det), dict_get weights (label det),
            dict_get calories (label det), dict_get macros (label det) with
      | Ok vol_ml, Ok w_g, Ok kcal, Ok macro =>
          fallback_loop volumes weights calories macros rest
            {| ml_model.items :=
                 ml_model.items acc ++
                 [ {| ml_model.name := default (label det) (DISPLAY_NAMES !! label det);
                      ml_model.code := label det;
                      ml_model.estimated_volume_ml := vol_ml;
                      ml_model.estimated_weight_g := w_g;
                      ml_model.estimated_calories_kcal := kcal;
                      ml_model.estimated_protein_g := protein_g macro;
                      ml_model.estimated_carbs_g := carbs_g macro;
                      ml_model.estimated_fat_g := fat_g macro;
                      ml_model.item_confidence := py_round (confidence det) 2 |} ];
               ml_model.total_calories_kcal := ml_model.total_calories_kcal acc + kcal;
               ml_model.total_protein_g := ml_model.total_protein_g acc + protein_g macro;
               ml_model.total_carbs_g := ml_model.total_carbs_g acc + carbs_g macro;
               ml_model.total_fat_g := ml_model.total_fat_g acc + fat_g macro |}
      | Raise e, _, _, _ => Raise e
      | _, Raise e, _, _ => Raise e
      | _, _, Raise e, _ => Raise e
      | _, _, _, Raise e => Raise e
      end
  end.

Definition fallback_info : PipelineInfo :=
  {| version := "fallback-mock-0.1";
     model_used := None;
     notes := "Fallback mock pipeline - ML model not available.";
     capabilities := [];
     assumptions := [] |}.

(** [run_fallback_pipeline] from its second statement on: the stages and
    the assembly, for the detections drawn by its first statement. *)
Definition fallback_from (detections : list FoodItemDetection)
    (fname : option string) : M PipelineResult :=
  let* volumes := estimate_volumes_ml detections in
  let weights := convert_volume_to_weight_g volumes in
  let calories := compute_calories_kcal weights in
  let macros := compute_macros_grams weights in
  let* r := lift (fallback_loop volumes weights calories macros detections
                    {| ml_model.items := [];
                       ml_model.total_calories_kcal := 0.0;
                       ml_model.total_protein_g := 0.0;
                       ml_model.total_carbs_g := 0.0;
                       ml_model.total_fat_g := 0.0 |}) in
  ret {| estimate :=
           {| ml_model.items := ml_model.items r;
              ml_model.total_calories_kcal := py_round (ml_model.total_calories_kcal r) 1;
              ml_model.total_protein_g := py_round (ml_model.total_protein_g r) 1;
              ml_model.total_carbs_g := py_round (ml_model.total_carbs_g r) 1;
              ml_model.total_fat_g := py_round (ml_model.total_fat_g r) 1 |};
         pipeline := fallback_info;
         source := {| filename := fname |} |}.

Definition run_fallback_pipeline (fname : option string) : M PipelineResult :=
  let* detections := mock_detect_food_items in
  fallback_from detections fname.

Definition ml_info : PipelineInfo :=
  {| version := "ml-powered-1.0";
     model_used := Some "nateraw/food (Food101)";
     notes := "Real ML-based food recognition using Vision Transformer trained on Food101 dataset.";
     capabilities :=
       [ ("food_detection", "Pre-trained on 101 food categories");
         ("confidence_scoring", "Model provides confidence scores for predictions");
         ("multi_item_detection", "Can detect multiple food items in a single image") ];
     assumptions :=
       [ ("serving_size", "Estimated based on typical portions for detected foods");
         ("nutrition_database", "Uses USDA nutritional data for common foods");
         ("visible_only", "Only visually detectable ingredients considered") ] |}.

Section WithWorld.

Variable W : World.

(** The body of the [try] of [run_baseline_pipeline]. *)
Definition primary_path (image_bytes : list Byte.byte) (fname : option string)
  : M PipelineResult :=
  let* model := ml_model.get_model W in
  let* detected_items := ml_model.detect_food_items W model image_bytes 3 in
  let* nutrition_result := ml_model.estimate_nutrition detected_items in
  ret {| estimate := nutrition_result;
         pipeline := ml_info;
         source := {| filename := fname |} |}.

Definition run_baseline_pipeline (image_bytes : list Byte.byte)
    (fname : option string) : M PipelineResult :=
  try_except (primary_path image_bytes fname)
             (fun _ => run_fallback_pipeline fname).

End WithWorld.

End pipeline.

(** ** [backend/app/main.py]: the upload handler *)

Module main.

(** What a handler answers: a response body, or a raised
    [HTTPException]. *)
Inductive http (A : Type) : Type :=
| Respond (body : A)
| HTTPException (status_code : Z) (detail : string).
Arguments Respond {A} body.
Arguments HTTPException {A} status_code detail.

Record UploadFile : Type :=
  { content_type : option string;
    filename : option string;
    content : list Byte.byte }.     (* what [await image.read()] returns *)

(** [not image.content_type or not image.content_type.startswith("image/")] *)
Definition not_an_image (image : UploadFile) : bool :=
  match content_type image with
  | None => true
  | Some ct => String.eqb ct "" || negb (PyStr.startswith "image/" ct)
  end.

Section WithWorld.

Variable W : World.

Definition analyze_meal (image : UploadFile) : M (http pipeline.PipelineResult) :=
  if not_an_image image
  then ret (HTTPException 400 "Uploaded file must be an image")
  else
    let image_bytes := content image in
    match image_bytes with
    | [] => ret (HTTPException 400 "Empty image uploaded")
    | _ :: _ =>
        let* result := pipeline.run_baseline_pipeline W image_bytes (filename image) in
        ret (Respond result)
    end.

End WithWorld.

End main.

(** ** [backend/app/db.py] *)

Module db.

Local Open Scope Q_scope.

(** A [date] is its proleptic Gregorian ordinal (1 is 0001-01-01,
    3652059 is 9999-12-31), a [datetime] the number of microseconds
    since the midnight before 0001-01-01, a [timedelta] a number of
    days. *)
Definition MIN_ORDINAL : Z := 1.
Definition MAX_ORDINAL : Z := 3652059.
Definition DAY : Z := 86400000000.

Definition OverflowError {A} : res A :=
  Raise (OtherError "OverflowError: date value out of range").

(** [timedelta(days=n)] *)
Definition timedelta (n : Z) : res Z :=
  if (Z.abs n <=? 999999999)%Z then Ok n
  else Raise (OtherError "OverflowError: days must have magnitude <= 999999999").

(** [d + timedelta(days=n)] on a date *)
Definition date_add (d n : Z) : res Z :=
  if ((MIN_ORDINAL <=? d + n) && (d + n <=? MAX_ORDINAL))%Z
  then Ok (d + n)%Z else OverflowError.

(** [t + timedelta(days=n)] on a datetime *)
Definition datetime_add (t n : Z) : res Z :=
  if ((MIN_ORDINAL * DAY <=? t + n * DAY) &&
      (t + n * DAY <? (MAX_ORDINAL + 1) * DAY))%Z
  then Ok (t + n * DAY)%Z else OverflowError.

(** [datetime.combine(d, datetime.min.time())] *)
Definition midnight (d : Z) : Z := (d * DAY)%Z.

(** [t.date()] *)
Definition date_of (t : Z) : Z := (t / DAY)%Z.

Record MealItem : Type :=
  { label : string;
    weight_g : Q;
    calories_kcal : Q;
    protein_g : Q;
    carbs_g : Q;
    fat_g : Q }.

(** A row of [meal_logs], with the rows of [meal_items] that refer to
    it (the relationship [items]). The table [meal_logs] is a
    [gmap Z MealLog], by primary key. *)
Record MealLog : Type :=
  { created_at : Z;
    total_calories_kcal : Q;
    total_protein_g : Q;
    total_carbs_g : Q;
    total_fat_g : Q;
    source_filename : option string;
    items : list MealItem }.

Record Summary : Type :=
  { days : Z;
    sum_calories_kcal : Q;
    sum_protein_g : Q;
    sum_carbs_g : Q;
    sum_fat_g : Q }.

(** [func.sum(column)]: NULL over no row. *)
Definition sql_sum (vs : list Q) : option Q :=
  match vs with
  | [] => None
  | v :: rest => Some (fold_left Qplus rest v)
  end.

(** [func.coalesce(func.sum(column), 0.0)] *)
Definition coalesce_sum (vs : list Q) : Q := default 0.0 (sql_sum vs).

(** [.filter(MealLog.created_at >= start, MealLog.created_at < end)] *)
Definition created_between (start end_ : Z) (db : gmap Z MealLog) : list MealLog :=
  filter (fun log => (start <= created_at log < end_)%Z) (map_to_list db).*2.

Definition _summary_between (db : gmap Z MealLog) (start end_ : Z) : Summary :=
  let rows := created_between start end_ db in
  {| days := (date_of end_ - date_of start)%Z;
     sum_calories_kcal := coalesce_sum (map total_calories_kcal rows);
     sum_protein_g := coalesce_sum (map total_protein_g rows);
     sum_carbs_g := coalesce_sum (map total_carbs_g rows);
     sum_fat_g := coalesce_sum (map total_fat_g rows) |}.

Definition daily_summary (db : gmap Z MealLog) (target_date : Z) : res Summary :=
  let start := midnight target_date in
  match datetime_add start 1 with
  | Ok end_ => Ok (_summary_between db start end_)
  | Raise e => Raise e
  end.

(** [today] is [datetime.now().date()]. *)
Definition rolling_summary (db : gmap Z MealLog) (today : Z) (days : Z)
    (until : option Z) : res Summary :=
  let until := default today until in
  match date_add until 1 with
  | Raise e => Raise e
  | Ok next =>
      let end_ := midnight next in
      match timedelta days with
      | Raise e => Raise e
      | Ok n =>
          match datetime_add end_ (- n) with
          | Raise e => Raise e
          | Ok start => Ok (_summary_between db start end_)
          end
      end
  end.

(** ["date"] is kept as the date it is rendered from. *)
Record DayHistoryRow : Type :=
  { date : Z;
    meals : Z;
    day_calories_kcal : Q;
    day_protein_g : Q;
    day_carbs_g : Q;
    day_fat_g : Q }.

(** The body of the loop of [history_by_day], for the offset [i]. *)
Definition history_row (db : gmap Z MealLog) (start_date i : Z) : res DayHistoryRow :=
  match timedelta i with
  | Raise e => Raise e
  | Ok n =>
      match date_add start_date n with
      | Raise e => Raise e
      | Ok current =>
          let day_start := midnight current in
          match datetime_add day_start 1 with
          | Raise e => Raise e
          | Ok day_end =>
              let rows := created_between day_start day_end db in
              Ok {| date := current;
                    meals := Z.of_nat (length rows);
                    day_calories_kcal := coalesce_sum (map total_calories_kcal rows);
                    day_protein_g := coalesce_sum (map total_protein_g rows);
                    day_carbs_g := coalesce_sum (map total_carbs_g rows);
                    day_fat_g := coalesce_sum (map total_fat_g rows) |}
          end
      end
  end.

(** The loop [for i in range(days)] of [history_by_day]. *)
Fixpoint history_loop (db : gmap Z MealLog) (start_date : Z) (offsets : list Z)
    (results : list DayHistoryRow) : res (list DayHistoryRow) :=
  match offsets with
  | [] => Ok results
  | i :: rest =>
      match history_row db start_date i with
      | Raise e => Raise e
      | Ok row => history_loop db start_date rest (results ++ [row])
      end
  end.

Definition history_by_day (db : gmap Z MealLog) (start_date days : Z)
  : res (list DayHistoryRow) :=
  history_loop db start_date (seqZ 0 days) [].

(** What [get_meal_log] returns; ["created_at"] is kept as the datetime
    it is rendered from. *)
Record MealView : Type :=
  { view_id : Z;
    view_created_at : Z;
    view_total_calories_kcal : Q;
    view_total_protein_g : Q;
    view_total_carbs_g : Q;
    view_total_fat_g : Q;
    view_source_filename : option string;
    view_items : list MealItem }.

(** A bound integer parameter: the driver refuses a Python int that does
    not fit the 64-bit INTEGER of SQLite. *)
Definition sqlite_integer (n : Z) : res Z :=
  if ((- 2 ^ 63 <=? n) && (n <? 2 ^ 63))%Z then Ok n
  else Raise (OtherError
                "OverflowError: Python int too large to convert to SQLite INTEGER").

Definition get_meal_log (db : gmap Z MealLog) (log_id : Z) : res (option MealView) :=
  match sqlite_integer log_id with
  | Raise e => Raise e
  | Ok key =>
      match db !! key with
      | None => Ok None
      | Some log =>
          Ok (Some {| view_id := key;
                      view_created_at := created_at log;
                      view_total_calories_kcal := total_calories_kcal log;
                      view_total_protein_g := total_protein_g log;
                      view_total_carbs_g := total_carbs_g log;
                      view_total_fat_g := total_fat_g log;
                      view_source_filename := source_filename log;
                      view_items := items log |})
      end
  end.

Definition delete_meal_log (db : gmap Z MealLog) (log_id : Z) : res (gmap Z MealLog) :=
  match sqlite_integer log_id with
  | Raise e => Raise e
  | Ok key =>
      match db !! key with
      | Some _ => Ok (delete key db)
      | None => Ok db
      end
  end.

End db.

(** ** [backend/app/main.py]: the handlers over the stored logs *)

Module main_logs.

Import main.

(** The body [delete_meal] returns is [{"status": "deleted", "id": log_id}]. *)
Definition delete_meal (db : gmap Z db.MealLog) (log_id : Z)
  : res (http Z) * gmap Z db.MealLog :=
  match db.get_meal_log db log_id with
  | Raise e => (Raise e, db)
  | Ok None => (Ok (HTTPException 404 "Meal log not found"), db)
  | Ok (Some _) =>
      match db.delete_meal_log db log_id with
      | Raise e => (Raise e, db)
      | Ok db' => (Ok (Respond log_id), db')
      end
  end.

End main_logs.

(** * Sample worlds *)

Definition fresh (tape : list N) : State :=
  {| rng := tape; model_instance := None |}.

(** No transformers library: the model is never initialized. *)
Definition world_no_transformers : World :=
  {| TRANSFORMERS_AVAILABLE := false;
     transformers_pipeline := fun _ _ _ => Raise (OtherError "No module named 'transformers'");
     Image_open := fun b => Ok {| mode := "RGB"; raster := b |};
     Image_convert := fun im _ => Ok im |}.

(** A loaded model whose inference is [classify]. *)
Definition world_with (classify : Classifier) : World :=
  {| TRANSFORMERS_AVAILABLE := true;
     transformers_pipeline := fun _ _ _ => Ok classify;
     Image_open := fun b => Ok {| mode := "RGB"; raster := b |};
     Image_convert := fun im _ => Ok im |}.

Definition prediction (lbl score : pyval) : gmap string pyval :=
  <["label" := lbl]> (<["score" := score]> ∅).

Definition classify_raises : Classifier :=
  fun _ _ => Raise (OtherError "inference failed").

Definition classify_nothing : Classifier := fun _ _ => Ok [].

Definition classify_bad_score : Classifier :=
  fun _ _ => Ok [ prediction (PyStr "pizza") PyNone ].

Definition classify_two_chickens : Classifier :=
  fun _ _ => Ok [ prediction (PyStr "chicken_wings") (PyFloat 0.61);
                  prediction (PyStr "chicken_curry") (PyFloat 0.23) ].

Definition classify_one_bad : Classifier :=
  fun _ _ => Ok [ prediction (PyStr "pizza") (PyFloat 0.93%Q);
                  <["label" := PyStr "sushi"]> ∅ ].

Definition sample_log (t : Z) (kcal : Q) (name : string) : db.MealLog :=
  {| db.created_at := t;
     db.total_calories_kcal := kcal;
     db.total_protein_g := 10.0%Q;
     db.total_carbs_g := 20.0%Q;
     db.total_fat_g := 5.0%Q;
     db.source_filename := Some name;
     db.items := [] |}.

(** Three logs: two on day 739000 (at 08:00 and at 23:59:59.999999) and
    one at the midnight that starts day 739001. *)
Definition sample_logs : gmap Z db.MealLog :=
  <[1%Z := sample_log (739000 * 86400000000 + 28800000000) 300.0%Q "a.jpg"]>
  (<[2%Z := sample_log (739000 * 86400000000 + 86399999999) 200.5%Q "b.jpg"]>
  (<[5%Z := sample_log (739001 * 86400000000) 100.0%Q "c.jpg"]> ∅)).

(** * Specification predicates *)

Definition scale (ndigits : nat) : positive := (10 ^ Pos.of_nat ndigits)%positive.

(** A number with at most [n] decimals. *)
Definition decimal (n : nat) (q : Q) : Prop := exists z : Z, (q == Qmake z (scale n))%Q.

Section Predicates.

Import PyNum PyStr ml_model.
Local Open Scope Q_scope.

(** The string the normalizer matches on. *)
Definition label_lower (lbl : string) : string :=
  replace_char "_" " " (lower lbl).

(** The substrings of the keyword rules of [normalize_food_label]. *)
Definition KEYWORDS : list string :=
  [ "chicken"; "salmon"; "fish"; "beef"; "steak"; "rice"; "pasta"; "spaghetti";
    "bread"; "toast"; "potato"; "fries"; "broccoli"; "salad"; "lettuce"; "carrot" ].

(** The display form of a label, as [detect_food_items] builds it. *)
Definition display_form (lbl : string) : string :=
  title (replace_char "_" " " lbl).

(** [NUTRITION_DATABASE.get(code, NUTRITION_DATABASE['default'])] *)
Definition reference_of (c : string) : FoodReference :=
  default (food 150 10.0 15.0 5.0 1.0 100) (NUTRITION_DATABASE !! c).

Record reference_ok (r : FoodReference) : Prop :=
  { ok_calories : 0 <= calories_per_100g r;
    ok_protein : 0 <= protein_per_100g r;
    ok_carbs : 0 <= carbs_per_100g r;
    ok_fat : 0 <= fat_per_100g r;
    ok_density : 0 < density_g_per_ml r;
    ok_serving : 2 <= typical_serving_g r }.

Definition is_float (v : pyval) : bool :=
  match v with PyFloat _ => true | _ => false end.

(** The item the weight-first path builds for a detection, given the
    jitter draw [u] and the confidence [c]. *)
Record item_estimated_from (d : Detection) (u c : Q) (it : EstimatedItem) : Prop :=
  { from_name : name it = display_name d;
    from_code : code it = normalize_food_label (label d);
    from_weight :
      estimated_weight_g it = py_round (typical_serving_g (reference_of (code it)) * u) 1;
    from_volume :
      estimated_volume_ml it =
      py_round (estimated_weight_g it / density_g_per_ml (reference_of (code it))) 1;
    from_calories :
      estimated_calories_kcal it =
      py_round (calories_per_100g (reference_of (code it))
                * (estimated_weight_g it / 100.0)) 1;
    from_protein :
      estimated_protein_g it =
      py_round (protein_per_100g (reference_of (code it))
                * (estimated_weight_g it / 100.0)) 1;
    from_carbs :
      estimated_carbs_g it =
      py_round (carbs_per_100g (reference_of (code it))
                * (estimated_weight_g it / 100.0)) 1;
    from_fat :
      estimated_fat_g it =
      py_round (fat_per_100g (reference_of (code it))
                * (estimated_weight_g it / 100.0)) 1;
    from_confidence : item_confidence it = py_round c 2 }.

(** [it] is the item of detection [d], for some jitter draw in the
    sampling range. *)
Definition estimated_from (d : Detection) (it : EstimatedItem) : Prop :=
  exists u c, 0.8 <= u /\ u <= 1.2 /\ confidence d = PyFloat c /\
              item_estimated_from d u c it.

Definition all_float (detected_items : list Detection) : bool :=
  forallb (fun d => is_float (confidence d)) detected_items.

(** The lookups with a default of the volume-first path. *)
Definition base_volume_of (l : string) : Q :=
  default 100.0 (pipeline.base_volumes !! l).

Definition density_of (l : string) : Q :=
  default 1.0 (pipeline.DENSITY_TABLE_G_PER_ML !! l).

Definition calories_of (l : string) : Q :=
  default 100.0 (pipeline.CALORIE_TABLE_KCAL_PER_100G !! l).

Definition macros_of (l : string) : pipeline.MacroReference :=
  default {| pipeline.protein := 5.0; pipeline.carbs := 10.0; pipeline.fat := 2.0 |}
          (pipeline.MACROS_TABLE_PER_100G !! l).

(** The item the volume-first path builds for a detection whose volume
    is [vol]. *)
Record volume_first_item (det : pipeline.FoodItemDetection) (vol : Q)
    (it : EstimatedItem) : Prop :=
  { vf_name :
      name it = default (pipeline.label det)
                        (pipeline.DISPLAY_NAMES !! pipeline.label det);
    vf_code : code it = pipeline.label det;
    vf_volume : estimated_volume_ml it = vol;
    vf_weight :
      estimated_weight_g it = py_round (vol * density_of (code it)) 1;
    vf_calories :
      estimated_calories_kcal it =
      py_round (estimated_weight_g it * calories_of (code it) / 100.0) 1;
    vf_protein :
      estimated_protein_g it =
      py_round (pipeline.protein (macros_of (code it))
                * (estimated_weight_g it / 100.0)) 1;
    vf_carbs :
      estimated_carbs_g it =
      py_round (pipeline.carbs (macros_of (code it))
                * (estimated_weight_g it / 100.0)) 1;
    vf_fat :
      estimated_fat_g it =
      py_round (pipeline.fat (macros_of (code it))
                * (estimated_weight_g it / 100.0)) 1;
    vf_confidence : item_confidence it = py_round (pipeline.confidence det) 2 }.

(** [it] is the item of the mock detection [det], for some jitter draw
    in the sampling range. *)
Definition volume_first_from (det : pipeline.FoodItemDetection)
    (it : EstimatedItem) : Prop :=
  exists u, 0.9 <= u /\ u <= 1.1 /\
    volume_first_item det
      (py_round (base_volume_of (pipeline.label det) * u) 1) it.

(** What the mock path returns for the file name [f]. *)
Record fallback_result (f : option string) (r : pipeline.PipelineResult) : Prop :=
  { fb_items :
      exists dets,
        (2 <= length dets <= 3)%nat /\ NoDup dets /\
        dets ⊆ pipeline.mock_candidates /\
        Forall2 volume_first_from dets (items (pipeline.estimate r));
    fb_info : pipeline.pipeline r = pipeline.fallback_info;
    fb_source : pipeline.source r = {| pipeline.filename := f |} }.

(** What the primary path returns for the file name [f]. *)
Record primary_result (f : option string) (r : pipeline.PipelineResult) : Prop :=
  { pr_items :
      exists dets, Forall2 estimated_from dets (items (pipeline.estimate r));
    pr_info : pipeline.pipeline r = pipeline.ml_info;
    pr_source : pipeline.source r = {| pipeline.filename := f |} }.

(** The first two steps of the primary path: the detections the
    orchestrator receives. *)
Definition detect_stage (W : World) (image_bytes : list Byte.byte)
  : M (list Detection) :=
  let* m := get_model W in detect_food_items W m image_bytes 3.

(** The estimate of an empty detection list. *)
Definition empty_estimate : MealEstimate :=
  {| items := []; total_calories_kcal := 0.0; total_protein_g := 0.0;
     total_carbs_g := 0.0; total_fat_g := 0.0 |}.

(** The detection capability cannot answer: the model was never
    initialized, the image cannot be decoded, or the [try] body of
    [detect_food_items] raises (which covers a raising inference). *)
Definition detection_unavailable (W : World) (self : FoodDetectionModel)
    (image_bytes : list Byte.byte) (top_k : Z) (s : State) : Prop :=
  model self = None \/
  (exists classify e, model self = Some classify /\ Image_open W image_bytes = Raise e) \/
  (exists classify e s1, model self = Some classify /\
                         run_model W classify image_bytes top_k s = (Raise e, s1)).

(** The invariant of the loop: the items built so far follow the
    detections one for one, and each running total is the left-to-right
    sum of the items' values. *)
Definition loop_result (dets : list Detection) (acc r : MealEstimate) : Prop :=
  exists its : list EstimatedItem,
    items r = (items acc ++ its)%list /\
    Forall2 estimated_from dets its /\
    total_calories_kcal r =
      fold_left Qplus (map estimated_calories_kcal its) (total_calories_kcal acc) /\
    total_protein_g r =
      fold_left Qplus (map estimated_protein_g its) (total_protein_g acc) /\
    total_carbs_g r =
      fold_left Qplus (map estimated_carbs_g its) (total_carbs_g acc) /\
    total_fat_g r =
      fold_left Qplus (map estimated_fat_g its) (total_fat_g acc).

(** The same invariant for the loop of [run_fallback_pipeline]. *)
Definition fallback_loop_result (volumes : gmap string Q)
    (dets : list pipeline.FoodItemDetection) (acc r : MealEstimate) : Prop :=
  exists its : list EstimatedItem,
    items r = (items acc ++ its)%list /\
    Forall2 (fun det it =>
               exists vol, volumes !! pipeline.label det = Some vol /\
                           volume_first_item det vol it) dets its /\
    total_calories_kcal r =
      fold_left Qplus (map estimated_calories_kcal its)
                (total_calories_kcal acc) /\
    total_protein_g r =
      fold_left Qplus (map estimated_protein_g its)
                (total_protein_g acc) /\
    total_carbs_g r =
      fold_left Qplus (map estimated_carbs_g its)
                (total_carbs_g acc) /\
    total_fat_g r =
      fold_left Qplus (map estimated_fat_g its)
                (total_fat_g acc).

(** Non-negativity of an item, with a positive weight. *)
Record item_nonneg (it : EstimatedItem) : Prop :=
  { nonneg_weight : 0 < estimated_weight_g it;
    nonneg_volume : 0 <= estimated_volume_ml it;
    nonneg_calories : 0 <= estimated_calories_kcal it;
    nonneg_protein : 0 <= estimated_protein_g it;
    nonneg_carbs : 0 <= estimated_carbs_g it;
    nonneg_fat : 0 <= estimated_fat_g it }.

(** Every nutrient field of an item is the result of a rounding to one
    decimal. *)
Definition item_rounded (it : EstimatedItem) : Prop :=
  (exists x, estimated_calories_kcal it = py_round x 1) /\
  (exists x, estimated_protein_g it = py_round x 1) /\
  (exists x, estimated_carbs_g it = py_round x 1) /\
  (exists x, estimated_fat_g it = py_round x 1).

(** A total of an estimate: the sum of the per-item values, rounded to
    one decimal; as the per-item values have one decimal, the rounding
    changes nothing. *)
Definition total_of (f : EstimatedItem -> Q) (its : list EstimatedItem) (t : Q) : Prop :=
  t = py_round (py_sum (map f its)) 1 /\ t == py_sum (map f its).

Record totals_consistent (m : MealEstimate) : Prop :=
  { consistent_items : Forall item_rounded (items m);
    consistent_calories :
      total_of estimated_calories_kcal (items m) (total_calories_kcal m);
    consistent_protein : total_of estimated_protein_g (items m) (total_protein_g m);
    consistent_carbs : total_of estimated_carbs_g (items m) (total_carbs_g m);
    consistent_fat : total_of estimated_fat_g (items m) (total_fat_g m) }.

End Predicates.

Section MorePredicates.

Import PyNum PyStr.
Local Open Scope Q_scope.

Definition decimalb (n : nat) (q : Q) : bool :=
  ((Qnum q * Zpos (scale n)) mod Zpos (Qden q) =? 0)%Z.

(** The codes [normalize_food_label] can return. *)
Definition NORMALIZED_CODES : list string :=
  [ "grilled_chicken"; "salmon"; "steak"; "rice"; "pasta"; "bread"; "potato";
    "broccoli"; "salad"; "carrots"; "default" ].

(** [str.isascii] *)
Definition isascii (s : string) : bool :=
  forallb (fun c => (nat_of_ascii c <? 128)%nat) (list_ascii_of_string s).

(** [a] is within [tol] of [b]. *)
Definition within (tol a b : Q) : Prop := b - tol <= a /\ a <= b + tol.

(** The serving of a weight-first item lies within 20% of the typical
    serving of its code. *)
Definition weight_in_range (it : ml_model.EstimatedItem) : Prop :=
  ml_model.typical_serving_g (reference_of (ml_model.code it)) * 0.8
    <= ml_model.estimated_weight_g it /\
  ml_model.estimated_weight_g it
    <= ml_model.typical_serving_g (reference_of (ml_model.code it)) * 1.2.

(** The volume of a volume-first item lies within 10% of the base volume
    of its code. *)
Definition volume_in_range (it : ml_model.EstimatedItem) : Prop :=
  base_volume_of (ml_model.code it) * 0.9 <= ml_model.estimated_volume_ml it /\
  ml_model.estimated_volume_ml it <= base_volume_of (ml_model.code it) * 1.1.

(** The values of a weight-first item agree, up to the rounding, with its
    weight and the reference of its code. *)
Record weight_first_consistent (it : ml_model.EstimatedItem) : Prop :=
  { wfc_volume :
      within 0.05 (ml_model.estimated_volume_ml it)
        (ml_model.estimated_weight_g it
         / ml_model.density_g_per_ml (reference_of (ml_model.code it)));
    wfc_calories :
      within 0.05 (ml_model.estimated_calories_kcal it)
        (ml_model.calories_per_100g (reference_of (ml_model.code it))
         * (ml_model.estimated_weight_g it / 100.0));
    wfc_protein :
      within 0.05 (ml_model.estimated_protein_g it)
        (ml_model.protein_per_100g (reference_of (ml_model.code it))
         * (ml_model.estimated_weight_g it / 100.0));
    wfc_carbs :
      within 0.05 (ml_model.estimated_carbs_g it)
        (ml_model.carbs_per_100g (reference_of (ml_model.code it))
         * (ml_model.estimated_weight_g it / 100.0));
    wfc_fat :
      within 0.05 (ml_model.estimated_fat_g it)
        (ml_model.fat_per_100g (reference_of (ml_model.code it))
         * (ml_model.estimated_weight_g it / 100.0)) }.

(** The same for a volume-first item, whose weight follows its volume. *)
Record volume_first_consistent (it : ml_model.EstimatedItem) : Prop :=
  { vfc_weight :
      within 0.05 (ml_model.estimated_weight_g it)
        (ml_model.estimated_volume_ml it * density_of (ml_model.code it));
    vfc_calories :
      within 0.05 (ml_model.estimated_calories_kcal it)
        (ml_model.estimated_weight_g it * calories_of (ml_model.code it) / 100.0);
    vfc_protein :
      within 0.05 (ml_model.estimated_protein_g it)
        (pipeline.protein (macros_of (ml_model.code it))
         * (ml_model.estimated_weight_g it / 100.0));
    vfc_carbs :
      within 0.05 (ml_model.estimated_carbs_g it)
        (pipeline.carbs (macros_of (ml_model.code it))
         * (ml_model.estimated_weight_g it / 100.0));
    vfc_fat :
      within 0.05 (ml_model.estimated_fat_g it)
        (pipeline.fat (macros_of (ml_model.code it))
         * (ml_model.estimated_weight_g it / 100.0)) }.


(** An item of the mock path is one of the four candidates, under its
    display name and its preset confidence. *)
Definition mock_item (it : ml_model.EstimatedItem) : Prop :=
  exists det,
    det ∈ pipeline.mock_candidates /\
    ml_model.code it = pipeline.label det /\
    pipeline.DISPLAY_NAMES !! ml_model.code it = Some (ml_model.name it) /\
    ml_model.item_confidence it == pipeline.confidence det.

(** A prediction [detect_food_items] can convert: a string under
    ["label"] and any value under ["score"]. *)
Definition prediction_ok (pred : gmap string pyval) : bool :=
  match pred !! "label", pred !! "score" with
  | Some (PyStr _), Some _ => true
  | _, _ => false
  end.

(** The detection built from a prediction. *)
Definition detection_of (pred : gmap string pyval) : ml_model.Detection :=
  let lbl := ml_model.str_of (default PyNone (pred !! "label")) in
  {| ml_model.label := lbl;
     ml_model.display_name := display_form lbl;
     ml_model.confidence := default PyNone (pred !! "score") |}.

(** The image handed to the model: opened, and converted unless it is
    RGB already. *)
Definition prepare_image (W : World) (image_bytes : list Byte.byte) : res Image :=
  match Image_open W image_bytes with
  | Ok image =>
      if negb (String.eqb (mode image) "RGB")
      then Image_convert W image "RGB" else Ok image
  | Raise e => Raise e
  end.

(** A computation that leaves the cached model instance alone. *)
Definition keeps_model {A} (m : M A) : Prop :=
  forall s, model_instance (snd (m s)) = model_instance s.


(** The view of a stored row. *)

End MorePredicates.

Section DrawPredicates.

Import PyNum.
Local Open Scope py_scope.
Local Open Scope Q_scope.




(** The draws [_fallback_detection] can read: five for the shuffle of six
    candidates and one for the number of items. *)
Definition draw_tapes : list (list N) :=
  a ← [0; 1; 2; 3; 4; 5]%N; b ← [0; 1; 2; 3; 4]%N; c ← [0; 1; 2; 3]%N;
  d ← [0; 1; 2]%N; e ← [0; 1]%N; k ← [0; 1]%N; [[a; b; c; d; e; k]].

Definition labels_of (r : res (list ml_model.Detection)) : list string :=
  match r with
  | Ok dets => map ml_model.label dets
  | Raise _ => []
  end.

(** A content of the random source on which [_fallback_detection]
    returns detections with the labels [ls], when there is one. *)
Definition tape_for (ls : list string) : list N :=
  default []
    (List.find
       (fun tape =>
          bool_decide (labels_of (fst (ml_model._fallback_detection (fresh tape)))
                       = ls))
       draw_tapes).

End DrawPredicates.

Section LogPredicates.

Import db.
Local Open Scope Q_scope.

(** A date Python can represent. *)
Definition date_ok (d : Z) : Prop := (MIN_ORDINAL <= d <= MAX_ORDINAL)%Z.

(** The logs created on the day [d]. *)
Definition logs_on (db : gmap Z MealLog) (d : Z) : list MealLog :=
  filter (fun log => date_of (created_at log) = d) (map_to_list db).*2.

(** The summary of the logs of the day [d]. *)
Definition day_summary (db : gmap Z MealLog) (d : Z) : Summary :=
  {| days := 1;
     sum_calories_kcal := coalesce_sum (map total_calories_kcal (logs_on db d));
     sum_protein_g := coalesce_sum (map total_protein_g (logs_on db d));
     sum_carbs_g := coalesce_sum (map total_carbs_g (logs_on db d));
     sum_fat_g := coalesce_sum (map total_fat_g (logs_on db d)) |}.

(** The history row of the day [d]. *)
Definition day_row (db : gmap Z MealLog) (d : Z) : DayHistoryRow :=
  {| date := d;
     meals := Z.of_nat (length (logs_on db d));
     day_calories_kcal := coalesce_sum (map total_calories_kcal (logs_on db d));
     day_protein_g := coalesce_sum (map total_protein_g (logs_on db d));
     day_carbs_g := coalesce_sum (map total_carbs_g (logs_on db d));
     day_fat_g := coalesce_sum (map total_fat_g (logs_on db d)) |}.

(** The logs of a window, over a list of rows. *)
Definition window (a c : Z) (l : list MealLog) : list MealLog :=
  filter (fun log => (a <= created_at log < c)%Z) l.

End LogPredicates.

(** * Properties *)

(** ** Rounding *)

Section Rounding.

Import PyNum.
Local Open Scope Q_scope.

Lemma round_half_even_bounds (y : Q) :
  (Qfloor y <= round_half_even y <= Qfloor y + 1)%Z.
Proof.
  unfold round_half_even.
  destruct (Qcompare _ _); [destruct (Z.even _) | |]; lia.
Qed.

Lemma round_half_even_ge (z : Z) (y : Q) :
  inject_Z z <= y -> (z <= round_half_even y)%Z.
Proof.
  intros H%Qfloor_resp_le. rewrite Qfloor_Z in H.
  pose proof (round_half_even_bounds y). lia.
Qed.

Lemma round_half_even_exact (z : Z) (y : Q) :
  y == inject_Z z -> round_half_even y = z.
Proof.
  intros H. unfold round_half_even.
  rewrite (Qfloor_comp _ _ H), Qfloor_Z.
  destruct (Qcompare_spec (y - inject_Z z) (1 # 2)) as [He|_|Hgt];
    [exfalso; lra | reflexivity | exfalso; lra].
Qed.

Lemma py_round_unfold x n :
  py_round x n = Qmake (round_half_even (x * inject_Z (Zpos (scale n)))) (scale n).
Proof. reflexivity. Qed.

Lemma py_round_ge_grid (z : Z) x n :
  inject_Z z <= x * inject_Z (Zpos (scale n)) -> Qmake z (scale n) <= py_round x n.
Proof.
  intros H%round_half_even_ge. rewrite py_round_unfold.
  unfold Qle; simpl. nia.
Qed.

(** Rounding never crosses an integer. *)
Lemma py_round_ge_Z (z : Z) x n : inject_Z z <= x -> inject_Z z <= py_round x n.
Proof.
  intros Hx.
  assert (H : inject_Z (z * Zpos (scale n)) <= x * inject_Z (Zpos (scale n))).
  { rewrite inject_Z_mult. apply Qmult_le_compat_r; [exact Hx|].
    unfold Qle; simpl; lia. }
  apply py_round_ge_grid in H. rewrite py_round_unfold in *.
  unfold Qle in *; simpl in *. nia.
Qed.

Lemma py_round_nonneg x n : 0 <= x -> 0 <= py_round x n.
Proof. apply (py_round_ge_Z 0). Qed.

Lemma py_round_ge_1 x n : 1 <= x -> 1 <= py_round x n.
Proof. apply (py_round_ge_Z 1). Qed.

Lemma py_round_decimal x n : decimal n (py_round x n).
Proof. eexists. rewrite py_round_unfold. reflexivity. Qed.

Lemma py_round_of_decimal q n : decimal n q -> py_round q n == q.
Proof.
  intros [z Hz]. rewrite py_round_unfold.
  rewrite (round_half_even_exact z).
  - symmetry. exact Hz.
  - rewrite Hz. unfold Qeq; simpl. lia.
Qed.

Lemma decimal_plus n a b : decimal n a -> decimal n b -> decimal n (a + b).
Proof.
  intros [x Hx] [y Hy]. exists (x + y)%Z. rewrite Hx, Hy.
  unfold Qeq; simpl. nia.
Qed.

Lemma decimal_0 n : decimal n 0.
Proof. exists 0%Z. unfold Qeq; simpl. lia. Qed.

Lemma decimal_fold_left n vs a :
  decimal n a -> Forall (decimal n) vs -> decimal n (fold_left Qplus vs a).
Proof.
  intros Ha Hvs. revert a Ha.
  induction Hvs as [|v vs Hv _ IH]; intros a Ha; simpl; [exact Ha|].
  apply IH. now apply decimal_plus.
Qed.

Lemma decimal_py_sum n vs : Forall (decimal n) vs -> decimal n (py_sum vs).
Proof. apply decimal_fold_left. exists 0%Z. reflexivity. Qed.

Lemma fold_left_Qplus_nonneg vs a :
  0 <= a -> Forall (Qle 0) vs -> 0 <= fold_left Qplus vs a.
Proof.
  intros Ha Hvs. revert a Ha.
  induction Hvs as [|v vs Hv _ IH]; intros a Ha; simpl; [exact Ha|].
  apply IH. lra.
Qed.

End Rounding.

(** ** The random source *)

Section Random.

Import PyRandom.
Local Open Scope Q_scope.

Lemma next_draw_ok s : exists d s', next_draw s = (Ok d, s').
Proof. unfold next_draw. destruct (rng s); eauto. Qed.

Lemma random_ok s :
  exists r s', random s = (Ok r, s') /\ 0 <= r /\ r < 1.
Proof.
  unfold random, bind, ret.
  destruct (next_draw_ok s) as (d & s' & ->).
  do 2 eexists. split; [reflexivity|].
  pose proof (N.mod_lt d (2 ^ 53)%N ltac:(discriminate)) as Hlt.
  unfold Qle, Qlt; simpl.
  set (k := (d mod 2 ^ 53)%N) in *.
  change (2 ^ 53)%N with 9007199254740992%N in Hlt.
  change (Z.pos (2 ^ 53)) with 9007199254740992%Z.
  split; lia.
Qed.

Lemma uniform_ok a b s :
  a <= b -> exists u s', uniform a b s = (Ok u, s') /\ a <= u /\ u <= b.
Proof.
  intros Hab. unfold uniform, bind, ret.
  destruct (random_ok s) as (r & s' & -> & H0 & H1).
  do 2 eexists. split; [reflexivity|]. split; nra.
Qed.

Lemma randint_2_3 s :
  exists n s', randint 2 3 s = (Ok n, s') /\ (n = 2 \/ n = 3)%Z.
Proof.
  unfold randint, randbelow, bind, ret.
  destruct (next_draw_ok s) as (d & s' & ->).
  do 2 eexists. split; [reflexivity|].
  change (Z.to_N (3 - 2 + 1)) with 2%N.
  pose proof (N.mod_lt d 2%N ltac:(discriminate)) as Hlt.
  set (k := (d mod 2)%N) in *. lia.
Qed.

Lemma swap_Permutation {A} (x : list A) i j : swap x i j ≡ₚ x.
Proof.
  unfold swap.
  destruct (x !! i) as [a|] eqn:Hi; [|reflexivity].
  destruct (x !! j) as [b|] eqn:Hj; [|reflexivity].
  now apply Permutation_insert_swap.
Qed.

Lemma shuffle_from_ok {A} i (x : list A) s :
  exists y s', shuffle_from i x s = (Ok y, s') /\ y ≡ₚ x.
Proof.
  revert x s. induction i as [|i IH]; intros x s; simpl.
  - unfold ret. eauto.
  - unfold bind at 1. unfold randbelow, bind, ret.
    destruct (next_draw_ok s) as (d & s' & ->).
    destruct (IH (swap x (S i) (N.to_nat (d mod N.of_nat (S (S i))))) s')
      as (y & s'' & Hy & Hp).
    exists y, s''. split; [exact Hy|].
    rewrite Hp. apply swap_Permutation.
Qed.

Lemma shuffle_ok {A} (x : list A) s :
  exists y s', shuffle x s = (Ok y, s') /\ y ≡ₚ x.
Proof. apply shuffle_from_ok. Qed.

(** Shuffle, then keep the first two or three: a sample without
    replacement. *)
Lemma sample_2_3 {A} (cands : list A) s :
  NoDup cands -> (3 <= length cands)%nat ->
  exists picked s',
    (let* c := shuffle cands in
     let* n := randint 2 3 in
     ret (take (Z.to_nat n) c)) s = (Ok picked, s')
    /\ (2 <= length picked <= 3)%nat /\ NoDup picked /\ picked ⊆ cands.
Proof.
  intros Hnd Hlen. unfold bind at 1.
  destruct (shuffle_ok cands s) as (y & s1 & -> & Hp).
  unfold bind, ret.
  destruct (randint_2_3 s1) as (n & s2 & -> & Hn).
  do 2 eexists. split; [reflexivity|].
  pose proof (Permutation_length Hp) as Hl.
  rewrite <- Hp in Hnd.
  split; [rewrite length_take; lia|].
  split.
  - rewrite <- (take_drop (Z.to_nat n) y) in Hnd.
    now apply NoDup_app in Hnd as [? _].
  - intros d (i & Hi & _)%elem_of_take. rewrite <- Hp.
    apply list_elem_of_lookup. eauto.
Qed.

End Random.

(** ** The monad *)

Section Monad.

Context {A B : Type}.

Lemma bind_Ok (m : M A) (k : A -> M B) s a s' :
  m s = (Ok a, s') -> bind m k s = k a s'.
Proof. unfold bind. now intros ->. Qed.

Lemma bind_Raise (m : M A) (k : A -> M B) s e s' :
  m s = (Raise e, s') -> bind m k s = (Raise e, s').
Proof. unfold bind. now intros ->. Qed.

Lemma try_except_Ok (m : M A) h s a s' :
  m s = (Ok a, s') -> try_except m h s = (Ok a, s').
Proof. unfold try_except. now intros ->. Qed.

Lemma try_except_Raise (m : M A) h s e s' :
  m s = (Raise e, s') -> try_except m h s = h e s'.
Proof. unfold try_except. now intros ->. Qed.

End Monad.

(** ** The reference table and the label normalizer *)

Section Normalizer.

Import PyStr ml_model.
Local Open Scope Q_scope.

Lemma dict_mem_is_Some {V} key (d : gmap string V) :
  dict_mem key d = true -> is_Some (d !! key).
Proof. unfold dict_mem. destruct (d !! key); [eauto | discriminate]. Qed.

Lemma default_entry :
  dict_get NUTRITION_DATABASE "default" = Ok (food 150 10.0 15.0 5.0 1.0 100).
Proof. reflexivity. Qed.

Lemma reference_in_entries c r :
  NUTRITION_DATABASE !! c = Some r -> (c, r) ∈ NUTRITION_ENTRIES.
Proof. apply elem_of_list_to_map_2. Qed.

Lemma entries_ok : Forall (fun e => reference_ok (snd e)) NUTRITION_ENTRIES.
Proof.
  unfold NUTRITION_ENTRIES.
  repeat constructor; unfold Qle, Qlt; simpl; lia.
Qed.

Lemma reference_of_ok c : reference_ok (reference_of c).
Proof.
  unfold reference_of.
  destruct (NUTRITION_DATABASE !! c) as [r|] eqn:Hc; simpl.
  - apply reference_in_entries in Hc.
    pose proof entries_ok as H. rewrite Forall_forall in H.
    exact (H _ Hc).
  - repeat constructor; unfold Qle, Qlt; simpl; lia.
Qed.

Lemma normalize_food_label_in_table lbl :
  dict_mem (normalize_food_label lbl) NUTRITION_DATABASE = true.
Proof.
  unfold normalize_food_label. fold (label_lower lbl).
  destruct (dict_mem (label_lower lbl) NUTRITION_DATABASE) eqn:Hm; [exact Hm|].
  repeat match goal with
         | |- context [if ?b then _ else _] => destruct b
         end; reflexivity.
Qed.

End Normalizer.

(** ** The weight-first path: [estimate_nutrition] *)

Section WeightFirst.

Import PyNum PyRandom ml_model.
Local Open Scope Q_scope.

Lemma estimate_item_float d c s :
  confidence d = PyFloat c ->
  exists u it s',
    estimate_item d s = (Ok it, s') /\ 0.8 <= u /\ u <= 1.2 /\
    item_estimated_from d u c it.
Proof.
  intros Hc. unfold estimate_item.
  rewrite default_entry. unfold bind at 1, lift at 1.
  destruct (uniform_ok 0.8 1.2 s) as (u & s' & Hu & Hlo & Hhi);
    [unfold Qle; simpl; lia|].
  rewrite (bind_Ok _ _ _ _ _ Hu).
  rewrite Hc. unfold bind, lift, ret; simpl round_value.
  exists u. do 2 eexists. split; [reflexivity|].
  split; [exact Hlo|]. split; [exact Hhi|].
  constructor; reflexivity.
Qed.

Lemma estimate_item_not_float d s :
  is_float (confidence d) = false ->
  exists e s', estimate_item d s = (Raise e, s').
Proof.
  intros Hc. unfold estimate_item.
  rewrite default_entry. unfold bind at 1, lift at 1.
  destruct (uniform_ok 0.8 1.2 s) as (u & s' & Hu & _);
    [unfold Qle; simpl; lia|].
  rewrite (bind_Ok _ _ _ _ _ Hu).
  unfold bind, lift, ret.
  destruct (confidence d); [| discriminate |]; simpl; eauto.
Qed.

Lemma estimate_loop_spec dets acc s :
  match estimate_loop dets acc s with
  | (Ok r, _) => all_float dets = true /\ loop_result dets acc r
  | (Raise _, _) => all_float dets = false
  end.
Proof.
  revert acc s. induction dets as [|d dets IH]; intros acc s; simpl.
  - split; [reflexivity|]. exists []. rewrite app_nil_r.
    repeat split; constructor.
  - destruct (is_float (confidence d)) eqn:Hf.
    + destruct (confidence d) as [|c|] eqn:Hc; try discriminate.
      destruct (estimate_item_float d c s Hc) as (u & it & s' & Hit & Hlo & Hhi & Hfrom).
      rewrite (bind_Ok _ _ _ _ _ Hit).
      match goal with
      | |- context [estimate_loop dets ?a s'] => specialize (IH a s')
      end.
      destruct (estimate_loop dets _ s') as [[r|e] s'']; [|exact IH].
      destruct IH as [Hall (its & Hits & Hf2 & Hk & Hp & Hcb & Hft)].
      split; [exact Hall|].
      exists (it :: its). simpl in *.
      rewrite Hits, <- app_assoc. split; [reflexivity|].
      split; [|auto].
      constructor; [|exact Hf2]. exists u, c. auto.
    + destruct (estimate_item_not_float d s Hf) as (e & s' & Hit).
      now rewrite (bind_Raise _ _ _ _ _ Hit).
Qed.

Lemma estimated_from_rounded d it : estimated_from d it -> item_rounded it.
Proof.
  intros (u & c & _ & _ & _ & H). destruct H.
  repeat split; eexists; eassumption.
Qed.

Lemma item_rounded_decimal it :
  item_rounded it ->
  decimal 1 (estimated_calories_kcal it) /\ decimal 1 (estimated_protein_g it) /\
  decimal 1 (estimated_carbs_g it) /\ decimal 1 (estimated_fat_g it).
Proof.
  intros ((a & ->) & (b & ->) & (c & ->) & (d & ->)).
  repeat split; apply py_round_decimal.
Qed.

Lemma total_of_rounded_sum (f : EstimatedItem -> Q) its :
  Forall (fun it => decimal 1 (f it)) its ->
  total_of f its (py_round (fold_left Qplus (map f its) 0.0) 1).
Proof.
  intros H. split; [reflexivity|].
  apply py_round_of_decimal, decimal_py_sum.
  now apply Forall_map.
Qed.

Lemma totals_consistent_intro its :
  Forall item_rounded its ->
  totals_consistent
    {| items := its;
       total_calories_kcal :=
         py_round (fold_left Qplus (map estimated_calories_kcal its) 0.0) 1;
       total_protein_g :=
         py_round (fold_left Qplus (map estimated_protein_g its) 0.0) 1;
       total_carbs_g :=
         py_round (fold_left Qplus (map estimated_carbs_g its) 0.0) 1;
       total_fat_g :=
         py_round (fold_left Qplus (map estimated_fat_g its) 0.0) 1 |}.
Proof.
  intros H.
  constructor; simpl; [exact H | | | |];
    apply total_of_rounded_sum;
    (eapply Forall_impl; [exact H|]);
    intros it Hit; apply item_rounded_decimal in Hit; tauto.
Qed.

Lemma estimate_nutrition_spec dets s :
  match estimate_nutrition dets s with
  | (Ok r, _) =>
      all_float dets = true /\ Forall2 estimated_from dets (items r) /\
      totals_consistent r
  | (Raise _, _) => all_float dets = false
  end.
Proof.
  unfold estimate_nutrition, bind.
  match goal with
  | |- context [estimate_loop dets ?a s] =>
      pose proof (estimate_loop_spec dets a s) as H
  end.
  destruct (estimate_loop dets _ s) as [[r|e] s']; [|exact H].
  destruct H as [Hall (its & Hits & Hf2 & Hk & Hp & Hcb & Hft)].
  simpl in Hits. unfold ret. simpl in *.
  split; [exact Hall|]. rewrite Hits. split; [exact Hf2|].
  rewrite Hk, Hp, Hcb, Hft.
  apply totals_consistent_intro.
  clear -Hf2. induction Hf2; constructor; eauto using estimated_from_rounded.
Qed.

Lemma estimate_nutrition_ok dets s :
  all_float dets = true ->
  exists r s', estimate_nutrition dets s = (Ok r, s') /\
               Forall2 estimated_from dets (items r) /\ totals_consistent r.
Proof.
  intros Hall. pose proof (estimate_nutrition_spec dets s) as H.
  destruct (estimate_nutrition dets s) as [[r|e] s'].
  - exists r, s'. tauto.
  - congruence.
Qed.

End WeightFirst.

(** ** The volume-first path: [run_fallback_pipeline] *)

Section VolumeFirst.

Import PyNum PyRandom pipeline.
Local Open Scope Q_scope.

Lemma estimate_volumes_loop_spec dets (volumes : gmap string Q) s :
  exists vols s',
    estimate_volumes_loop dets volumes s = (Ok vols, s') /\
    (forall l, l ∈ map label dets ->
       exists u, 0.9 <= u /\ u <= 1.1 /\
                 vols !! l = Some (py_round (base_volume_of l * u) 1)) /\
    (forall l, l ∉ map label dets -> vols !! l = volumes !! l).
Proof.
  revert volumes s. induction dets as [|d dets IH]; intros volumes s; simpl.
  - exists volumes, s. split; [reflexivity|].
    split; [intros l Hl; inversion Hl | reflexivity].
  - destruct (uniform_ok 0.9 1.1 s) as (u & s1 & Hu & Hlo & Hhi);
      [unfold Qle; simpl; lia|].
    rewrite (bind_Ok _ _ _ _ _ Hu).
    match goal with
    | |- context [estimate_volumes_loop dets ?v s1] =>
        destruct (IH v s1) as (vols & s' & Hrun & Hin & Hout)
    end.
    exists vols, s'. split; [exact Hrun|]. split.
    + intros l Hl.
      destruct (decide (l ∈ map label dets)) as [Hrest|Hrest]; [now apply Hin|].
      apply elem_of_cons in Hl as [->|Hl]; [|contradiction].
      exists u. rewrite (Hout _ Hrest), lookup_insert_eq. auto.
    + intros l Hl. apply not_elem_of_cons in Hl as [Hne Hrest].
      rewrite (Hout _ Hrest). now apply lookup_insert_ne.
Qed.

Lemma weights_lookup (volumes : gmap string Q) l vol :
  volumes !! l = Some vol ->
  convert_volume_to_weight_g volumes !! l = Some (py_round (vol * density_of l) 1).
Proof.
  intros H. unfold convert_volume_to_weight_g.
  now rewrite map_lookup_imap, H.
Qed.

Lemma calories_lookup (weights : gmap string Q) l w :
  weights !! l = Some w ->
  compute_calories_kcal weights !! l =
  Some (py_round (w * calories_of l / 100.0) 1).
Proof.
  intros H. unfold compute_calories_kcal.
  now rewrite map_lookup_imap, H.
Qed.

Lemma macros_lookup (weights : gmap string Q) l w :
  weights !! l = Some w ->
  compute_macros_grams weights !! l =
  Some {| protein_g := py_round (protein (macros_of l) * (w / 100.0)) 1;
          carbs_g := py_round (carbs (macros_of l) * (w / 100.0)) 1;
          fat_g := py_round (fat (macros_of l) * (w / 100.0)) 1 |}.
Proof.
  intros H. unfold compute_macros_grams.
  now rewrite map_lookup_imap, H.
Qed.

(** The lookups of the loop never raise [KeyError]: every label it
    reads was written by [estimate_volumes_ml]. *)
Lemma fallback_loop_spec (volumes : gmap string Q) dets acc :
  (forall l, l ∈ map label dets -> is_Some (volumes !! l)) ->
  exists r,
    fallback_loop volumes
      (convert_volume_to_weight_g volumes)
      (compute_calories_kcal (convert_volume_to_weight_g volumes))
      (compute_macros_grams (convert_volume_to_weight_g volumes)) dets acc = Ok r /\
    fallback_loop_result volumes dets acc r.
Proof.
  revert acc. induction dets as [|det dets IH]; intros acc Hdom.
  - exists acc. split; [reflexivity|]. exists []. rewrite app_nil_r.
    repeat split; constructor.
  - destruct (Hdom (label det)) as [vol Hvol]; [simpl; left|].
    pose proof (weights_lookup _ _ _ Hvol) as Hw.
    pose proof (calories_lookup _ _ _ Hw) as Hk.
    pose proof (macros_lookup _ _ _ Hw) as Hm.
    cbn [fallback_loop]. unfold dict_get. rewrite Hvol, Hw, Hk, Hm.
    match goal with
    | |- context [fallback_loop _ _ _ _ dets ?a] =>
        destruct (IH a) as (r & Hr & its & Hits & Hf2 & Ht)
    end.
    { intros l Hl. apply Hdom. simpl. now right. }
    exists r. split; [exact Hr|].
    exists ({| ml_model.name := default (label det) (DISPLAY_NAMES !! label det);
               ml_model.code := label det;
               ml_model.estimated_volume_ml := vol;
               ml_model.estimated_weight_g := py_round (vol * density_of (label det)) 1;
               ml_model.estimated_calories_kcal :=
                 py_round (py_round (vol * density_of (label det)) 1
                           * calories_of (label det) / 100.0) 1;
               ml_model.estimated_protein_g :=
                 py_round (protein (macros_of (label det))
                           * (py_round (vol * density_of (label det)) 1 / 100.0)) 1;
               ml_model.estimated_carbs_g :=
                 py_round (carbs (macros_of (label det))
                           * (py_round (vol * density_of (label det)) 1 / 100.0)) 1;
               ml_model.estimated_fat_g :=
                 py_round (fat (macros_of (label det))
                           * (py_round (vol * density_of (label det)) 1 / 100.0)) 1;
               ml_model.item_confidence := py_round (confidence det) 2 |} :: its).
    cbn [ml_model.items ml_model.total_calories_kcal ml_model.total_protein_g
         ml_model.total_carbs_g ml_model.total_fat_g] in *.
    rewrite Hits, <- app_assoc. split; [reflexivity|].
    split; [|exact Ht].
    constructor; [|exact Hf2].
    exists vol. split; [exact Hvol|]. constructor; reflexivity.
Qed.

End VolumeFirst.

(** ** Non-negativity *)

Section NonNegative.

Import PyNum ml_model.
Local Open Scope Q_scope.

Lemma Qdiv_nonneg a b : 0 <= a -> 0 < b -> 0 <= a / b.
Proof.
  intros Ha Hb. apply Qle_shift_div_l; [exact Hb|]. now rewrite Qmult_0_l.
Qed.

Lemma scaled_nonneg a w : 0 <= a -> 0 <= w -> 0 <= a * (w / 100.0).
Proof.
  intros Ha Hw. apply Qmult_le_0_compat; [exact Ha|].
  apply Qdiv_nonneg; [exact Hw | reflexivity].
Qed.

Lemma estimated_from_nonneg d it : estimated_from d it -> item_nonneg it.
Proof.
  intros (u & c & Hlo & Hhi & _ & H). destruct H.
  destruct (reference_of_ok (code it)).
  assert (Hw1 : 1 <= estimated_weight_g it).
  { rewrite from_weight0. apply py_round_ge_1. nra. }
  assert (Hw : 0 <= estimated_weight_g it) by lra.
  constructor.
  - lra.
  - rewrite from_volume0. apply py_round_nonneg. now apply Qdiv_nonneg.
  - rewrite from_calories0. now apply py_round_nonneg, scaled_nonneg.
  - rewrite from_protein0. now apply py_round_nonneg, scaled_nonneg.
  - rewrite from_carbs0. now apply py_round_nonneg, scaled_nonneg.
  - rewrite from_fat0. now apply py_round_nonneg, scaled_nonneg.
Qed.

Lemma default_lookup_Forall {V} (P : V -> Prop) (l : list (string * V)) dflt k :
  P dflt -> Forall (fun e => P (snd e)) l ->
  P (default dflt ((list_to_map l : gmap string V) !! k)).
Proof.
  intros Hd Hl.
  destruct ((list_to_map l : gmap string V) !! k) as [v|] eqn:Hk; simpl; [|exact Hd].
  apply elem_of_list_to_map_2 in Hk.
  rewrite Forall_forall in Hl. exact (Hl _ Hk).
Qed.

Ltac table_bound :=
  apply default_lookup_Forall;
  [ | repeat constructor ]; unfold Qle, Qlt; simpl; repeat split; lia.

Lemma base_volume_of_ge l : 5 <= base_volume_of l.
Proof. unfold base_volume_of, pipeline.base_volumes. table_bound. Qed.

Lemma density_of_ge l : 1 # 4 <= density_of l.
Proof. unfold density_of, pipeline.DENSITY_TABLE_G_PER_ML. table_bound. Qed.

Lemma calories_of_nonneg l : 0 <= calories_of l.
Proof. unfold calories_of, pipeline.CALORIE_TABLE_KCAL_PER_100G. table_bound. Qed.

Lemma macros_of_nonneg l :
  0 <= pipeline.protein (macros_of l) /\ 0 <= pipeline.carbs (macros_of l) /\
  0 <= pipeline.fat (macros_of l).
Proof.
  unfold macros_of, pipeline.MACROS_TABLE_PER_100G.
  apply (default_lookup_Forall
           (fun m => 0 <= pipeline.protein m /\ 0 <= pipeline.carbs m /\
                     0 <= pipeline.fat m));
    [ | repeat constructor ]; unfold Qle; simpl; lia.
Qed.

Lemma volume_first_from_nonneg det it : volume_first_from det it -> item_nonneg it.
Proof.
  intros (u & Hlo & Hhi & H). destruct H.
  pose proof (base_volume_of_ge (pipeline.label det)) as Hb.
  pose proof (density_of_ge (code it)) as Hd.
  pose proof (calories_of_nonneg (code it)) as Hk.
  destruct (macros_of_nonneg (code it)) as (Hp & Hc & Hf).
  assert (Hv : 4 <= estimated_volume_ml it).
  { rewrite vf_volume0. apply (py_round_ge_Z 4).
    change (inject_Z 4) with 4. nra. }
  assert (Hw1 : 1 <= estimated_weight_g it).
  { rewrite vf_weight0. apply py_round_ge_1. rewrite vf_volume0 in Hv. nra. }
  assert (Hw : 0 <= estimated_weight_g it) by lra.
  constructor.
  - lra.
  - lra.
  - rewrite vf_calories0. apply py_round_nonneg, Qdiv_nonneg; [nra | reflexivity].
  - rewrite vf_protein0. now apply py_round_nonneg, scaled_nonneg.
  - rewrite vf_carbs0. now apply py_round_nonneg, scaled_nonneg.
  - rewrite vf_fat0. now apply py_round_nonneg, scaled_nonneg.
Qed.

Lemma volume_first_item_rounded det vol it :
  volume_first_item det vol it -> item_rounded it.
Proof. intros []. repeat split; eexists; eassumption. Qed.

End NonNegative.

(** ** The mock detections and the two entry points *)

Section Orchestrator.

Import PyNum PyRandom.
Local Open Scope Q_scope.

Lemma fallback_candidates_NoDup : NoDup ml_model.fallback_candidates.
Proof.
  apply (NoDup_fmap_1 ml_model.label).
  apply (bool_decide_unpack _). vm_compute. exact I.
Qed.

Lemma mock_candidates_NoDup : NoDup pipeline.mock_candidates.
Proof.
  apply (NoDup_fmap_1 pipeline.label).
  apply (bool_decide_unpack _). vm_compute. exact I.
Qed.

Lemma _fallback_detection_ok s :
  exists dets s',
    ml_model._fallback_detection s = (Ok dets, s') /\
    (2 <= length dets <= 3)%nat /\ NoDup dets /\
    dets ⊆ ml_model.fallback_candidates.
Proof.
  apply sample_2_3; [apply fallback_candidates_NoDup | simpl; lia].
Qed.

Lemma mock_detect_food_items_ok s :
  exists dets s',
    pipeline.mock_detect_food_items s = (Ok dets, s') /\
    (2 <= length dets <= 3)%nat /\ NoDup dets /\
    dets ⊆ pipeline.mock_candidates.
Proof.
  apply sample_2_3; [apply mock_candidates_NoDup | simpl; lia].
Qed.

Lemma candidates_all_float dets :
  dets ⊆ ml_model.fallback_candidates -> all_float dets = true.
Proof.
  intros Hsub. apply forallb_forall. intros d Hd%list_elem_of_In.
  apply Hsub in Hd. unfold ml_model.fallback_candidates in Hd.
  repeat (apply elem_of_cons in Hd as [->|Hd]; [reflexivity|]).
  inversion Hd.
Qed.

Lemma fallback_from_spec dets f s :
  exists r s',
    pipeline.fallback_from dets f s = (Ok r, s') /\
    Forall2 volume_first_from dets (ml_model.items (pipeline.estimate r)) /\
    totals_consistent (pipeline.estimate r) /\
    pipeline.pipeline r = pipeline.fallback_info /\
    pipeline.source r = {| pipeline.filename := f |}.
Proof.
  unfold pipeline.fallback_from, pipeline.estimate_volumes_ml.
  destruct (estimate_volumes_loop_spec dets ∅ s) as (vols & s' & Hv & Hin & _).
  rewrite (bind_Ok _ _ _ _ _ Hv).
  match goal with
  | |- context [pipeline.fallback_loop _ _ _ _ dets ?a] =>
      destruct (fallback_loop_spec vols dets a)
        as (r & Hr & its & Hits & Hf2 & Hk & Hp & Hc & Hft)
  end.
  { intros l Hl. destruct (Hin l Hl) as (u & _ & _ & Hu). eauto. }
  unfold bind, lift, ret. rewrite Hr.
  do 2 eexists. split; [reflexivity|].
  cbn [pipeline.estimate pipeline.pipeline pipeline.source ml_model.items] in *.
  simpl in Hits. rewrite Hits, Hk, Hp, Hc, Hft.
  cbn [ml_model.total_calories_kcal ml_model.total_protein_g
       ml_model.total_carbs_g ml_model.total_fat_g].
  split; [|split; [|split; reflexivity]].
  - clear -Hin Hf2. induction Hf2 as [|det it dets its (vol & Hvol & Hit) _ IH].
    + constructor.
    + constructor.
      * destruct (Hin (pipeline.label det)) as (u & Hlo & Hhi & Hu); [simpl; left|].
        exists u. rewrite Hvol in Hu. injection Hu as <-. auto.
      * apply IH. intros l Hl. apply Hin. simpl. now right.
  - apply totals_consistent_intro.
    clear -Hf2. induction Hf2 as [|det it dets its (vol & _ & Hit) _ IH];
      constructor; eauto using volume_first_item_rounded.
Qed.

Lemma run_fallback_pipeline_ok f s :
  exists r s',
    pipeline.run_fallback_pipeline f s = (Ok r, s') /\
    fallback_result f r /\ totals_consistent (pipeline.estimate r).
Proof.
  unfold pipeline.run_fallback_pipeline.
  destruct (mock_detect_food_items_ok s) as (dets & s1 & Hd & Hlen & Hnd & Hsub).
  rewrite (bind_Ok _ _ _ _ _ Hd).
  destruct (fallback_from_spec dets f s1) as (r & s' & Hr & Hf2 & Htot & Hi & Hs).
  exists r, s'. split; [exact Hr|]. split; [|exact Htot].
  constructor; eauto 10.
Qed.

Section WithWorld.

Variable W : World.

Lemma get_model_ok s : exists m s', ml_model.get_model W s = (Ok m, s').
Proof. unfold ml_model.get_model. destruct (model_instance s); eauto. Qed.

Lemma detect_food_items_ok self image_bytes top_k s :
  exists dets s',
    ml_model.detect_food_items W self image_bytes top_k s = (Ok dets, s').
Proof.
  unfold ml_model.detect_food_items.
  destruct (model self) as [classify|].
  - unfold try_except.
    destruct (ml_model.run_model W classify image_bytes top_k s) as [[dets|e] s1];
      [eauto|].
    destruct (_fallback_detection_ok s1) as (dets & s' & H & _). eauto.
  - destruct (_fallback_detection_ok s) as (dets & s' & H & _). eauto.
Qed.

Lemma primary_path_spec image_bytes f s :
  match pipeline.primary_path W image_bytes f s with
  | (Ok r, _) => primary_result f r /\ totals_consistent (pipeline.estimate r)
  | (Raise _, _) => True
  end.
Proof.
  unfold pipeline.primary_path.
  destruct (get_model_ok s) as (m & s1 & Hm).
  rewrite (bind_Ok _ _ _ _ _ Hm).
  destruct (detect_food_items_ok m image_bytes 3 s1) as (dets & s2 & Hd).
  rewrite (bind_Ok _ _ _ _ _ Hd).
  pose proof (estimate_nutrition_spec dets s2) as Hn.
  unfold bind at 1.
  destruct (ml_model.estimate_nutrition dets s2) as [[r|e] s3]; [|exact I].
  destruct Hn as (_ & Hf2 & Htot). unfold ret.
  split; [|exact Htot]. constructor; eauto.
Qed.

Lemma run_baseline_pipeline_spec image_bytes f s :
  exists r s',
    pipeline.run_baseline_pipeline W image_bytes f s = (Ok r, s') /\
    totals_consistent (pipeline.estimate r) /\
    match pipeline.primary_path W image_bytes f s with
    | (Ok r0, s0) => r = r0 /\ s' = s0 /\ primary_result f r
    | (Raise _, s0) =>
        pipeline.run_fallback_pipeline f s0 = (Ok r, s') /\ fallback_result f r
    end.
Proof.
  unfold pipeline.run_baseline_pipeline, try_except.
  pose proof (primary_path_spec image_bytes f s) as Hp.
  destruct (pipeline.primary_path W image_bytes f s) as [[r|e] s1].
  - exists r, s1. tauto.
  - destruct (run_fallback_pipeline_ok f s1) as (r & s' & Hr & Hfb & Htot).
    exists r, s'. tauto.
Qed.

End WithWorld.

End Orchestrator.


(** ** The error of the rounding *)

Section RoundingError.

Import PyNum.
Local Open Scope Q_scope.

Lemma round_half_even_le (z : Z) (y : Q) :
  y <= inject_Z z -> (round_half_even y <= z)%Z.
Proof.
  intros Hy. unfold round_half_even.
  pose proof (Qfloor_le y) as Hf.
  assert (Hfz : (Qfloor y <= z)%Z).
  { rewrite <- (Qfloor_Z z). now apply Qfloor_resp_le. }
  assert (Hup : inject_Z (Qfloor y) < y -> (Qfloor y + 1 <= z)%Z).
  { intros Hlt. assert (H : inject_Z (Qfloor y) < inject_Z z) by lra.
    rewrite <- Zlt_Qlt in H. lia. }
  destruct (Qcompare_spec (y - inject_Z (Qfloor y)) (1 # 2)) as [He|Hl|Hg].
  - destruct (Z.even (Qfloor y)); [exact Hfz | apply Hup; lra].
  - exact Hfz.
  - apply Hup; lra.
Qed.

Lemma round_half_even_error (y : Q) :
  within (1 # 2) (inject_Z (round_half_even y)) y.
Proof.
  unfold within, round_half_even.
  pose proof (Qfloor_le y) as Hf. pose proof (Qlt_floor y) as Hc.
  rewrite inject_Z_plus in Hc. change (inject_Z 1) with 1 in Hc.
  destruct (Qcompare_spec (y - inject_Z (Qfloor y)) (1 # 2)) as [He|Hl|Hg].
  - destruct (Z.even (Qfloor y)).
    + split; lra.
    + rewrite inject_Z_plus. change (inject_Z 1) with 1. split; lra.
  - split; lra.
  - rewrite inject_Z_plus. change (inject_Z 1) with 1. split; lra.
Qed.

(** Rounding to [n] decimals moves a number by at most half a unit of
    the last decimal. *)
Lemma py_round_error x n : within (1 # (2 * scale n)) (py_round x n) x.
Proof.
  destruct (round_half_even_error (x * inject_Z (Zpos (scale n)))) as [Hlo Hhi].
  rewrite py_round_unfold.
  set (r := round_half_even (x * inject_Z (Zpos (scale n)))) in *.
  set (P := scale n) in *.
  assert (Hr : Qmake r P == inject_Z r / inject_Z (Zpos P)) by apply Qmake_Qdiv.
  assert (Hp : 0 < inject_Z (Zpos P)) by (unfold Qlt; simpl; lia).
  assert (Hh : (1 # (2 * P)) * inject_Z (Zpos P) == 1 # 2)
    by (unfold Qeq; simpl; lia).
  unfold within. rewrite Hr. split.
  - apply Qle_shift_div_l; [exact Hp|]. nra.
  - apply Qle_shift_div_r; [exact Hp|]. nra.
Qed.

Lemma py_round_ge_decimal a x n : decimal n a -> a <= x -> a <= py_round x n.
Proof.
  intros [z Hz] Hx. rewrite Hz. apply py_round_ge_grid.
  rewrite Hz in Hx.
  assert (Hp : 0 < inject_Z (Zpos (scale n))) by (unfold Qlt; simpl; lia).
  assert (Hr : Qmake z (scale n) == inject_Z z / inject_Z (Zpos (scale n)))
    by apply Qmake_Qdiv.
  rewrite Hr in Hx.
  set (p := inject_Z (Zpos (scale n))) in *.
  assert (Hz' : inject_Z z == inject_Z z / p * p) by (field; lra).
  rewrite Hz'. apply Qmult_le_compat_r; [exact Hx | lra].
Qed.

Lemma py_round_le_decimal a x n : decimal n a -> x <= a -> py_round x n <= a.
Proof.
  intros [z Hz] Hx. rewrite Hz. rewrite py_round_unfold.
  assert (Hp : 0 < inject_Z (Zpos (scale n))) by (unfold Qlt; simpl; lia).
  assert (Hr : Qmake z (scale n) == inject_Z z / inject_Z (Zpos (scale n)))
    by apply Qmake_Qdiv.
  rewrite Hz, Hr in Hx.
  assert (Hle : x * inject_Z (Zpos (scale n)) <= inject_Z z).
  { set (p := inject_Z (Zpos (scale n))) in *.
    assert (Hz' : inject_Z z == inject_Z z / p * p) by (field; lra).
    rewrite Hz'. apply Qmult_le_compat_r; [exact Hx | lra]. }
  apply round_half_even_le in Hle.
  unfold Qle; simpl. nia.
Qed.

Lemma decimalb_spec n q : decimalb n q = true -> decimal n q.
Proof.
  unfold decimalb. intros H%Z.eqb_eq.
  exists ((Qnum q * Zpos (scale n)) / Zpos (Qden q))%Z.
  apply Z.div_exact in H; [|lia].
  unfold Qeq; simpl. lia.
Qed.

End RoundingError.

(** ** The jitter draws *)

Section Draws.

Import PyNum PyRandom.
Local Open Scope py_scope.
Local Open Scope Q_scope.








End Draws.

(** ** The sampler of the mock detections *)

Section Sampler.

Import PyNum PyRandom.
Local Open Scope py_scope.
Local Open Scope Q_scope.

(** The body of the [try] reads and writes neither the random source nor
    the cached model. *)
Lemma run_model_pure W classify image_bytes top_k s s0 :
  ml_model.run_model W classify image_bytes top_k s =
  (fst (ml_model.run_model W classify image_bytes top_k s0), s).
Proof.
  unfold ml_model.run_model, bind, lift, ret.
  destruct (Image_open W image_bytes) as [image|e]; [|reflexivity].
  destruct (negb (mode image =? "RGB")%string).
  - destruct (Image_convert W image "RGB") as [image'|e]; [|reflexivity].
    destruct (classify image' top_k); reflexivity.
  - destruct (classify image top_k); reflexivity.
Qed.

Lemma detection_unavailable_any_state W self image_bytes top_k s s0 :
  detection_unavailable W self image_bytes top_k s ->
  detection_unavailable W self image_bytes top_k s0.
Proof.
  intros [Hnone | [H | (cl & e & s1 & Hm & Hrun)]]; [now left | now right; left |].
  right; right. exists cl, e, s0. split; [exact Hm|].
  rewrite (run_model_pure W cl image_bytes top_k s0 s), Hrun. reflexivity.
Qed.

(** When the detection cannot answer, [detect_food_items] is its
    sampler, run on the same state. *)
Lemma detect_food_items_samples W self image_bytes top_k s :
  detection_unavailable W self image_bytes top_k s ->
  ml_model.detect_food_items W self image_bytes top_k s =
  ml_model._fallback_detection s.
Proof.
  intros Hun. unfold ml_model.detect_food_items.
  destruct Hun as [Hnone | [(cl & e & Hm & Hopen) | (cl & e & s1 & Hm & Hrun)]].
  - now rewrite Hnone.
  - rewrite Hm.
    assert (Hrun : ml_model.run_model W cl image_bytes top_k s = (Raise e, s)).
    { unfold ml_model.run_model, bind, lift. now rewrite Hopen. }
    now rewrite (try_except_Raise _ _ _ _ _ Hrun).
  - rewrite Hm.
    assert (Hs : s1 = s).
    { rewrite (run_model_pure W cl image_bytes top_k s s) in Hrun.
      now injection Hrun. }
    subst s1. now rewrite (try_except_Raise _ _ _ _ _ Hrun).
Qed.

(** The sampler, with its draws named. *)
Lemma _fallback_detection_draws s :
  exists shuffled s1 n s',
    shuffle ml_model.fallback_candidates s = (Ok shuffled, s1) /\
    randint 2 3 s1 = (Ok n, s') /\
    ml_model._fallback_detection s = (Ok (take (Z.to_nat n) shuffled), s') /\
    shuffled ≡ₚ ml_model.fallback_candidates /\ (n = 2 \/ n = 3)%Z.
Proof.
  destruct (shuffle_ok ml_model.fallback_candidates s) as (y & s1 & Hy & Hp).
  destruct (randint_2_3 s1) as (n & s2 & Hn & Hn23).
  exists y, s1, n, s2. unfold ml_model._fallback_detection.
  rewrite (bind_Ok _ _ _ _ _ Hy), (bind_Ok _ _ _ _ _ Hn).
  repeat split; assumption.
Qed.

Lemma fallback_candidates_cases d :
  d ∈ ml_model.fallback_candidates ->
  d = ml_model.mock "grilled_chicken" "Grilled Chicken" 0.87 \/
  d = ml_model.mock "rice" "Rice" 0.82 \/
  d = ml_model.mock "broccoli" "Broccoli" 0.78 \/
  d = ml_model.mock "salad" "Salad" 0.75 \/
  d = ml_model.mock "pasta" "Pasta" 0.73 \/
  d = ml_model.mock "salmon" "Salmon" 0.71.
Proof.
  unfold ml_model.fallback_candidates. intros Hd.
  repeat (apply elem_of_cons in Hd as [->|Hd]; [tauto|]).
  inversion Hd.
Qed.

(** Exhibits the content of the random source for a given sample. *)
Ltac sampled :=
  match goal with
  | |- context [Ok ?ds] =>
      exists (tape_for (map ml_model.label ds));
      split; [apply (bool_decide_unpack _); vm_compute; exact I
             | intros mi; vm_compute; reflexivity]
  end.

(** Every ordered choice of two or three distinct candidates is returned
    for some content of the random source. *)
Lemma _fallback_detection_covers dets :
  (2 <= length dets <= 3)%nat -> NoDup dets ->
  dets ⊆ ml_model.fallback_candidates ->
  exists tape, tape ∈ draw_tapes /\
    forall mi,
      fst (ml_model._fallback_detection {| rng := tape; model_instance := mi |})
      = Ok dets.
Proof.
  intros Hlen Hnd Hsub.
  destruct dets as [|a [|b [|c [|? ?]]]]; simpl in Hlen; try lia.
  - assert (Ha := fallback_candidates_cases a (Hsub a ltac:(apply list_elem_of_here))).
    assert (Hb := fallback_candidates_cases b
                    (Hsub b ltac:(apply list_elem_of_further, list_elem_of_here))).
    apply NoDup_cons in Hnd as [Hab%not_elem_of_cons _].
    destruct Hab as [Hab _].
    clear Hsub Hlen.
    destruct Ha as [->|[->|[->|[->|[->| ->]]]]];
      destruct Hb as [->|[->|[->|[->|[->| ->]]]]];
      try congruence; sampled.
  - assert (Ha := fallback_candidates_cases a (Hsub a ltac:(apply list_elem_of_here))).
    assert (Hb := fallback_candidates_cases b
                    (Hsub b ltac:(apply list_elem_of_further, list_elem_of_here))).
    assert (Hc := fallback_candidates_cases c
                    (Hsub c ltac:(do 2 apply list_elem_of_further;
                                  apply list_elem_of_here))).
    apply NoDup_cons in Hnd as [Hab%not_elem_of_cons Hnd].
    destruct Hab as [Hab Hac%not_elem_of_cons]. destruct Hac as [Hac _].
    apply NoDup_cons in Hnd as [Hbc%not_elem_of_cons _].
    destruct Hbc as [Hbc _].
    clear Hsub Hlen.
    destruct Ha as [->|[->|[->|[->|[->| ->]]]]];
      destruct Hb as [->|[->|[->|[->|[->| ->]]]]];
      try congruence;
      destruct Hc as [->|[->|[->|[->|[->| ->]]]]];
      try congruence; sampled.
Qed.

End Sampler.

(** * The claims *)

Import PyNum PyStr.
Local Open Scope Q_scope.

(** The primary path can raise: a prediction whose score is not a number
    passes [detect_food_items] and fails in [estimate_nutrition]. *)
Example primary_path_can_raise :
  fst (pipeline.primary_path (world_with classify_bad_score) [] None (fresh [])) =
  Raise (TypeError "type NoneType doesn't define __round__ method").
Proof. vm_compute. reflexivity. Qed.

(** C1. For every image and optional file name, [run_baseline_pipeline]
    returns a result and never raises; the result carries the file name
    unchanged and the metadata of one of the two paths; it is the result
    of the primary path when that path returns, and when the primary path
    raises, the error is caught and the result is that of
    [run_fallback_pipeline]. *)
Theorem run_baseline_pipeline_never_raises
    (W : World) (image_bytes : list Byte.byte) (f : option string) (s : State) :
  exists r s',
    pipeline.run_baseline_pipeline W image_bytes f s = (Ok r, s') /\
    pipeline.filename (pipeline.source r) = f /\
    match pipeline.primary_path W image_bytes f s with
    | (Ok r0, s0) => r = r0 /\ s' = s0 /\ pipeline.pipeline r = pipeline.ml_info
    | (Raise _, s0) =>
        pipeline.run_fallback_pipeline f s0 = (Ok r, s') /\
        pipeline.pipeline r = pipeline.fallback_info
    end.
Proof.
  destruct (run_baseline_pipeline_spec W image_bytes f s) as (r & s' & Hr & _ & Hp).
  exists r, s'. split; [exact Hr|].
  destruct (pipeline.primary_path W image_bytes f s) as [[r0|e] s0].
  - destruct Hp as (-> & -> & [_ Hi Hs]). rewrite Hs. auto.
  - destruct Hp as (Hfb & [_ Hi Hs]). rewrite Hs. auto.
Qed.

(** C2. In every estimate produced by either path, for any number of
    items, each item value is the result of a rounding to one decimal
    and each total is the sum of the item values rounded to one decimal
    (and, the item values having one decimal, equal to that sum). *)
Theorem totals_are_sums_of_rounded_items
    (W : World) (image_bytes : list Byte.byte) (f : option string)
    (dets : list ml_model.Detection) (s : State) :
  (exists r s',
     pipeline.run_baseline_pipeline W image_bytes f s = (Ok r, s') /\
     totals_consistent (pipeline.estimate r)) /\
  (exists r s',
     pipeline.run_fallback_pipeline f s = (Ok r, s') /\
     totals_consistent (pipeline.estimate r)) /\
  match ml_model.estimate_nutrition dets s with
  | (Ok r, _) => length (ml_model.items r) = length dets /\ totals_consistent r
  | (Raise _, _) => all_float dets = false
  end.
Proof.
  split; [|split].
  - destruct (run_baseline_pipeline_spec W image_bytes f s) as (r & s' & Hr & Ht & _).
    eauto.
  - destruct (run_fallback_pipeline_ok f s) as (r & s' & Hr & _ & Ht). eauto.
  - pose proof (estimate_nutrition_spec dets s) as H.
    destruct (ml_model.estimate_nutrition dets s) as [[r|e] s']; [|exact H].
    destruct H as (_ & Hf2 & Ht). split; [|exact Ht].
    symmetry. exact (Forall2_length _ _ _ Hf2).
Qed.

(** C3. With the model never initialized, and with an inference that
    raises, [run_baseline_pipeline] returns two or three items, but the
    version tag of the result is the ML-powered one, not the fallback
    one. *)
Theorem unavailable_detection_is_tagged_ml_powered :
  match fst (pipeline.run_baseline_pipeline world_no_transformers []
               (Some "meal.jpg") (fresh [3; 1; 0; 2; 1; 1]%N)) with
  | Ok r =>
      length (ml_model.items (pipeline.estimate r)) = 3%nat /\
      pipeline.version (pipeline.pipeline r) = "ml-powered-1.0"
  | Raise _ => False
  end /\
  match fst (pipeline.run_baseline_pipeline (world_with classify_raises) []
               (Some "meal.jpg") (fresh [3; 1; 0; 2; 1; 0]%N)) with
  | Ok r =>
      length (ml_model.items (pipeline.estimate r)) = 2%nat /\
      pipeline.version (pipeline.pipeline r) = "ml-powered-1.0"
  | Raise _ => False
  end.
Proof. vm_compute. repeat split. Qed.

(** C4, as stated, fails: a model that returns no prediction makes the
    detection stage return the empty list, and the result has no item. *)
Lemma empty_detection_is_not_replaced :
  fst (detect_stage (world_with classify_nothing) [] (fresh [])) = Ok [] /\
  ~ (exists r s',
       pipeline.run_baseline_pipeline (world_with classify_nothing) [] None (fresh [])
       = (Ok r, s') /\
       (2 <= length (ml_model.items (pipeline.estimate r)) <= 3)%nat).
Proof.
  split; [vm_compute; reflexivity|].
  intros (r & s' & Hr & Hlen).
  vm_compute in Hr. injection Hr as <- _. simpl in Hlen. lia.
Qed.

(** C4, amended. When the detection stage returns no detection, the
    orchestrator does not fall back: [run_baseline_pipeline] returns the
    empty estimate, with all four totals 0.0, under the ML-powered
    metadata. *)
Theorem empty_detection_gives_empty_estimate
    (W : World) (image_bytes : list Byte.byte) (f : option string) (s s1 : State) :
  detect_stage W image_bytes s = (Ok [], s1) ->
  pipeline.run_baseline_pipeline W image_bytes f s =
  (Ok {| pipeline.estimate := empty_estimate;
         pipeline.pipeline := pipeline.ml_info;
         pipeline.source := {| pipeline.filename := f |} |}, s1).
Proof.
  unfold detect_stage, pipeline.run_baseline_pipeline, pipeline.primary_path.
  intros H.
  destruct (get_model_ok W s) as (m & s0 & Hm).
  rewrite (bind_Ok _ _ _ _ _ Hm) in H.
  erewrite try_except_Ok; [reflexivity|].
  rewrite (bind_Ok _ _ _ _ _ Hm), (bind_Ok _ _ _ _ _ H).
  reflexivity.
Qed.

Lemma empty_detection_gives_empty_estimate_witness :
  pipeline.run_baseline_pipeline (world_with classify_nothing) [] (Some "plate.png")
    (fresh [7]%N) =
  (Ok {| pipeline.estimate := empty_estimate;
         pipeline.pipeline := pipeline.ml_info;
         pipeline.source := {| pipeline.filename := Some "plate.png" |} |},
   {| rng := [7]%N;
      model_instance :=
        Some {| model := Some classify_nothing; model_name := "nateraw/food" |} |}).
Proof.
  apply (empty_detection_gives_empty_estimate (world_with classify_nothing)).
  vm_compute. reflexivity.
Defined.

(** C5. For every label, the code [normalize_food_label] returns is a
    key of the reference table; a label with no exact match and no
    keyword match resolves to "default". *)
Theorem normalize_food_label_covered (lbl : string) :
  is_Some (ml_model.NUTRITION_DATABASE !! ml_model.normalize_food_label lbl) /\
  (ml_model.dict_mem (label_lower lbl) ml_model.NUTRITION_DATABASE = false ->
   existsb (fun kw => contains kw (label_lower lbl)) KEYWORDS = false ->
   ml_model.normalize_food_label lbl = "default").
Proof.
  split.
  - apply dict_mem_is_Some, normalize_food_label_in_table.
  - intros Hm Hk. unfold ml_model.normalize_food_label. fold (label_lower lbl).
    rewrite Hm. simpl in Hk.
    repeat (apply orb_false_elim in Hk as [? Hk]).
    repeat match goal with H : contains _ _ = false |- _ => rewrite H; clear H end.
    reflexivity.
Qed.

Lemma normalize_food_label_covered_witness :
  ml_model.normalize_food_label "" = "default" /\
  ml_model.normalize_food_label "xyzzy_unknown_food" = "default".
Proof.
  split.
  - apply (proj2 (normalize_food_label_covered "")); vm_compute; reflexivity.
  - apply (proj2 (normalize_food_label_covered "xyzzy_unknown_food"));
      vm_compute; reflexivity.
Defined.

(** C6. The table key "chicken_breast" does not survive the round trip:
    its display form "Chicken Breast", and the key itself, normalize to
    "grilled_chicken". Every other key of the table normalizes to itself
    from its display form. *)
Theorem display_round_trip_loses_chicken_breast :
  is_Some (ml_model.NUTRITION_DATABASE !! "chicken_breast") /\
  display_form "chicken_breast" = "Chicken Breast" /\
  ml_model.normalize_food_label (display_form "chicken_breast") = "grilled_chicken" /\
  ml_model.normalize_food_label "chicken_breast" = "grilled_chicken" /\
  map (fun e => ml_model.normalize_food_label (display_form (fst e)))
      ml_model.NUTRITION_ENTRIES =
  map (fun e => if String.eqb (fst e) "chicken_breast"
                then "grilled_chicken" else fst e)
      ml_model.NUTRITION_ENTRIES.
Proof.
  split; [apply dict_mem_is_Some; vm_compute; reflexivity|].
  vm_compute. repeat split.
Qed.




(** C8. The items follow the detections one for one and in order, on
    both paths: the codes of the items are the codes of the detections,
    so that two detections with the same code give two items, and each
    total is the rounded sum over all the items. *)
Theorem aggregation_keeps_detection_order
    (dets : list ml_model.Detection) (fdets : list pipeline.FoodItemDetection)
    (f : option string) (s : State) :
  all_float dets = true ->
  (exists r s',
     ml_model.estimate_nutrition dets s = (Ok r, s') /\
     map ml_model.code (ml_model.items r) =
       map (fun d => ml_model.normalize_food_label (ml_model.label d)) dets /\
     map ml_model.name (ml_model.items r) = map ml_model.display_name dets /\
     totals_consistent r) /\
  (exists r s',
     pipeline.fallback_from fdets f s = (Ok r, s') /\
     map ml_model.code (ml_model.items (pipeline.estimate r)) =
       map pipeline.label fdets /\
     totals_consistent (pipeline.estimate r)).
Proof.
  intros Hall. split.
  - destruct (estimate_nutrition_ok dets s Hall) as (r & s' & Hr & Hf2 & Ht).
    exists r, s'. split; [exact Hr|]. split; [|split; [|exact Ht]].
    + clear -Hf2.
      induction Hf2 as [|d it ds its (u & c & _ & _ & _ & H) _ IH]; simpl;
        [reflexivity|]. destruct H. now rewrite IH, from_code0.
    + clear -Hf2.
      induction Hf2 as [|d it ds its (u & c & _ & _ & _ & H) _ IH]; simpl;
        [reflexivity|]. destruct H. now rewrite IH, from_name0.
  - destruct (fallback_from_spec fdets f s) as (r & s' & Hr & Hf2 & Ht & _).
    exists r, s'. split; [exact Hr|]. split; [|exact Ht].
    clear -Hf2.
    induction Hf2 as [|d it ds its (u & _ & _ & H) _ IH]; simpl; [reflexivity|].
    destruct H. now rewrite IH, vf_code0.
Qed.

Lemma aggregation_keeps_detection_order_witness :
  (exists r,
     fst (ml_model.estimate_nutrition
            [ ml_model.mock "chicken_wings" "Chicken Wings" 0.61;
              ml_model.mock "chicken_curry" "Chicken Curry" 0.23 ]
            (fresh [1; 2]%N)) = Ok r /\
     map ml_model.code (ml_model.items r) = ["grilled_chicken"; "grilled_chicken"]) /\
  (exists r,
     fst (pipeline.fallback_from
            [ {| pipeline.label := "broccoli"; pipeline.confidence := 0.68 |};
              {| pipeline.label := "broccoli"; pipeline.confidence := 0.68 |} ]
            None (fresh [1; 2]%N)) = Ok r /\
     map ml_model.code (ml_model.items (pipeline.estimate r)) = ["broccoli"; "broccoli"]).
Proof.
  destruct (aggregation_keeps_detection_order
              [ ml_model.mock "chicken_wings" "Chicken Wings" 0.61;
                ml_model.mock "chicken_curry" "Chicken Curry" 0.23 ]
              [ {| pipeline.label := "broccoli"; pipeline.confidence := 0.68 |};
                {| pipeline.label := "broccoli"; pipeline.confidence := 0.68 |} ]
              None (fresh [1; 2]%N) eq_refl)
    as ((r & s' & Hr & Hcodes & _) & (r' & s'' & Hr' & Hcodes' & _)).
  split.
  - exists r. rewrite Hr. split; [reflexivity | exact Hcodes].
  - exists r'. rewrite Hr'. split; [reflexivity | exact Hcodes'].
Defined.

Lemma Forall2_Forall_r {A B} (R : A -> B -> Prop) (P : B -> Prop) l k :
  (forall a b, R a b -> P b) -> Forall2 R l k -> Forall P k.
Proof. intros H Hf2. induction Hf2; constructor; eauto. Qed.

(** C9. In every item of a result of either path the weight is positive
    and the volume, the calories and the three macros are not negative,
    whatever the labels and whatever the jitter draws. *)
Theorem items_are_nonnegative
    (W : World) (image_bytes : list Byte.byte) (f : option string)
    (dets : list ml_model.Detection) (fdets : list pipeline.FoodItemDetection)
    (s : State) :
  (exists r s',
     pipeline.run_baseline_pipeline W image_bytes f s = (Ok r, s') /\
     Forall item_nonneg (ml_model.items (pipeline.estimate r))) /\
  (exists r s',
     pipeline.run_fallback_pipeline f s = (Ok r, s') /\
     Forall item_nonneg (ml_model.items (pipeline.estimate r))) /\
  (exists r s',
     pipeline.fallback_from fdets f s = (Ok r, s') /\
     Forall item_nonneg (ml_model.items (pipeline.estimate r))) /\
  match ml_model.estimate_nutrition dets s with
  | (Ok r, _) => Forall item_nonneg (ml_model.items r)
  | (Raise _, _) => all_float dets = false
  end.
Proof.
  assert (Hfb : forall r, fallback_result f r ->
                          Forall item_nonneg (ml_model.items (pipeline.estimate r))).
  { intros r [(ds & _ & _ & _ & Hf2) _ _].
    exact (Forall2_Forall_r _ _ _ _ volume_first_from_nonneg Hf2). }
  split; [|split; [|split]].
  - destruct (run_baseline_pipeline_spec W image_bytes f s) as (r & s' & Hr & _ & Hp).
    exists r, s'. split; [exact Hr|].
    destruct (pipeline.primary_path W image_bytes f s) as [[r0|e] s0].
    + destruct Hp as (_ & _ & [(ds & Hf2) _ _]).
      exact (Forall2_Forall_r _ _ _ _ estimated_from_nonneg Hf2).
    + apply Hfb, Hp.
  - destruct (run_fallback_pipeline_ok f s) as (r & s' & Hr & Hres & _). eauto.
  - destruct (fallback_from_spec fdets f s) as (r & s' & Hr & Hf2 & _).
    exists r, s'. split; [exact Hr|].
    exact (Forall2_Forall_r _ _ _ _ volume_first_from_nonneg Hf2).
  - pose proof (estimate_nutrition_spec dets s) as H.
    destruct (ml_model.estimate_nutrition dets s) as [[r|e] s']; [|exact H].
    destruct H as (_ & Hf2 & _).
    exact (Forall2_Forall_r _ _ _ _ estimated_from_nonneg Hf2).
Qed.

(** C10. [detect_food_items] always returns. When the model is not
    initialized, when the image cannot be decoded or when the inference
    raises, it returns what its sampler draws from the random source: the
    first two or three (by [random.randint]) of its six mock candidates
    after [random.shuffle], hence distinct candidates with their preset
    confidences; every ordered choice of two or three distinct candidates
    is returned for some content of the random source; and
    [run_baseline_pipeline] then returns the estimate of these detections
    under the ML-powered metadata, not the fallback one. *)
Theorem detect_food_items_total_with_mock
    (W : World) (self : FoodDetectionModel)
    (image_bytes : list Byte.byte) (top_k : Z) (f : option string) (s : State) :
  (exists dets s',
     ml_model.detect_food_items W self image_bytes top_k s = (Ok dets, s')) /\
  (detection_unavailable W self image_bytes top_k s ->
   exists shuffled s1 n dets s',
     PyRandom.shuffle ml_model.fallback_candidates s = (Ok shuffled, s1) /\
     PyRandom.randint 2 3 s1 = (Ok n, s') /\
     shuffled ≡ₚ ml_model.fallback_candidates /\
     dets = take (Z.to_nat n) shuffled /\
     ml_model.detect_food_items W self image_bytes top_k s = (Ok dets, s') /\
     (2 <= length dets <= 3)%nat /\ NoDup dets /\
     dets ⊆ ml_model.fallback_candidates) /\
  (detection_unavailable W self image_bytes top_k s ->
   forall dets,
     (2 <= length dets <= 3)%nat -> NoDup dets ->
     dets ⊆ ml_model.fallback_candidates ->
     exists tape,
       fst (ml_model.detect_food_items W self image_bytes top_k
              {| rng := tape; model_instance := model_instance s |}) = Ok dets) /\
  (forall m s1,
     ml_model.get_model W s = (Ok m, s1) ->
     detection_unavailable W m image_bytes 3 s1 ->
     exists r s',
       pipeline.run_baseline_pipeline W image_bytes f s = (Ok r, s') /\
       (2 <= length (ml_model.items (pipeline.estimate r)) <= 3)%nat /\
       pipeline.pipeline r = pipeline.ml_info /\
       pipeline.version (pipeline.pipeline r) = "ml-powered-1.0" /\
       pipeline.version (pipeline.pipeline r) <> pipeline.version pipeline.fallback_info).
Proof.
  assert (Hmock : forall self0 k s0,
            detection_unavailable W self0 image_bytes k s0 ->
            exists shuffled s1 n dets s',
              PyRandom.shuffle ml_model.fallback_candidates s0 = (Ok shuffled, s1) /\
              PyRandom.randint 2 3 s1 = (Ok n, s') /\
              shuffled ≡ₚ ml_model.fallback_candidates /\
              dets = take (Z.to_nat n) shuffled /\
              ml_model.detect_food_items W self0 image_bytes k s0 = (Ok dets, s') /\
              (2 <= length dets <= 3)%nat /\ NoDup dets /\
              dets ⊆ ml_model.fallback_candidates).
  { intros self0 k s0 Hun.
    rewrite (detect_food_items_samples _ _ _ _ _ Hun).
    destruct (_fallback_detection_draws s0) as (y & s1 & n & s2 & Hy & Hn & Hfb & Hp & _).
    destruct (_fallback_detection_ok s0) as (dets & s' & Hd & Hb).
    rewrite Hfb in Hd. injection Hd as <- <-.
    exists y, s1, n, (take (Z.to_nat n) y), s2. tauto. }
  split; [apply detect_food_items_ok|]. split; [apply Hmock|]. split.
  - intros Hun dets Hlen Hnd Hsub.
    destruct (_fallback_detection_covers dets Hlen Hnd Hsub) as (tape & _ & Htape).
    exists tape.
    rewrite (detect_food_items_samples W self image_bytes top_k).
    + apply Htape.
    + eapply detection_unavailable_any_state, Hun.
  - intros m s1 Hm Hun.
    destruct (Hmock m 3%Z s1 Hun) as (y & s1' & n & dets & s2 & _ & _ & _ & _ & Hd & Hlen & _ & Hsub).
    destruct (estimate_nutrition_ok dets s2 (candidates_all_float dets Hsub))
      as (r & s3 & Hr & Hf2 & _).
    do 2 eexists. split.
    + unfold pipeline.run_baseline_pipeline, pipeline.primary_path.
      apply try_except_Ok.
      rewrite (bind_Ok _ _ _ _ _ Hm), (bind_Ok _ _ _ _ _ Hd), (bind_Ok _ _ _ _ _ Hr).
      reflexivity.
    + cbn [pipeline.estimate pipeline.pipeline].
      rewrite <- (Forall2_length _ _ _ Hf2).
      repeat split; try lia. discriminate.
Qed.

Lemma detect_food_items_total_with_mock_witness :
  (exists r s',
     pipeline.run_baseline_pipeline world_no_transformers [] (Some "meal.jpg")
       (fresh [3; 1; 0; 2; 1; 1]%N) = (Ok r, s') /\
     (2 <= length (ml_model.items (pipeline.estimate r)) <= 3)%nat /\
     pipeline.version (pipeline.pipeline r) = "ml-powered-1.0") /\
  (exists dets s',
     ml_model.detect_food_items world_no_transformers
       (ml_model.new_FoodDetectionModel world_no_transformers) [] 3
       (fresh [3; 1; 0; 2; 1; 1]%N) = (Ok dets, s') /\
     rng s' = [] /\ (2 <= length dets <= 3)%nat) /\
  (exists tape,
     fst (ml_model.detect_food_items world_no_transformers
            (ml_model.new_FoodDetectionModel world_no_transformers) [] 3
            (fresh tape))
     = Ok [ ml_model.mock "salmon" "Salmon" 0.71; ml_model.mock "rice" "Rice" 0.82 ]) /\
  (exists tape,
     fst (ml_model.detect_food_items world_no_transformers
            (ml_model.new_FoodDetectionModel world_no_transformers) [] 3
            (fresh tape))
     = Ok [ ml_model.mock "rice" "Rice" 0.82; ml_model.mock "salad" "Salad" 0.75;
            ml_model.mock "grilled_chicken" "Grilled Chicken" 0.87 ]).
Proof.
  pose proof (detect_food_items_total_with_mock world_no_transformers
                (ml_model.new_FoodDetectionModel world_no_transformers) []
                3%Z (Some "meal.jpg") (fresh [3; 1; 0; 2; 1; 1]%N))
    as (_ & Hdraw & Hcover & Hrun).
  assert (Hun : detection_unavailable world_no_transformers
                  (ml_model.new_FoodDetectionModel world_no_transformers) [] 3
                  (fresh [3; 1; 0; 2; 1; 1]%N)) by (left; reflexivity).
  split; [|split; [|split]].
  - destruct (Hrun (ml_model.new_FoodDetectionModel world_no_transformers)
                {| rng := [3; 1; 0; 2; 1; 1]%N;
                   model_instance :=
                     Some (ml_model.new_FoodDetectionModel world_no_transformers) |})
      as (r & s' & Hr & Hlen & _ & Hv & _).
    + reflexivity.
    + left. reflexivity.
    + exists r, s'. auto.
  - destruct (Hdraw Hun) as (y & s1 & n & dets & s' & Hy & Hn & _ & _ & Hd & Hlen & _).
    exists dets, s'. split; [exact Hd|]. split; [|exact Hlen].
    vm_compute in Hy. injection Hy as _ <-.
    vm_compute in Hn. injection Hn as _ <-. reflexivity.
  - apply (Hcover Hun).
    + simpl. lia.
    + apply (NoDup_fmap_1 ml_model.label), (bool_decide_unpack _). vm_compute. exact I.
    + intros d Hd%list_elem_of_In. apply list_elem_of_In.
      unfold ml_model.fallback_candidates. cbn [In] in *. intuition auto.
  - apply (Hcover Hun).
    + simpl. lia.
    + apply (NoDup_fmap_1 ml_model.label), (bool_decide_unpack _). vm_compute. exact I.
    + intros d Hd%list_elem_of_In. apply list_elem_of_In.
      unfold ml_model.fallback_candidates. cbn [In] in *. intuition auto.
Defined.

(** * Further properties *)

Local Open Scope py_scope.

Section Characters.

Ltac all_chars c := destruct c as [[] [] [] [] [] [] [] []]; reflexivity.

Lemma lower_char_idem c : lower_char (lower_char c) = lower_char c.
Proof. all_chars c. Qed.

Lemma lower_upper_char c : lower_char (upper_char c) = lower_char c.
Proof. all_chars c. Qed.

Lemma lower_underscore_char c :
  lower_char (if Ascii.eqb c "_" then " "%char else c) =
  (if Ascii.eqb (lower_char c) "_" then " "%char else lower_char c).
Proof. all_chars c. Qed.

Lemma underscore_idem_char c :
  (if Ascii.eqb (if Ascii.eqb c "_" then " "%char else c) "_" then " "%char
   else (if Ascii.eqb c "_" then " "%char else c)) =
  (if Ascii.eqb c "_" then " "%char else c).
Proof. all_chars c. Qed.

Lemma space_underscore_char c :
  (if Ascii.eqb (lower_char (if Ascii.eqb c " " then "_"%char else c)) "_"
   then " "%char else lower_char (if Ascii.eqb c " " then "_"%char else c)) =
  (if Ascii.eqb (lower_char c) "_" then " "%char else lower_char c).
Proof. all_chars c. Qed.

Lemma map_chars_compose f g s :
  map_chars f (map_chars g s) = map_chars (fun c => f (g c)) s.
Proof. induction s as [|c s IH]; simpl; [reflexivity | now rewrite IH]. Qed.

Lemma map_chars_ext f g s :
  (forall c, f c = g c) -> map_chars f s = map_chars g s.
Proof. intros H. induction s as [|c s IH]; simpl; [reflexivity | now rewrite H, IH]. Qed.

Lemma lower_title_from b s : lower (title_from b s) = lower s.
Proof.
  unfold lower.
  revert b. induction s as [|c s IH]; intros b; [reflexivity|].
  cbn [title_from map_chars]. rewrite IH. f_equal.
  destruct (is_upper c || is_lower c); [|reflexivity].
  destruct b; [apply lower_char_idem | apply lower_upper_char].
Qed.

Lemma label_lower_replace lbl :
  label_lower (replace_char "_" " " lbl) = label_lower lbl.
Proof.
  unfold label_lower, lower, replace_char.
  rewrite !map_chars_compose. apply map_chars_ext. intros c.
  rewrite lower_underscore_char. apply underscore_idem_char.
Qed.

Lemma label_lower_lower lbl : label_lower (lower lbl) = label_lower lbl.
Proof.
  unfold label_lower, lower, replace_char.
  rewrite !map_chars_compose. apply map_chars_ext. intros c.
  now rewrite lower_char_idem.
Qed.

Lemma label_lower_title lbl : label_lower (title lbl) = label_lower lbl.
Proof. unfold label_lower, title. now rewrite lower_title_from. Qed.

Lemma label_lower_spaces lbl :
  label_lower (replace_char " " "_" lbl) = label_lower lbl.
Proof.
  unfold label_lower, lower, replace_char.
  rewrite !map_chars_compose. apply map_chars_ext. intros c.
  apply space_underscore_char.
Qed.

Lemma label_lower_idem lbl : label_lower (label_lower lbl) = label_lower lbl.
Proof. unfold label_lower at 2. now rewrite label_lower_replace, label_lower_lower. Qed.

Lemma normalize_by_label_lower a b :
  label_lower a = label_lower b ->
  ml_model.normalize_food_label a = ml_model.normalize_food_label b.
Proof.
  intros H. unfold ml_model.normalize_food_label.
  fold (label_lower a). fold (label_lower b). now rewrite H.
Qed.

End Characters.

(** X1. On ASCII labels the normalizer ignores case and does not tell
    underscores from spaces: the display form of a label, its lower-case
    and title-case forms, and the label with underscores for spaces or
    spaces for underscores all resolve to the code of the label itself. *)
Theorem normalize_ignores_case_and_underscores (lbl : string) :
  isascii lbl = true ->
  ml_model.normalize_food_label (display_form lbl) = ml_model.normalize_food_label lbl /\
  ml_model.normalize_food_label (lower lbl) = ml_model.normalize_food_label lbl /\
  ml_model.normalize_food_label (title lbl) = ml_model.normalize_food_label lbl /\
  ml_model.normalize_food_label (replace_char "_" " " lbl) =
    ml_model.normalize_food_label lbl /\
  ml_model.normalize_food_label (replace_char " " "_" lbl) =
    ml_model.normalize_food_label lbl.
Proof.
  intros _. repeat split; apply normalize_by_label_lower.
  - unfold display_form. now rewrite label_lower_title, label_lower_replace.
  - apply label_lower_lower.
  - apply label_lower_title.
  - apply label_lower_replace.
  - apply label_lower_spaces.
Qed.

Lemma normalize_ignores_case_and_underscores_witness :
  ml_model.normalize_food_label (display_form "fish_and_CHIPS") = "salmon" /\
  ml_model.normalize_food_label (title "fish_and_CHIPS") = "salmon" /\
  ml_model.normalize_food_label (replace_char " " "_" "Caesar Salad") = "salad".
Proof.
  destruct (normalize_ignores_case_and_underscores "fish_and_CHIPS" eq_refl)
    as (Hd & _ & Ht & _).
  destruct (normalize_ignores_case_and_underscores "Caesar Salad" eq_refl)
    as (_ & _ & _ & _ & Hs).
  rewrite Hd, Ht, Hs. repeat split.
Defined.

Lemma normalize_food_label_range lbl :
  ml_model.normalize_food_label lbl ∈ NORMALIZED_CODES.
Proof.
  unfold ml_model.normalize_food_label. fold (label_lower lbl).
  destruct (ml_model.dict_mem (label_lower lbl) ml_model.NUTRITION_DATABASE) eqn:Hm.
  - pose proof (label_lower_idem lbl) as Hid.
    apply dict_mem_is_Some in Hm as [r Hr].
    apply reference_in_entries in Hr.
    unfold ml_model.NUTRITION_ENTRIES in Hr.
    repeat (apply elem_of_cons in Hr as [Hr|Hr];
            [injection Hr as Hk _; rewrite Hk in *;
             first [ discriminate Hid
                   | unfold NORMALIZED_CODES; set_solver ] |]).
    inversion Hr.
  - unfold NORMALIZED_CODES.
    repeat match goal with
           | |- context [if ?b then _ else _] => destruct b
           end; set_solver.
Qed.

(** X2. Normalizing is idempotent: the code of a code is that code. *)
Theorem normalize_food_label_idempotent (lbl : string) :
  ml_model.normalize_food_label (ml_model.normalize_food_label lbl) =
  ml_model.normalize_food_label lbl.
Proof.
  pose proof (normalize_food_label_range lbl) as H.
  unfold NORMALIZED_CODES in H.
  repeat (apply elem_of_cons in H as [->|H]; [vm_compute; reflexivity|]).
  inversion H.
Qed.

(** X3. No label resolves to "chicken_breast", although the table has
    an entry under that key. *)
Theorem chicken_breast_entry_unreachable (lbl : string) :
  is_Some (ml_model.NUTRITION_DATABASE !! "chicken_breast") /\
  ml_model.normalize_food_label lbl <> "chicken_breast".
Proof.
  split; [apply dict_mem_is_Some; vm_compute; reflexivity|].
  pose proof (normalize_food_label_range lbl) as H.
  unfold NORMALIZED_CODES in H. intros Heq. rewrite Heq in H.
  repeat (apply elem_of_cons in H as [H|H]; [discriminate H|]).
  inversion H.
Qed.


Section Servings.

Lemma py_round_within_1 x : within 0.05 (py_round x 1) x.
Proof.
  pose proof (py_round_error x 1) as [Hlo Hhi].
  change (1 # 2 * scale 1) with (1 # 20) in *.
  unfold within. split; lra.
Qed.

Lemma typical_serving_decimal c :
  decimalb 1 (ml_model.typical_serving_g (reference_of c) * 0.8) = true /\
  decimalb 1 (ml_model.typical_serving_g (reference_of c) * 1.2) = true /\
  60 <= ml_model.typical_serving_g (reference_of c) /\
  35 <= ml_model.calories_per_100g (reference_of c).
Proof.
  unfold reference_of, ml_model.NUTRITION_DATABASE.
  apply (default_lookup_Forall
           (fun r => decimalb 1 (ml_model.typical_serving_g r * 0.8) = true /\
                     decimalb 1 (ml_model.typical_serving_g r * 1.2) = true /\
                     60 <= ml_model.typical_serving_g r /\
                     35 <= ml_model.calories_per_100g r));
    [ repeat split | unfold ml_model.NUTRITION_ENTRIES; repeat constructor ];
    try (vm_compute; reflexivity); try (unfold Qle; simpl; lia).
Qed.

Lemma base_volume_decimal l :
  decimalb 1 (base_volume_of l * 0.9) = true /\
  decimalb 1 (base_volume_of l * 1.1) = true /\
  90 <= base_volume_of l.
Proof.
  unfold base_volume_of, pipeline.base_volumes.
  apply (default_lookup_Forall
           (fun v => decimalb 1 (v * 0.9) = true /\ decimalb 1 (v * 1.1) = true /\
                     90 <= v));
    [ repeat split | repeat constructor ];
    try (vm_compute; reflexivity); try (unfold Qle; simpl; lia).
Qed.

Lemma fallback_tables_ge l : 3 # 10 <= density_of l /\ 35 <= calories_of l.
Proof.
  split.
  - unfold density_of, pipeline.DENSITY_TABLE_G_PER_ML.
    apply (default_lookup_Forall (fun v => 3 # 10 <= v));
      [ | repeat constructor ]; unfold Qle; simpl; lia.
  - unfold calories_of, pipeline.CALORIE_TABLE_KCAL_PER_100G.
    apply (default_lookup_Forall (fun v => 35 <= v));
      [ | repeat constructor ]; unfold Qle; simpl; lia.
Qed.

Lemma estimated_from_weight_in_range d it : estimated_from d it -> weight_in_range it.
Proof.
  intros (u & c & Hlo & Hhi & _ & [_ _ Hweight Hvolume Hcal Hprot Hcarb Hfat _]).
  destruct (typical_serving_decimal (ml_model.code it)) as (H8 & H12 & Ht & _).
  unfold weight_in_range. rewrite Hweight. split.
  - apply py_round_ge_decimal; [now apply decimalb_spec | nra].
  - apply py_round_le_decimal; [now apply decimalb_spec | nra].
Qed.

Lemma volume_first_from_volume_in_range det it :
  volume_first_from det it -> volume_in_range it.
Proof.
  intros (u & Hlo & Hhi & [_ Hcode Hvolume Hweight Hcal Hprot Hcarb Hfat _]).
  unfold volume_in_range. rewrite Hvolume, Hcode.
  destruct (base_volume_decimal (pipeline.label det)) as (H9 & H11 & Hb).
  split.
  - apply py_round_ge_decimal; [now apply decimalb_spec | nra].
  - apply py_round_le_decimal; [now apply decimalb_spec | nra].
Qed.

Lemma estimated_from_consistent d it : estimated_from d it -> weight_first_consistent it.
Proof.
  intros (u & c & _ & _ & _ & [_ _ Hweight Hvolume Hcal Hprot Hcarb Hfat _]).
  constructor.
  - rewrite Hvolume. apply py_round_within_1.
  - rewrite Hcal. apply py_round_within_1.
  - rewrite Hprot. apply py_round_within_1.
  - rewrite Hcarb. apply py_round_within_1.
  - rewrite Hfat. apply py_round_within_1.
Qed.

Lemma volume_first_from_consistent det it :
  volume_first_from det it -> volume_first_consistent it.
Proof.
  intros (u & _ & _ & [_ Hcode Hvolume Hweight Hcal Hprot Hcarb Hfat _]).
  constructor.
  - rewrite Hweight at 1. rewrite Hvolume. apply py_round_within_1.
  - rewrite Hcal at 1. apply py_round_within_1.
  - rewrite Hprot at 1. apply py_round_within_1.
  - rewrite Hcarb at 1. apply py_round_within_1.
  - rewrite Hfat at 1. apply py_round_within_1.
Qed.

Lemma estimated_from_calories_ge_1 d it :
  estimated_from d it -> 1 <= ml_model.estimated_calories_kcal it.
Proof.
  intros H. pose proof (estimated_from_weight_in_range d it H) as [Hw _].
  destruct H as (u & c & _ & _ & _ & [_ _ Hweight Hvolume Hcal Hprot Hcarb Hfat _]).
  destruct (typical_serving_decimal (ml_model.code it)) as (_ & _ & Ht & Hk).
  rewrite Hcal. apply py_round_ge_1.
  assert (Hw48 : 48 <= ml_model.estimated_weight_g it) by lra.
  assert (Hd : 48 # 100 <= ml_model.estimated_weight_g it / 100.0).
  { apply Qle_shift_div_l; [reflexivity | lra]. }
  nra.
Qed.

Lemma volume_first_from_calories_ge_1 det it :
  volume_first_from det it -> 1 <= ml_model.estimated_calories_kcal it.
Proof.
  intros H. pose proof (volume_first_from_volume_in_range det it H) as [Hv _].
  pose proof (volume_first_from_consistent det it H) as [[Hw _] _ _ _ _].
  destruct H as (u & _ & _ & [_ Hcode Hvolume Hweight Hcal Hprot Hcarb Hfat _]).
  destruct (base_volume_decimal (ml_model.code it)) as (_ & _ & Hb).
  destruct (fallback_tables_ge (ml_model.code it)) as (Hd & Hk).
  rewrite Hcal. apply py_round_ge_1.
  assert (Hv81 : 81 <= ml_model.estimated_volume_ml it) by lra.
  assert (Hw24 : 24 <= ml_model.estimated_weight_g it) by nra.
  apply Qle_shift_div_l; [reflexivity | nra].
Qed.

End Servings.

(** X4. On the weight-first path the weight of every item lies between
    0.8 and 1.2 times the typical serving of its code; on the volume-first
    path the volume of every item lies between 0.9 and 1.1 times the base
    volume of its code. The rounding does not leave these ranges. *)
Theorem servings_stay_in_jitter_range
    (dets : list ml_model.Detection) (fdets : list pipeline.FoodItemDetection)
    (f : option string) (s : State) :
  match ml_model.estimate_nutrition dets s with
  | (Ok r, _) => Forall weight_in_range (ml_model.items r)
  | (Raise _, _) => all_float dets = false
  end /\
  (exists r s',
     pipeline.fallback_from fdets f s = (Ok r, s') /\
     Forall volume_in_range (ml_model.items (pipeline.estimate r))).
Proof.
  split.
  - pose proof (estimate_nutrition_spec dets s) as H.
    destruct (ml_model.estimate_nutrition dets s) as [[r|e] s']; [|exact H].
    destruct H as (_ & Hf2 & _).
    exact (Forall2_Forall_r _ _ _ _ estimated_from_weight_in_range Hf2).
  - destruct (fallback_from_spec fdets f s) as (r & s' & Hr & Hf2 & _).
    exists r, s'. split; [exact Hr|].
    exact (Forall2_Forall_r _ _ _ _ volume_first_from_volume_in_range Hf2).
Qed.

(** X5. The values of an item agree with each other up to the rounding:
    on the weight-first path the volume is within 0.05 of weight/density
    and each nutrient within 0.05 of its per-100g value scaled by the
    weight; on the volume-first path the weight is within 0.05 of
    volume*density and each nutrient within 0.05 of its scaled value. *)
Theorem item_values_follow_weight
    (dets : list ml_model.Detection) (fdets : list pipeline.FoodItemDetection)
    (f : option string) (s : State) :
  match ml_model.estimate_nutrition dets s with
  | (Ok r, _) => Forall weight_first_consistent (ml_model.items r)
  | (Raise _, _) => all_float dets = false
  end /\
  (exists r s',
     pipeline.fallback_from fdets f s = (Ok r, s') /\
     Forall volume_first_consistent (ml_model.items (pipeline.estimate r))).
Proof.
  split.
  - pose proof (estimate_nutrition_spec dets s) as H.
    destruct (ml_model.estimate_nutrition dets s) as [[r|e] s']; [|exact H].
    destruct H as (_ & Hf2 & _).
    exact (Forall2_Forall_r _ _ _ _ estimated_from_consistent Hf2).
  - destruct (fallback_from_spec fdets f s) as (r & s' & Hr & Hf2 & _).
    exists r, s'. split; [exact Hr|].
    exact (Forall2_Forall_r _ _ _ _ volume_first_from_consistent Hf2).
Qed.

Lemma fold_left_Qplus_ge vs a : Forall (Qle 0) vs -> a <= fold_left Qplus vs a.
Proof.
  intros H. revert a. induction H as [|v vs Hv _ IH]; intros a; simpl; [lra|].
  specialize (IH (a + v)). lra.
Qed.

Lemma calories_zero_or_positive m :
  totals_consistent m ->
  Forall (fun it => 1 <= ml_model.estimated_calories_kcal it) (ml_model.items m) ->
  match ml_model.items m with
  | [] => ml_model.total_calories_kcal m == 0
  | _ :: _ => 1 <= ml_model.total_calories_kcal m
  end.
Proof.
  intros [_ [_ Hc] _ _ _] Hall.
  destruct (ml_model.items m) as [|it its]; rewrite Hc.
  - reflexivity.
  - unfold py_sum. simpl. inversion Hall as [|? ? H1 Hrest]; subst.
    assert (Hge : 0.0 + ml_model.estimated_calories_kcal it <=
                  fold_left Qplus (map ml_model.estimated_calories_kcal its)
                            (0.0 + ml_model.estimated_calories_kcal it)).
    { apply fold_left_Qplus_ge. apply Forall_map.
      eapply Forall_impl; [exact Hrest|]. simpl. intros; lra. }
    lra.
Qed.

(** X6. In a result of [run_baseline_pipeline] the total calories are 0
    when there is no item, and at least 1 as soon as there is one. *)
Theorem total_calories_zero_only_when_empty
    (W : World) (image_bytes : list Byte.byte) (f : option string) (s : State) :
  exists r s',
    pipeline.run_baseline_pipeline W image_bytes f s = (Ok r, s') /\
    match ml_model.items (pipeline.estimate r) with
    | [] => ml_model.total_calories_kcal (pipeline.estimate r) == 0
    | _ :: _ => 1 <= ml_model.total_calories_kcal (pipeline.estimate r)
    end.
Proof.
  destruct (run_baseline_pipeline_spec W image_bytes f s) as (r & s' & Hr & Ht & Hp).
  exists r, s'. split; [exact Hr|].
  apply calories_zero_or_positive; [exact Ht|].
  destruct (pipeline.primary_path W image_bytes f s) as [[r0|e] s0].
  - destruct Hp as (_ & _ & [(ds & Hf2) _ _]).
    exact (Forall2_Forall_r _ _ _ _ estimated_from_calories_ge_1 Hf2).
  - destruct Hp as (_ & [(ds & _ & _ & _ & Hf2) _ _]).
    exact (Forall2_Forall_r _ _ _ _ volume_first_from_calories_ge_1 Hf2).
Qed.




Section MockPath.

Lemma mock_candidate_item det it :
  det ∈ pipeline.mock_candidates -> volume_first_from det it -> mock_item it.
Proof.
  intros Hdet (u & _ & _ & [Hname Hcode _ _ _ _ _ _ Hconf]).
  exists det. split; [exact Hdet|]. split; [exact Hcode|].
  rewrite Hname, Hconf, Hcode.
  unfold pipeline.mock_candidates in Hdet.
  repeat (apply elem_of_cons in Hdet as [->|Hdet];
          [split; vm_compute; reflexivity|]).
  inversion Hdet.
Qed.

Lemma mock_labels_distinct x y :
  x ∈ pipeline.mock_candidates -> y ∈ pipeline.mock_candidates ->
  pipeline.label x = pipeline.label y -> x = y.
Proof.
  unfold pipeline.mock_candidates. intros Hx Hy.
  repeat (apply elem_of_cons in Hx as [->|Hx]);
    try (inversion Hx; fail);
    repeat (apply elem_of_cons in Hy as [->|Hy]);
    try (inversion Hy; fail);
    simpl; intros H; first [reflexivity | discriminate H].
Qed.

Lemma Forall2_codes dets its :
  Forall2 volume_first_from dets its ->
  map ml_model.code its = map pipeline.label dets.
Proof.
  induction 1 as [|d it ds its' (u & _ & _ & [_ Hcode _ _ _ _ _ _ _]) _ IH];
    simpl; [reflexivity | now rewrite IH, Hcode].
Qed.

Lemma Forall2_Forall_mem {A B} (R : A -> B -> Prop) (P : B -> Prop) l k :
  (forall a b, a ∈ l -> R a b -> P b) -> Forall2 R l k -> Forall P k.
Proof.
  intros H Hf2. induction Hf2 as [|a b l k Hab _ IH]; constructor.
  - apply (H a b); [apply list_elem_of_here | exact Hab].
  - apply IH. intros a' b' Ha'. apply H. now apply list_elem_of_further.
Qed.

End MockPath.

(** X8. [run_fallback_pipeline] returns two or three items with
    pairwise distinct codes; each is one of the four mock candidates,
    named by [DISPLAY_NAMES] and carrying its preset confidence; the
    result has the fallback metadata and the file name. *)
Theorem run_fallback_pipeline_lists_distinct_mock_items
    (f : option string) (s : State) :
  exists r s',
    pipeline.run_fallback_pipeline f s = (Ok r, s') /\
    (2 <= length (ml_model.items (pipeline.estimate r)) <= 3)%nat /\
    NoDup (map ml_model.code (ml_model.items (pipeline.estimate r))) /\
    Forall mock_item (ml_model.items (pipeline.estimate r)) /\
    pipeline.pipeline r = pipeline.fallback_info /\
    pipeline.filename (pipeline.source r) = f.
Proof.
  destruct (run_fallback_pipeline_ok f s)
    as (r & s' & Hr & [(dets & Hlen & Hnd & Hsub & Hf2) Hinfo Hsrc] & _).
  exists r, s'. split; [exact Hr|].
  split; [rewrite <- (Forall2_length _ _ _ Hf2); exact Hlen|].
  split; [|split; [|split; [exact Hinfo | now rewrite Hsrc]]].
  - rewrite (Forall2_codes _ _ Hf2).
    apply NoDup_fmap_2_strong; [|exact Hnd].
    intros x y Hx Hy. apply mock_labels_distinct; auto.
  - eapply Forall2_Forall_mem; [|exact Hf2].
    intros det it Hdet. apply mock_candidate_item. auto.
Qed.

(** X9. The result of [run_baseline_pipeline] carries the ML-powered
    metadata exactly when every detection of the detection stage has a
    numeric confidence, and the fallback metadata otherwise: the mock
    pipeline is entered only through a score that is not a number. *)
Theorem fallback_tag_only_for_non_numeric_scores
    (W : World) (image_bytes : list Byte.byte) (f : option string) (s : State) :
  exists dets s1 r s',
    detect_stage W image_bytes s = (Ok dets, s1) /\
    pipeline.run_baseline_pipeline W image_bytes f s = (Ok r, s') /\
    pipeline.pipeline r =
      (if all_float dets then pipeline.ml_info else pipeline.fallback_info).
Proof.
  unfold detect_stage, pipeline.run_baseline_pipeline, pipeline.primary_path.
  destruct (get_model_ok W s) as (m & s0 & Hm).
  destruct (detect_food_items_ok W m image_bytes 3 s0) as (dets & s1 & Hd).
  exists dets, s1.
  pose proof (estimate_nutrition_spec dets s1) as Hn.
  destruct (ml_model.estimate_nutrition dets s1) as [[n|e] s2] eqn:He.
  - destruct Hn as (Hall & _). rewrite Hall.
    do 2 eexists. split; [rewrite (bind_Ok _ _ _ _ _ Hm); exact Hd|]. split.
    + apply try_except_Ok.
      rewrite (bind_Ok _ _ _ _ _ Hm), (bind_Ok _ _ _ _ _ Hd), (bind_Ok _ _ _ _ _ He).
      reflexivity.
    + reflexivity.
  - rewrite Hn.
    destruct (run_fallback_pipeline_ok f s2) as (r & s' & Hr & [_ Hinfo _] & _).
    exists r, s'. split; [rewrite (bind_Ok _ _ _ _ _ Hm); exact Hd|]. split.
    + erewrite try_except_Raise; [exact Hr|].
      rewrite (bind_Ok _ _ _ _ _ Hm), (bind_Ok _ _ _ _ _ Hd).
      exact (bind_Raise _ _ _ _ _ He).
    + exact Hinfo.
Qed.

Section Detection.

Lemma convert_predictions_spec preds acc :
  if forallb prediction_ok preds
  then ml_model.convert_predictions preds acc = Ok (acc ++ map detection_of preds)%list
  else exists e, ml_model.convert_predictions preds acc = Raise e.
Proof.
  revert acc. induction preds as [|pred preds IH]; intros acc.
  - simpl. now rewrite app_nil_r.
  - cbn [forallb ml_model.convert_predictions map].
    unfold prediction_ok at 1, dict_get.
    destruct (pred !! "label") as [[lbl|q|]|] eqn:Hl; simpl; eauto;
      destruct (pred !! "score") as [score|] eqn:Hs; simpl; eauto.
    assert (Hd : detection_of pred =
                 {| ml_model.label := lbl;
                    ml_model.display_name := title (replace_char "_" " " lbl);
                    ml_model.confidence := score |})
      by (unfold detection_of; rewrite Hl, Hs; reflexivity).
    rewrite Hd.
    match goal with
    | |- context [ml_model.convert_predictions preds ?a] => specialize (IH a)
    end.
    destruct (forallb prediction_ok preds).
    + rewrite IH, <- app_assoc. reflexivity.
    + exact IH.
Qed.

Lemma run_model_unfold W classify image_bytes top_k s :
  ml_model.run_model W classify image_bytes top_k s =
  (match prepare_image W image_bytes with
   | Ok image =>
       match classify image top_k with
       | Ok preds => ml_model.convert_predictions preds []
       | Raise e => Raise e
       end
   | Raise e => Raise e
   end, s).
Proof.
  unfold ml_model.run_model, prepare_image, bind, lift, ret.
  destruct (Image_open W image_bytes) as [image|e]; [|reflexivity].
  destruct (negb (String.eqb (mode image) "RGB")).
  - destruct (Image_convert W image "RGB") as [image'|e]; [|reflexivity].
    destruct (classify image' top_k); reflexivity.
  - destruct (classify image top_k); reflexivity.
Qed.

End Detection.

Lemma detect_converts
    (W : World) (self : FoodDetectionModel) (classify : Classifier)
    (image_bytes : list Byte.byte) (top_k : Z) (image : Image)
    (preds : list (gmap string pyval)) (s : State) :
  model self = Some classify ->
  prepare_image W image_bytes = Ok image ->
  classify image top_k = Ok preds ->
  forallb prediction_ok preds = true ->
  ml_model.detect_food_items W self image_bytes top_k s =
  (Ok (map detection_of preds), s).
Proof.
  intros Hm Him Hcl Hok. unfold ml_model.detect_food_items. rewrite Hm.
  apply try_except_Ok. rewrite run_model_unfold, Him, Hcl.
  pose proof (convert_predictions_spec preds []) as H.
  rewrite Hok in H. now rewrite H.
Qed.

(** X10. With a loaded model, a decodable image and predictions that each
    hold a string label and a score, [detect_food_items] returns one
    detection per prediction, in order, with the label and the score
    unchanged and the display name built from the label; it draws no
    random number. *)
Theorem detect_food_items_keeps_predictions
    (W : World) (self : FoodDetectionModel) (classify : Classifier)
    (image_bytes : list Byte.byte) (top_k : Z) (image : Image)
    (preds : list (gmap string pyval)) (s : State) :
  model self = Some classify ->
  prepare_image W image_bytes = Ok image ->
  classify image top_k = Ok preds ->
  forallb prediction_ok preds = true ->
  ml_model.detect_food_items W self image_bytes top_k s =
  (Ok (map detection_of preds), s).
Proof. apply detect_converts. Qed.

Lemma detect_food_items_keeps_predictions_witness :
  ml_model.detect_food_items (world_with classify_two_chickens)
    {| model := Some classify_two_chickens; model_name := "nateraw/food" |}
    [] 3 (fresh [5]%N) =
  (Ok [ {| ml_model.label := "chicken_wings";
           ml_model.display_name := "Chicken Wings";
           ml_model.confidence := PyFloat 0.61 |};
        {| ml_model.label := "chicken_curry";
           ml_model.display_name := "Chicken Curry";
           ml_model.confidence := PyFloat 0.23 |} ], fresh [5]%N).
Proof.
  apply (detect_food_items_keeps_predictions (world_with classify_two_chickens)
           _ classify_two_chickens [] 3 {| mode := "RGB"; raster := [] |}
           [ prediction (PyStr "chicken_wings") (PyFloat 0.61);
             prediction (PyStr "chicken_curry") (PyFloat 0.23) ]);
    vm_compute; reflexivity.
Defined.

(** X11. If one prediction lacks its label or its score, or its label is
    not a string, [detect_food_items] drops all the predictions and
    returns two or three of its mock candidates. *)
Theorem malformed_prediction_discards_all
    (W : World) (self : FoodDetectionModel) (classify : Classifier)
    (image_bytes : list Byte.byte) (top_k : Z) (image : Image)
    (preds : list (gmap string pyval)) (s : State) :
  model self = Some classify ->
  prepare_image W image_bytes = Ok image ->
  classify image top_k = Ok preds ->
  forallb prediction_ok preds = false ->
  exists dets s',
    ml_model.detect_food_items W self image_bytes top_k s = (Ok dets, s') /\
    (2 <= length dets <= 3)%nat /\ NoDup dets /\
    dets ⊆ ml_model.fallback_candidates.
Proof.
  intros Hm Him Hcl Hbad. unfold ml_model.detect_food_items. rewrite Hm.
  pose proof (convert_predictions_spec preds []) as H.
  rewrite Hbad in H. destruct H as [e He].
  erewrite try_except_Raise; [apply _fallback_detection_ok|].
  rewrite run_model_unfold, Him, Hcl, He. reflexivity.
Qed.

Lemma malformed_prediction_discards_all_witness :
  exists dets s',
    ml_model.detect_food_items (world_with classify_one_bad)
      {| model := Some classify_one_bad; model_name := "nateraw/food" |}
      [] 3 (fresh [3; 1; 0; 2; 1; 1]%N) = (Ok dets, s') /\
    dets ⊆ ml_model.fallback_candidates.
Proof.
  destruct (malformed_prediction_discards_all (world_with classify_one_bad)
              {| model := Some classify_one_bad; model_name := "nateraw/food" |}
              classify_one_bad [] 3 {| mode := "RGB"; raster := [] |}
              [ prediction (PyStr "pizza") (PyFloat 0.93);
                <["label" := PyStr "sushi"]> ∅ ]
              (fresh [3; 1; 0; 2; 1; 1]%N))
    as (dets & s' & Hd & _ & _ & Hsub); try (vm_compute; reflexivity).
  exists dets, s'. auto.
Defined.

Lemma normalize_display_form lbl :
  ml_model.normalize_food_label (display_form lbl) = ml_model.normalize_food_label lbl.
Proof.
  apply normalize_by_label_lower. unfold display_form.
  now rewrite label_lower_title, label_lower_replace.
Qed.

(** X12. With a loaded model and well-formed predictions with numeric
    scores, [run_baseline_pipeline] returns one item per prediction, in
    order, under the ML-powered metadata; the code of each item is the
    normalized label, its name the display form of the label, and, when
    the labels are ASCII, the name of an item normalizes to its code. *)
Theorem pipeline_items_follow_predictions
    (W : World) (self : FoodDetectionModel) (classify : Classifier)
    (image_bytes : list Byte.byte) (image : Image)
    (preds : list (gmap string pyval)) (f : option string) (s s1 : State) :
  ml_model.get_model W s = (Ok self, s1) ->
  model self = Some classify ->
  prepare_image W image_bytes = Ok image ->
  classify image 3%Z = Ok preds ->
  forallb prediction_ok preds = true ->
  all_float (map detection_of preds) = true ->
  exists r s',
    pipeline.run_baseline_pipeline W image_bytes f s = (Ok r, s') /\
    pipeline.pipeline r = pipeline.ml_info /\
    map ml_model.code (ml_model.items (pipeline.estimate r)) =
      map (fun p => ml_model.normalize_food_label (ml_model.label (detection_of p)))
          preds /\
    map ml_model.name (ml_model.items (pipeline.estimate r)) =
      map (fun p => display_form (ml_model.label (detection_of p))) preds /\
    (Forall (fun p => isascii (ml_model.label (detection_of p)) = true) preds ->
     Forall (fun it => ml_model.normalize_food_label (ml_model.name it) = ml_model.code it)
            (ml_model.items (pipeline.estimate r))).
Proof.
  intros Hg Hm Him Hcl Hok Hfl.
  pose proof (detect_converts W self classify image_bytes 3%Z image preds s1
                Hm Him Hcl Hok) as Hd.
  destruct (estimate_nutrition_ok _ s1 Hfl) as (n & s2 & Hn & Hf2 & _).
  exists {| pipeline.estimate := n; pipeline.pipeline := pipeline.ml_info;
            pipeline.source := {| pipeline.filename := f |} |}, s2.
  split.
  - unfold pipeline.run_baseline_pipeline, pipeline.primary_path.
    apply try_except_Ok.
    rewrite (bind_Ok _ _ _ _ _ Hg), (bind_Ok _ _ _ _ _ Hd), (bind_Ok _ _ _ _ _ Hn).
    reflexivity.
  - cbn [pipeline.estimate pipeline.pipeline]. split; [reflexivity|].
    clear -Hf2. revert Hf2. generalize (ml_model.items n). intros its Hf2.
    remember (map detection_of preds) as dets eqn:Hdets.
    revert preds Hdets.
    induction Hf2 as [|d it ds its (u & c & _ & _ & _ & [Hname Hcode _ _ _ _ _ _ _]) _ IH];
      intros preds Hdets.
    + destruct preds; [|discriminate]. repeat split. constructor.
    + destruct preds as [|p preds]; [discriminate|].
      injection Hdets as -> ->.
      destruct (IH preds eq_refl) as (Hc & Hn & Hall).
      cbn [map]. rewrite Hc, Hn, Hcode, Hname.
      repeat split. intros Hascii. apply Forall_cons in Hascii as [_ Hascii].
      constructor; [|exact (Hall Hascii)].
      rewrite Hname, Hcode. apply normalize_display_form.
Qed.

Lemma pipeline_items_follow_predictions_witness :
  exists r s',
    pipeline.run_baseline_pipeline (world_with classify_two_chickens) []
      (Some "wings.jpg") (fresh [1; 2]%N) = (Ok r, s') /\
    map ml_model.code (ml_model.items (pipeline.estimate r)) =
      [ "grilled_chicken"; "grilled_chicken" ] /\
    map ml_model.name (ml_model.items (pipeline.estimate r)) =
      [ "Chicken Wings"; "Chicken Curry" ] /\
    Forall (fun it => ml_model.normalize_food_label (ml_model.name it) = ml_model.code it)
           (ml_model.items (pipeline.estimate r)).
Proof.
  destruct (pipeline_items_follow_predictions (world_with classify_two_chickens)
              {| model := Some classify_two_chickens; model_name := "nateraw/food" |}
              classify_two_chickens [] {| mode := "RGB"; raster := [] |}
              [ prediction (PyStr "chicken_wings") (PyFloat 0.61);
                prediction (PyStr "chicken_curry") (PyFloat 0.23) ]
              (Some "wings.jpg") (fresh [1; 2]%N)
              {| rng := [1; 2]%N;
                 model_instance :=
                   Some {| model := Some classify_two_chickens;
                           model_name := "nateraw/food" |} |})
    as (r & s' & Hr & _ & Hc & Hn & Hall); try (vm_compute; reflexivity).
  exists r, s'. split; [exact Hr|]. split; [exact Hc|]. split; [exact Hn|].
  apply Hall. repeat constructor.
Defined.

Section KeepsModel.

Import PyRandom.

Lemma keeps_ret {A} (a : A) : keeps_model (ret a).
Proof. intros s. reflexivity. Qed.

Lemma keeps_lift {A} (r : res A) : keeps_model (lift r).
Proof. intros s. reflexivity. Qed.

Lemma keeps_bind {A B} (m : M A) (k : A -> M B) :
  keeps_model m -> (forall a, keeps_model (k a)) -> keeps_model (bind m k).
Proof.
  intros Hm Hk s. unfold bind. specialize (Hm s).
  destruct (m s) as [[a|e] s1]; simpl in *; [|exact Hm].
  now rewrite Hk.
Qed.

Lemma keeps_try_except {A} (m : M A) h :
  keeps_model m -> (forall e, keeps_model (h e)) -> keeps_model (try_except m h).
Proof.
  intros Hm Hh s. unfold try_except. specialize (Hm s).
  destruct (m s) as [[a|e] s1]; simpl in *; [exact Hm|].
  now rewrite Hh.
Qed.

Lemma keeps_next_draw : keeps_model next_draw.
Proof. intros s. unfold next_draw. destruct (rng s); reflexivity. Qed.

Lemma keeps_uniform a b : keeps_model (uniform a b).
Proof.
  unfold uniform, random.
  repeat (apply keeps_bind; [|intros ?]);
    first [apply keeps_next_draw | apply keeps_ret].
Qed.

Lemma keeps_randint a b : keeps_model (randint a b).
Proof.
  unfold randint, randbelow.
  repeat (apply keeps_bind; [|intros ?]);
    first [apply keeps_next_draw | apply keeps_ret].
Qed.

Lemma keeps_shuffle_from {A} i (x : list A) : keeps_model (shuffle_from i x).
Proof.
  revert x. induction i as [|i IH]; intros x; simpl; [apply keeps_ret|].
  unfold randbelow.
  apply keeps_bind; [|intros ?; apply IH].
  apply keeps_bind; [apply keeps_next_draw | intros ?; apply keeps_ret].
Qed.

Lemma keeps_sample {A} (cands : list A) :
  keeps_model (let* c := shuffle cands in
               let* n := randint 2 3 in
               ret (take (Z.to_nat n) c)).
Proof.
  apply keeps_bind; [apply keeps_shuffle_from | intros c].
  apply keeps_bind; [apply keeps_randint | intros n; apply keeps_ret].
Qed.

Lemma keeps_estimate_item d : keeps_model (ml_model.estimate_item d).
Proof.
  unfold ml_model.estimate_item.
  apply keeps_bind; [apply keeps_lift | intros ?].
  apply keeps_bind; [apply keeps_uniform | intros ?].
  apply keeps_bind; [apply keeps_lift | intros ?; apply keeps_ret].
Qed.

Lemma keeps_estimate_loop dets acc : keeps_model (ml_model.estimate_loop dets acc).
Proof.
  revert acc. induction dets as [|d dets IH]; intros acc; simpl; [apply keeps_ret|].
  apply keeps_bind; [apply keeps_estimate_item | intros ?; apply IH].
Qed.

Lemma keeps_estimate_nutrition dets : keeps_model (ml_model.estimate_nutrition dets).
Proof.
  unfold ml_model.estimate_nutrition.
  apply keeps_bind; [apply keeps_estimate_loop | intros ?; apply keeps_ret].
Qed.

Lemma keeps_estimate_volumes_loop dets (v : gmap string Q) :
  keeps_model (pipeline.estimate_volumes_loop dets v).
Proof.
  revert v. induction dets as [|d dets IH]; intros v; simpl; [apply keeps_ret|].
  apply keeps_bind; [apply keeps_uniform | intros ?; apply IH].
Qed.

Lemma keeps_run_fallback_pipeline f : keeps_model (pipeline.run_fallback_pipeline f).
Proof.
  unfold pipeline.run_fallback_pipeline, pipeline.fallback_from.
  apply keeps_bind; [apply keeps_sample | intros dets].
  apply keeps_bind; [apply keeps_estimate_volumes_loop | intros ?].
  apply keeps_bind; [apply keeps_lift | intros ?; apply keeps_ret].
Qed.

Lemma keeps_detect_food_items W self image_bytes top_k :
  keeps_model (ml_model.detect_food_items W self image_bytes top_k).
Proof.
  unfold ml_model.detect_food_items.
  destruct (model self) as [classify|]; [|apply keeps_sample].
  apply keeps_try_except; [|intros ?; apply keeps_sample].
  intros s. now rewrite run_model_unfold.
Qed.

End KeepsModel.

(** X13. [get_model] returns the cached instance when there is one and
    else creates and caches one, without touching the random source; a
    second call returns the same instance; after a run of
    [run_baseline_pipeline] that instance is still the cached one. *)
Theorem model_instance_created_once
    (W : World) (image_bytes : list Byte.byte) (f : option string) (s : State) :
  let m := default (ml_model.new_FoodDetectionModel W) (model_instance s) in
  exists s1,
    ml_model.get_model W s = (Ok m, s1) /\
    ml_model.get_model W s1 = (Ok m, s1) /\
    rng s1 = rng s /\
    exists r s',
      pipeline.run_baseline_pipeline W image_bytes f s = (Ok r, s') /\
      model_instance s' = Some m.
Proof.
  intros m.
  assert (Hg : exists s1, ml_model.get_model W s = (Ok m, s1) /\
                          model_instance s1 = Some m /\ rng s1 = rng s).
  { unfold ml_model.get_model, m. destruct s as [tape [inst|]]; simpl; eauto. }
  destruct Hg as (s1 & Hg & Hinst & Hrng).
  exists s1. split; [exact Hg|]. split; [|split; [exact Hrng|]].
  - unfold ml_model.get_model. rewrite Hinst. reflexivity.
  - destruct (run_baseline_pipeline_spec W image_bytes f s) as (r & s' & Hr & _).
    exists r, s'. split; [exact Hr|].
    assert (Hk : forall s0, model_instance s0 = Some m ->
                 model_instance
                   (snd (try_except
                           (let* detected_items :=
                              ml_model.detect_food_items W m image_bytes 3 in
                            let* nutrition_result :=
                              ml_model.estimate_nutrition detected_items in
                            ret {| pipeline.estimate := nutrition_result;
                                   pipeline.pipeline := pipeline.ml_info;
                                   pipeline.source := {| pipeline.filename := f |} |})
                           (fun _ => pipeline.run_fallback_pipeline f) s0)) = Some m).
    { intros s0 <-. apply keeps_try_except.
      - apply keeps_bind; [apply keeps_detect_food_items | intros ?].
        apply keeps_bind; [apply keeps_estimate_nutrition | intros ?; apply keeps_ret].
      - intros ?. apply keeps_run_fallback_pipeline. }
    specialize (Hk s1 Hinst).
    assert (Heq : pipeline.run_baseline_pipeline W image_bytes f s =
                  try_except
                    (let* detected_items :=
                       ml_model.detect_food_items W m image_bytes 3 in
                     let* nutrition_result :=
                       ml_model.estimate_nutrition detected_items in
                     ret {| pipeline.estimate := nutrition_result;
                            pipeline.pipeline := pipeline.ml_info;
                            pipeline.source := {| pipeline.filename := f |} |})
                    (fun _ => pipeline.run_fallback_pipeline f) s1).
    { unfold pipeline.run_baseline_pipeline, pipeline.primary_path, try_except.
      now rewrite (bind_Ok _ _ _ _ _ Hg). }
    rewrite <- Heq, Hr in Hk. exact Hk.
Qed.

(** X14. [analyze_meal] answers 400 for a missing, empty or non-image
    content type and for an empty upload, without running the pipeline;
    for any other upload it answers with the result of
    [run_baseline_pipeline], which carries the file name of the upload. *)
Theorem analyze_meal_answers
    (W : World) (image : main.UploadFile) (s : State) :
  if main.not_an_image image
  then main.analyze_meal W image s =
       (Ok (main.HTTPException 400 "Uploaded file must be an image"), s)
  else
    match main.content image with
    | [] => main.analyze_meal W image s =
            (Ok (main.HTTPException 400 "Empty image uploaded"), s)
    | _ :: _ =>
        exists r s',
          main.analyze_meal W image s = (Ok (main.Respond r), s') /\
          pipeline.run_baseline_pipeline W (main.content image) (main.filename image) s
            = (Ok r, s') /\
          pipeline.filename (pipeline.source r) = main.filename image
    end.
Proof.
  unfold main.analyze_meal.
  destruct (main.not_an_image image); [reflexivity|].
  destruct (main.content image) as [|b bs] eqn:Hc; [reflexivity|].
  destruct (run_baseline_pipeline_spec W (b :: bs) (main.filename image) s)
    as (r & s' & Hr & _ & Hp).
  exists r, s'. rewrite (bind_Ok _ _ _ _ _ Hr).
  split; [reflexivity|]. split; [exact Hr|].
  destruct (pipeline.primary_path W (b :: bs) (main.filename image) s) as [[r0|e] s0].
  - destruct Hp as (_ & _ & [_ _ Hs]). now rewrite Hs.
  - destruct Hp as (_ & [_ _ Hs]). now rewrite Hs.
Qed.

Section Logs.

Import db.

Lemma between_day t d :
  (midnight d <= t < midnight d + DAY)%Z <-> date_of t = d.
Proof.
  unfold midnight, date_of, DAY. split.
  - intros H. symmetry. apply (Z.div_unique t _ d (t - d * 86400000000)); lia.
  - intros <-.
    pose proof (Z.mul_div_le t 86400000000 ltac:(lia)).
    pose proof (Z.mul_succ_div_gt t 86400000000 ltac:(lia)). lia.
Qed.

Lemma created_between_day db d :
  created_between (midnight d) (midnight d + DAY) db = logs_on db d.
Proof.
  unfold created_between, logs_on. apply list_filter_iff.
  intros log. apply between_day.
Qed.

Lemma datetime_add_midnight d :
  date_ok d ->
  datetime_add (midnight d) 1 =
  if (d =? MAX_ORDINAL)%Z then OverflowError else Ok (midnight d + DAY)%Z.
Proof.
  unfold date_ok, datetime_add, midnight, MIN_ORDINAL, MAX_ORDINAL, DAY. intros Hd.
  destruct (Z.eqb_spec d 3652059) as [->|Hne]; [reflexivity|].
  rewrite (proj2 (Z.leb_le _ _)) by lia.
  rewrite (proj2 (Z.ltb_lt _ _)) by lia.
  rewrite Z.mul_1_l. reflexivity.
Qed.

Lemma date_of_midnight d : date_of (midnight d) = d.
Proof. unfold date_of, midnight, DAY. now rewrite Z.div_mul. Qed.

Lemma midnight_succ d : (midnight d + DAY)%Z = midnight (d + 1).
Proof. unfold midnight. lia. Qed.

End Logs.

Lemma daily_summary_covers_one_day_aux (db : gmap Z db.MealLog) (d : Z) :
  date_ok d ->
  db.daily_summary db d =
  if (d =? db.MAX_ORDINAL)%Z then db.OverflowError else Ok (day_summary db d).
Proof.
  intros Hd. unfold db.daily_summary. rewrite (datetime_add_midnight d Hd).
  destruct (d =? db.MAX_ORDINAL)%Z; [reflexivity|].
  unfold db._summary_between, day_summary.
  rewrite created_between_day, midnight_succ, !date_of_midnight.
  do 2 f_equal. lia.
Qed.

(** X15. For a representable date other than 9999-12-31, [daily_summary]
    returns the sums over the logs created on that day, with [days] = 1;
    for 9999-12-31 it raises OverflowError. *)
Theorem daily_summary_covers_one_day (db : gmap Z db.MealLog) (d : Z) :
  date_ok d ->
  db.daily_summary db d =
  if (d =? db.MAX_ORDINAL)%Z then db.OverflowError else Ok (day_summary db d).
Proof. apply daily_summary_covers_one_day_aux. Qed.

Section History.

Import db.

Lemma history_row_ok db s i :
  date_ok (s + i) -> (s + i < MAX_ORDINAL)%Z -> (Z.abs i <= 999999999)%Z ->
  history_row db s i = Ok (day_row db (s + i)).
Proof.
  intros Hd Hlt Hi. unfold history_row, timedelta, date_add.
  rewrite (proj2 (Z.leb_le _ _) Hi).
  unfold date_ok in Hd.
  rewrite (proj2 (Z.leb_le _ _) (proj1 Hd)), (proj2 (Z.leb_le _ _) (proj2 Hd)).
  cbn [andb]. rewrite (datetime_add_midnight _ Hd).
  destruct (Z.eqb_spec (s + i) MAX_ORDINAL); [lia|].
  now rewrite created_between_day.
Qed.

Lemma history_row_last db s i :
  (s + i = MAX_ORDINAL)%Z -> (Z.abs i <= 999999999)%Z ->
  history_row db s i = OverflowError.
Proof.
  intros Hd Hi. unfold history_row, timedelta, date_add.
  rewrite (proj2 (Z.leb_le _ _) Hi), Hd. cbn.
  reflexivity.
Qed.

Lemma history_loop_app db s l1 l2 acc :
  history_loop db s (l1 ++ l2) acc =
  match history_loop db s l1 acc with
  | Ok acc' => history_loop db s l2 acc'
  | Raise e => Raise e
  end.
Proof.
  revert acc. induction l1 as [|i l1 IH]; intros acc; simpl; [reflexivity|].
  destruct (history_row db s i); [apply IH | reflexivity].
Qed.

Lemma history_loop_ok db s offsets acc :
  Forall (fun i => date_ok (s + i) /\ (s + i < MAX_ORDINAL)%Z /\
                   (Z.abs i <= 999999999)%Z) offsets ->
  history_loop db s offsets acc =
  Ok (acc ++ map (fun i => day_row db (s + i)) offsets)%list.
Proof.
  intros H. revert acc. induction H as [|i l (Hd & Hlt & Hi) _ IH]; intros acc; simpl.
  - now rewrite app_nil_r.
  - rewrite (history_row_ok db s i Hd Hlt Hi), IH, <- app_assoc. reflexivity.
Qed.

Lemma history_by_day_spec db s n :
  date_ok s ->
  history_by_day db s n =
  if (s + n <=? MAX_ORDINAL)%Z then Ok (map (day_row db) (seqZ s n))
  else OverflowError.
Proof.
  intros Hs. unfold history_by_day. unfold date_ok, MIN_ORDINAL, MAX_ORDINAL in *.
  destruct (Z.leb_spec (s + n) 3652059) as [Hle|Hgt].
  - rewrite history_loop_ok.
    + assert (Hseq : seqZ s n = map (Z.add s) (seqZ 0 n)).
      { rewrite <- (Z.add_0_r s) at 1. symmetry. apply fmap_add_seqZ. }
      rewrite Hseq, map_map. reflexivity.
    + apply Forall_seqZ. intros i Hi.
      unfold date_ok, MIN_ORDINAL, MAX_ORDINAL. lia.
  - assert (Hsplit : seqZ 0 n =
                     (seqZ 0 (3652059 - s) ++ (3652059 - s)%Z ::
                      seqZ (Z.succ (3652059 - s)) (Z.pred (n - (3652059 - s))))%list).
    { replace n with ((3652059 - s) + (n - (3652059 - s)))%Z at 1 by lia.
      rewrite seqZ_app by lia. f_equal.
      rewrite Z.add_0_l. apply seqZ_cons. lia. }
    rewrite Hsplit, history_loop_app, history_loop_ok.
    + cbn [history_loop].
      rewrite history_row_last; [reflexivity | unfold MAX_ORDINAL; lia | lia].
    + apply Forall_seqZ. intros i Hi.
      unfold date_ok, MIN_ORDINAL, MAX_ORDINAL. lia.
Qed.

End History.

(** X16. [history_by_day] returns one row per day of the range, in
    order (none when [days] is not positive), each row holding the same
    sums as [daily_summary] for its day; when the range reaches
    9999-12-31 it raises OverflowError. *)
Theorem history_by_day_lists_consecutive_days
    (db : gmap Z db.MealLog) (start_date days : Z) :
  date_ok start_date ->
  db.history_by_day db start_date days =
  (if (start_date + days <=? db.MAX_ORDINAL)%Z
   then Ok (map (day_row db) (seqZ start_date days))
   else db.OverflowError) /\
  length (seqZ start_date days) = Z.to_nat days /\
  Forall (fun d => db.daily_summary db d = Ok (day_summary db d) /\
                   db.date (day_row db d) = d /\
                   db.day_calories_kcal (day_row db d) =
                     db.sum_calories_kcal (day_summary db d) /\
                   db.day_protein_g (day_row db d) =
                     db.sum_protein_g (day_summary db d) /\
                   db.day_carbs_g (day_row db d) = db.sum_carbs_g (day_summary db d) /\
                   db.day_fat_g (day_row db d) = db.sum_fat_g (day_summary db d))
         (if (start_date + days <=? db.MAX_ORDINAL)%Z
          then seqZ start_date days else []).
Proof.
  intros Hs. split; [now apply history_by_day_spec|].
  split; [apply length_seqZ|].
  destruct (Z.leb_spec (start_date + days) db.MAX_ORDINAL) as [Hle|_]; [|constructor].
  apply Forall_seqZ. intros d Hd.
  assert (Hok : date_ok d) by (unfold date_ok in *; lia).
  rewrite (daily_summary_covers_one_day_aux db d Hok).
  destruct (Z.eqb_spec d db.MAX_ORDINAL); [lia|]. repeat split.
Qed.

Section Windows.

Import db.

Lemma window_empty a l : window a a l = [].
Proof.
  unfold window. induction l as [|log l IH]; [reflexivity|].
  rewrite filter_cons. case_decide; [lia | exact IH].
Qed.

Lemma rolling_summary_spec db today n until :
  date_ok until ->
  rolling_summary db today n (Some until) =
  if (until =? MAX_ORDINAL)%Z then OverflowError
  else if (Z.abs n <=? 999999999)%Z
       then if ((MIN_ORDINAL <=? until + 1 - n) && (until + 1 - n <=? MAX_ORDINAL))%Z
            then Ok (_summary_between db (midnight (until + 1 - n))
                                      (midnight (until + 1)))
            else OverflowError
       else Raise (OtherError "OverflowError: days must have magnitude <= 999999999").
Proof.
  intros Hu. unfold rolling_summary, date_add, timedelta, datetime_add.
  cbn [from_option id]. unfold date_ok, MIN_ORDINAL, MAX_ORDINAL, midnight, DAY in *.
  destruct (Z.eqb_spec until 3652059) as [->|Hne]; [reflexivity|].
  rewrite (proj2 (Z.leb_le 1 (until + 1))) by lia.
  rewrite (proj2 (Z.leb_le (until + 1) 3652059)) by lia. cbn [andb].
  destruct (Z.abs n <=? 999999999)%Z; [|reflexivity].
  destruct (Z.leb_spec 1 (until + 1 - n));
    destruct (Z.leb_spec (until + 1 - n) 3652059); cbn [andb].
  - rewrite (proj2 (Z.leb_le _ _)) by lia.
    rewrite (proj2 (Z.ltb_lt _ _)) by lia. cbn [andb].
    do 2 f_equal. lia.
  - rewrite (proj2 (Z.ltb_ge _ _)) by lia.
    now rewrite andb_false_r.
  - now rewrite (proj2 (Z.leb_gt _ _)) by lia.
  - lia.
Qed.

End Windows.

(** X17. A rolling summary over one day is the daily summary of that
    day, also when [until] is left to default to today. *)
Theorem rolling_summary_of_one_day_is_daily_summary
    (db : gmap Z db.MealLog) (today until : Z) :
  date_ok until ->
  db.rolling_summary db today 1 (Some until) = db.daily_summary db until /\
  db.rolling_summary db until 1 None = db.daily_summary db until.
Proof.
  intros Hu.
  assert (H : db.rolling_summary db today 1 (Some until) = db.daily_summary db until).
  { rewrite (rolling_summary_spec db today 1 until Hu).
    rewrite (daily_summary_covers_one_day_aux db until Hu).
    destruct (Z.eqb_spec until db.MAX_ORDINAL); [reflexivity|].
    unfold date_ok, db.MIN_ORDINAL, db.MAX_ORDINAL in *.
    cbn [Z.abs Z.leb Z.compare Pos.compare Pos.compare_cont].
    rewrite (proj2 (Z.leb_le 1 (until + 1 - 1))) by lia.
    rewrite (proj2 (Z.leb_le (until + 1 - 1) 3652059)) by lia. cbn [andb].
    unfold db._summary_between, day_summary.
    replace (until + 1 - 1)%Z with until by lia.
    rewrite <- midnight_succ, created_between_day, midnight_succ, !date_of_midnight.
    do 2 f_equal. lia. }
  split; [exact H|].
  unfold db.rolling_summary in *. exact H.
Qed.

Section WindowLogs.

Import db.

Lemma window_split_Permutation a b c l :
  (a <= b <= c)%Z -> window a c l ≡ₚ window a b l ++ window b c l.
Proof.
  intros Habc. unfold window. induction l as [|log l IH]; [reflexivity|].
  rewrite !filter_cons.
  repeat case_decide; simpl; try lia; rewrite IH; try reflexivity.
  apply Permutation_middle.
Qed.

Lemma window_days_Permutation l s (n : nat) :
  window (midnight s) (midnight (s + Z.of_nat n)) l ≡ₚ
  concat (map (fun d => window (midnight d) (midnight (d + 1)) l)
              (seqZ s (Z.of_nat n))).
Proof.
  revert s. induction n as [|n IH]; intros s.
  - rewrite Z.add_0_r, window_empty. reflexivity.
  - rewrite seqZ_cons by lia. cbn [map concat].
    rewrite (window_split_Permutation _ (midnight (s + 1))) by (unfold midnight, DAY; lia).
    replace (s + Z.of_nat (S n))%Z with (Z.succ s + Z.of_nat n)%Z by lia.
    replace (Z.pred (Z.of_nat (S n))) with (Z.of_nat n) by lia.
    replace (s + 1)%Z with (Z.succ s) by lia.
    rewrite IH. reflexivity.
Qed.

Lemma window_day db d :
  window (midnight d) (midnight (d + 1)) (map_to_list db).*2 = logs_on db d.
Proof.
  rewrite <- midnight_succ. apply created_between_day.
Qed.

Lemma meals_add_up db ds :
  foldr Z.add 0%Z (map meals (map (day_row db) ds)) =
  Z.of_nat (length (concat (map (logs_on db) ds))).
Proof.
  induction ds as [|d ds IH]; [reflexivity|].
  cbn [map foldr concat]. rewrite IH, length_app. cbn [day_row meals]. lia.
Qed.

End WindowLogs.

(** X18. For 0 <= days <= until, the rolling summary over [days] days
    ending on [until] covers the days that [history_by_day] lists from
    [until + 1 - days] on: its [days] field is [days], its totals are the
    sums over the logs of its window, these logs are the logs of the
    listed days, each once, and the meal counts of the rows add up to
    their number. *)
Theorem rolling_summary_covers_daily_rows
    (db : gmap Z db.MealLog) (today until days : Z) :
  date_ok until -> (until < db.MAX_ORDINAL)%Z -> (0 <= days <= until)%Z ->
  exists sm rows logs,
    db.rolling_summary db today days (Some until) = Ok sm /\
    db.history_by_day db (until + 1 - days) days = Ok rows /\
    logs = db.created_between (db.midnight (until + 1 - days))
                              (db.midnight (until + 1)) db /\
    db.days sm = days /\
    db.sum_calories_kcal sm = db.coalesce_sum (map db.total_calories_kcal logs) /\
    db.sum_protein_g sm = db.coalesce_sum (map db.total_protein_g logs) /\
    db.sum_carbs_g sm = db.coalesce_sum (map db.total_carbs_g logs) /\
    db.sum_fat_g sm = db.coalesce_sum (map db.total_fat_g logs) /\
    rows = map (day_row db) (seqZ (until + 1 - days) days) /\
    length rows = Z.to_nat days /\
    logs ≡ₚ concat (map (logs_on db) (seqZ (until + 1 - days) days)) /\
    foldr Z.add 0%Z (map db.meals rows) = Z.of_nat (length logs).
Proof.
  intros Hu Hlt Hn.
  unfold date_ok, db.MIN_ORDINAL, db.MAX_ORDINAL in *.
  assert (Hperm : db.created_between (db.midnight (until + 1 - days))
                    (db.midnight (until + 1)) db
                  ≡ₚ concat (map (logs_on db) (seqZ (until + 1 - days) days))).
  { pose proof (window_days_Permutation (map_to_list db).*2 (until + 1 - days)
                  (Z.to_nat days)) as Hw.
    rewrite Z2Nat.id in Hw by lia.
    replace (until + 1 - days + days)%Z with (until + 1)%Z in Hw by lia.
    unfold db.created_between. unfold window in Hw at 1.
    etransitivity; [exact Hw|].
    erewrite map_ext; [reflexivity|]. intros d. apply window_day. }
  do 3 eexists. split; [|split; [|split; [reflexivity|]]].
  - rewrite (rolling_summary_spec db today days until Hu).
    destruct (Z.eqb_spec until db.MAX_ORDINAL) as [He|_];
      [unfold db.MAX_ORDINAL in He; lia|].
    rewrite (proj2 (Z.leb_le (Z.abs days) 999999999)) by lia.
    unfold db.MIN_ORDINAL, db.MAX_ORDINAL.
    rewrite (proj2 (Z.leb_le 1 (until + 1 - days))) by lia.
    rewrite (proj2 (Z.leb_le (until + 1 - days) 3652059)) by lia.
    reflexivity.
  - rewrite history_by_day_spec by (unfold date_ok, db.MIN_ORDINAL, db.MAX_ORDINAL; lia).
    unfold db.MAX_ORDINAL.
    rewrite (proj2 (Z.leb_le (until + 1 - days + days) 3652059)) by lia.
    reflexivity.
  - cbn [db._summary_between db.days db.sum_calories_kcal db.sum_protein_g
         db.sum_carbs_g db.sum_fat_g].
    rewrite !date_of_midnight, length_map, length_seqZ.
    split; [lia|]. do 5 (split; [reflexivity|]). split; [reflexivity|].
    split; [exact Hperm|].
    rewrite meals_add_up. f_equal. symmetry. apply Permutation_length, Hperm.
Qed.

Section StoredIds.

Import db.

Lemma sqlite_integer_ok n :
  (- 2 ^ 63 <= n < 2 ^ 63)%Z -> sqlite_integer n = Ok n.
Proof.
  intros Hn. unfold sqlite_integer.
  rewrite (proj2 (Z.leb_le _ _)) by lia.
  now rewrite (proj2 (Z.ltb_lt _ _)) by lia.
Qed.

Lemma sqlite_integer_overflow n :
  ~ (- 2 ^ 63 <= n < 2 ^ 63)%Z ->
  sqlite_integer n =
  Raise (OtherError "OverflowError: Python int too large to convert to SQLite INTEGER").
Proof.
  intros Hn. unfold sqlite_integer.
  destruct (Z.leb_spec (- 2 ^ 63) n); [|reflexivity].
  destruct (Z.ltb_spec n (2 ^ 63)); [lia | reflexivity].
Qed.

Lemma logs_on_delete (db : gmap Z MealLog) log_id log d :
  db !! log_id = Some log ->
  logs_on db d ≡ₚ
  (if decide (date_of (created_at log) = d) then [log] else [])
  ++ logs_on (delete log_id db) d.
Proof.
  intros Hl. unfold logs_on.
  rewrite <- (map_to_list_delete db log_id log Hl).
  rewrite fmap_cons, filter_cons. cbn [snd].
  case_decide; reflexivity.
Qed.

End StoredIds.

(** X20. For an id that fits a 64-bit integer, [delete_meal_log] returns
    and [get_meal_log] then finds nothing under the id; on an unknown id
    the table is unchanged; the other logs read as before. For an id that
    does not fit, both raise OverflowError. *)
Theorem delete_meal_log_then_get (db : gmap Z db.MealLog) (log_id : Z) :
  ((- 2 ^ 63 <= log_id < 2 ^ 63)%Z ->
   exists db',
     db.delete_meal_log db log_id = Ok db' /\
     db.get_meal_log db' log_id = Ok None /\
     (db !! log_id = None -> db' = db) /\
     forall other,
       other <> log_id -> db.get_meal_log db' other = db.get_meal_log db other) /\
  (~ (- 2 ^ 63 <= log_id < 2 ^ 63)%Z ->
   db.delete_meal_log db log_id =
     Raise (OtherError
              "OverflowError: Python int too large to convert to SQLite INTEGER") /\
   db.get_meal_log db log_id =
     Raise (OtherError
              "OverflowError: Python int too large to convert to SQLite INTEGER")).
Proof.
  split.
  - intros Hid. unfold db.delete_meal_log, db.get_meal_log.
    rewrite (sqlite_integer_ok log_id Hid).
    destruct (db !! log_id) as [log|] eqn:Hl; eexists; (split; [reflexivity|]).
    + rewrite lookup_delete_eq. split; [reflexivity|]. split; [discriminate|].
      intros other Hne. unfold db.sqlite_integer.
      destruct ((- 2 ^ 63 <=? other) && (other <? 2 ^ 63))%Z; [|reflexivity].
      now rewrite lookup_delete_ne.
    + rewrite Hl. repeat split.
  - intros Hid. unfold db.delete_meal_log, db.get_meal_log.
    now rewrite (sqlite_integer_overflow log_id Hid).
Qed.

Lemma delete_meal_log_then_get_witness :
  db.delete_meal_log sample_logs 3 = Ok sample_logs /\
  (exists db',
     db.delete_meal_log sample_logs 1 = Ok db' /\
     db.get_meal_log db' 1 = Ok None /\
     db.get_meal_log db' 2 = db.get_meal_log sample_logs 2) /\
  db.get_meal_log sample_logs (2 ^ 63) =
    Raise (OtherError
             "OverflowError: Python int too large to convert to SQLite INTEGER").
Proof.
  destruct (delete_meal_log_then_get sample_logs 3) as (Hin3 & _).
  destruct (delete_meal_log_then_get sample_logs 1) as (Hin1 & _).
  destruct (delete_meal_log_then_get sample_logs (2 ^ 63)) as (_ & Hout).
  split; [|split].
  - destruct Hin3 as (db' & Hd & _ & Hmissing & _); [lia|].
    rewrite Hd, Hmissing; [reflexivity | vm_compute; reflexivity].
  - destruct Hin1 as (db' & Hd & Hgone & _ & Hother); [lia|].
    exists db'. split; [exact Hd|]. split; [exact Hgone|].
    apply Hother. discriminate.
  - apply Hout. lia.
Defined.

(** X22. For an id that fits a 64-bit integer, [delete_meal] answers 404
    and leaves the table unchanged when the id is unknown; for a stored
    id it removes the log, and a second delete of the same id answers
    404. For an id that does not fit it raises OverflowError and leaves
    the table unchanged. *)
Theorem delete_meal_answers (db : gmap Z db.MealLog) (log_id : Z) :
  ((- 2 ^ 63 <= log_id < 2 ^ 63)%Z ->
   match db !! log_id with
   | None =>
       main_logs.delete_meal db log_id =
       (Ok (main.HTTPException 404 "Meal log not found"), db)
   | Some _ =>
       main_logs.delete_meal db log_id =
         (Ok (main.Respond log_id), delete log_id db) /\
       main_logs.delete_meal (delete log_id db) log_id =
         (Ok (main.HTTPException 404 "Meal log not found"), delete log_id db)
   end) /\
  (~ (- 2 ^ 63 <= log_id < 2 ^ 63)%Z ->
   main_logs.delete_meal db log_id =
   (Raise (OtherError
             "OverflowError: Python int too large to convert to SQLite INTEGER"),
    db)).
Proof.
  split; intros Hid;
    unfold main_logs.delete_meal, db.get_meal_log, db.delete_meal_log.
  - rewrite (sqlite_integer_ok log_id Hid).
    destruct (db !! log_id) as [log|] eqn:Hl; [|reflexivity].
    now rewrite lookup_delete_eq.
  - now rewrite (sqlite_integer_overflow log_id Hid).
Qed.

Lemma delete_meal_answers_witness :
  main_logs.delete_meal sample_logs 3 =
    (Ok (main.HTTPException 404 "Meal log not found"), sample_logs) /\
  fst (main_logs.delete_meal sample_logs 2) = Ok (main.Respond 2%Z) /\
  fst (main_logs.delete_meal sample_logs (- 2 ^ 63 - 1)) =
    Raise (OtherError
             "OverflowError: Python int too large to convert to SQLite INTEGER").
Proof.
  destruct (delete_meal_answers sample_logs 3) as (Hin3 & _).
  destruct (delete_meal_answers sample_logs 2) as (Hin2 & _).
  destruct (delete_meal_answers sample_logs (- 2 ^ 63 - 1)) as (_ & Hout).
  split; [|split].
  - apply Hin3. lia.
  - specialize (Hin2 ltac:(lia)). vm_compute (sample_logs !! 2%Z) in Hin2.
    destruct Hin2 as [-> _]. reflexivity.
  - rewrite Hout by lia. reflexivity.
Defined.

(** X23. Deleting a stored log removes that log, and no other, from the
    logs of the day it was created on, so that the meal count of that day
    drops by one; the logs and the meal count of every other day stay as
    they were. *)
Theorem delete_meal_log_removes_log_from_its_day
    (db : gmap Z db.MealLog) (log_id : Z) (log : db.MealLog) (d : Z) :
  db !! log_id = Some log -> (- 2 ^ 63 <= log_id < 2 ^ 63)%Z ->
  exists db',
    db.delete_meal_log db log_id = Ok db' /\
    logs_on db d ≡ₚ
      (if decide (db.date_of (db.created_at log) = d) then [log] else [])
      ++ logs_on db' d /\
    db.meals (day_row db d) =
      ((if decide (db.date_of (db.created_at log) = d) then 1 else 0)
       + db.meals (day_row db' d))%Z.
Proof.
  intros Hl Hid. unfold db.delete_meal_log.
  rewrite (sqlite_integer_ok log_id Hid), Hl.
  eexists. split; [reflexivity|].
  pose proof (logs_on_delete db log_id log d Hl) as Hp.
  split; [exact Hp|].
  cbn [day_row db.meals].
  rewrite (Permutation_length Hp), length_app. case_decide; simpl; lia.
Qed.

Lemma delete_meal_log_removes_log_from_its_day_witness :
  exists db',
    db.delete_meal_log sample_logs 2 = Ok db' /\
    db.meals (day_row sample_logs 739000) = 2%Z /\
    db.meals (day_row db' 739000) = 1%Z /\
    db.meals (day_row db' 739001) = db.meals (day_row sample_logs 739001).
Proof.
  destruct (delete_meal_log_removes_log_from_its_day sample_logs 2
              (sample_log (739000 * 86400000000 + 86399999999) 200.5 "b.jpg")
              739000) as (db' & Hd & _ & Hm); [vm_compute; reflexivity | lia |].
  destruct (delete_meal_log_removes_log_from_its_day sample_logs 2
              (sample_log (739000 * 86400000000 + 86399999999) 200.5 "b.jpg")
              739001) as (db'' & Hd' & _ & Hm'); [vm_compute; reflexivity | lia |].
  rewrite Hd in Hd'. injection Hd' as <-.
  exists db'. split; [exact Hd|].
  assert (H2 : db.meals (day_row sample_logs 739000) = 2%Z)
    by (vm_compute; reflexivity).
  split; [exact H2|]. split.
  - rewrite H2 in Hm. clear Hm'.
    case_decide as Hday; [lia | exfalso; apply Hday; vm_compute; reflexivity].
  - rewrite Hm'. clear Hm.
    case_decide as Hday; [exfalso; vm_compute in Hday; discriminate | lia].
Defined.

Lemma daily_summary_covers_one_day_witness :
  db.daily_summary sample_logs 739000 = Ok (day_summary sample_logs 739000) /\
  db.sum_calories_kcal (day_summary sample_logs 739000) == 500.5 /\
  db.daily_summary sample_logs 3652059 = db.OverflowError.
Proof.
  split; [|split].
  - apply (daily_summary_covers_one_day sample_logs 739000).
    unfold date_ok, db.MIN_ORDINAL, db.MAX_ORDINAL. lia.
  - vm_compute. reflexivity.
  - apply (daily_summary_covers_one_day sample_logs 3652059).
    unfold date_ok, db.MIN_ORDINAL, db.MAX_ORDINAL. lia.
Defined.

Lemma history_by_day_lists_consecutive_days_witness :
  db.history_by_day sample_logs 739000 2 =
    Ok [day_row sample_logs 739000; day_row sample_logs 739001] /\
  map db.meals [day_row sample_logs 739000; day_row sample_logs 739001] = [2; 1]%Z /\
  db.history_by_day sample_logs 3652058 2 = db.OverflowError.
Proof.
  split; [|split].
  - apply (history_by_day_lists_consecutive_days sample_logs 739000 2).
    unfold date_ok, db.MIN_ORDINAL, db.MAX_ORDINAL. lia.
  - vm_compute. reflexivity.
  - apply (history_by_day_lists_consecutive_days sample_logs 3652058 2).
    unfold date_ok, db.MIN_ORDINAL, db.MAX_ORDINAL. lia.
Defined.

Lemma rolling_summary_of_one_day_is_daily_summary_witness :
  db.rolling_summary sample_logs 739005 1 (Some 739000%Z) =
  db.daily_summary sample_logs 739000.
Proof.
  apply (rolling_summary_of_one_day_is_daily_summary sample_logs 739005 739000).
  unfold date_ok, db.MIN_ORDINAL, db.MAX_ORDINAL. lia.
Defined.

Lemma rolling_summary_covers_daily_rows_witness :
  exists sm rows,
    db.rolling_summary sample_logs 739005 2 (Some 739001%Z) = Ok sm /\
    db.history_by_day sample_logs 739000 2 = Ok rows /\
    db.days sm = 2%Z /\
    map db.meals rows = [2; 1]%Z /\
    length (db.created_between (db.midnight 739000) (db.midnight 739002) sample_logs)
      = 3%nat.
Proof.
  destruct (rolling_summary_covers_daily_rows sample_logs 739005 739001 2)
    as (sm & rows & logs & Hsm & Hrows & Hlogs & Hdays & _ & _ & _ & _ & Hr & _ & _ & Hm).
  - unfold date_ok, db.MIN_ORDINAL, db.MAX_ORDINAL. lia.
  - unfold db.MAX_ORDINAL. lia.
  - lia.
  - exists sm, rows. split; [exact Hsm|]. split; [exact Hrows|].
    split; [exact Hdays|].
    assert (Hmeals : map db.meals rows = [2; 1]%Z)
      by (rewrite Hr; vm_compute; reflexivity).
    split; [exact Hmeals|].
    rewrite Hmeals, Hlogs in Hm. cbn [foldr] in Hm.
    replace (739001 + 1 - 2)%Z with 739000%Z in Hm by lia.
    replace (739001 + 1)%Z with 739002%Z in Hm by lia.
    lia.
Defined.

Section Stages.

Lemma dom_stage {A B} (g : string -> A -> B) (m : gmap string A) :
  dom (map_imap (fun k v => Some (g k v)) m) = dom m.
Proof.
  apply set_eq. intros k. rewrite !elem_of_dom, map_lookup_imap.
  destruct (m !! k); simpl; split; intros [? ?]; try discriminate; eauto.
Qed.

End Stages.

(** X24. [estimate_volumes_ml] returns one entry per distinct label of
    the detections, and the weight, calorie and macro stages keep exactly
    these keys. *)
Theorem volume_first_stages_keep_labels
    (dets : list pipeline.FoodItemDetection) (s : State) :
  exists vols s',
    pipeline.estimate_volumes_ml dets s = (Ok vols, s') /\
    dom vols = list_to_set (map pipeline.label dets) /\
    dom (pipeline.convert_volume_to_weight_g vols) = dom vols /\
    dom (pipeline.compute_calories_kcal (pipeline.convert_volume_to_weight_g vols))
      = dom vols /\
    dom (pipeline.compute_macros_grams (pipeline.convert_volume_to_weight_g vols))
      = dom vols.
Proof.
  unfold pipeline.estimate_volumes_ml.
  destruct (estimate_volumes_loop_spec dets ∅ s) as (vols & s' & Hv & Hin & Hout).
  exists vols, s'. split; [exact Hv|].
  assert (Hdom : dom vols = list_to_set (map pipeline.label dets)).
  { apply set_eq. intros l. rewrite elem_of_dom, elem_of_list_to_set.
    destruct (decide (l ∈ map pipeline.label dets)) as [Hl|Hl].
    - destruct (Hin l Hl) as (u & _ & _ & Hu). rewrite Hu. split; eauto.
    - rewrite (Hout l Hl), lookup_empty. split; [intros [? ?]; discriminate | tauto]. }
  split; [exact Hdom|].
  unfold pipeline.convert_volume_to_weight_g, pipeline.compute_calories_kcal,
    pipeline.compute_macros_grams.
  rewrite !dom_stage. repeat split.
Qed.
